(** * linuxProcessMonitor: the ingestion, store, statistics, incident and
    analysis logic of the viewer, embedded from the TypeScript sources.

    A JavaScript number is a double.  It is modelled by a rational ([Q])
    that is read as the double nearest to it, and every sum, difference,
    product and quotient the sources compute is rounded to the nearest
    double, ties to even ([Float64.round]), as the language rounds it;
    comparisons, [Math.min] and [Math.max] are exact on doubles.  The
    infinities and not-a-number appear only where the sources produce them
    on the data at hand (invalid dates, open filter bounds) and are modelled
    there explicitly; numbers beyond the largest double are not modelled.

    A string is a sequence of code units; the model holds the code units
    below 256. *)

From Stdlib Require Import List String Ascii Bool Arith ZArith QArith Qround Qabs Qpower.
From Stdlib Require Import Lia Lqa DecimalString.
Import ListNotations.

Set Implicit Arguments.

(** ** Binary64 rounding *)

Module Float64.

Definition pow2 (k : Z) : Q := Qpower 2 k.

(** The exponent of the unit in the last place of the doubles around [x]:
    [e - 52] for [2^e <= |x| < 2^(e+1)], and -1074 throughout the subnormal
    range (there the scaled magnitude is below 2 and its logarithm 0). *)
Definition ulp_exponent (x : Q) : Z :=
  (Z.log2 (Qfloor (Qabs x * pow2 1022)) - 1074)%Z.

(** The integer nearest to [q], the even one on a tie. *)
Definition nearest_even (q : Q) : Z :=
  let f := Qfloor q in
  match Qcompare (q - inject_Z f) (1 # 2) with
  | Lt => f
  | Gt => (f + 1)%Z
  | Eq => if Z.even f then f else (f + 1)%Z
  end.

(** For [0 <= x]: the nearest multiple of the unit in the last place. *)
Definition round_magnitude (x : Q) : Q :=
  let k := ulp_exponent x in
  inject_Z (nearest_even (x / pow2 k)) * pow2 k.

(** The double nearest to [x], ties to even, as a fraction in lowest
    terms. *)
Definition round (x : Q) : Q :=
  Qred (if Qle_bool 0 x then round_magnitude x else - round_magnitude (- x)).

End Float64.

(** ** The host language: values, truthiness, numbers, strings *)

Module JS.

(** Values as [JSON.parse] yields them, plus [undefined] for a property
    that is not there. *)
#[warnings="-register-all"]
Inductive value : Type :=
| Undefined
| Null
| Bool (b : bool)
| Num (q : Q)
| Str (s : string)
| Arr (items : list value)
| Obj (fields : list (string * value)).

Definition str_empty (s : string) : bool :=
  match s with EmptyString => true | String _ _ => false end.

(** [ToBoolean]: what [x ? a : b], [x || d] and [!x] test. *)
Definition truthy (v : value) : bool :=
  match v with
  | Undefined | Null => false
  | Bool b => b
  | Num q => negb (Qeq_bool q 0)   (* 0 and -0 are falsy *)
  | Str s => negb (str_empty s)
  | Arr _ | Obj _ => true
  end.

Fixpoint assoc (name : string) (fields : list (string * value)) : option value :=
  match fields with
  | [] => None
  | (k, v) :: rest => if String.eqb k name then Some v else assoc name rest
  end.

(** Truthiness of a number: zero is falsy. *)
Definition nonzero (q : Q) : bool := negb (Qeq_bool q 0).

(** [x + y], [x - y], [x * y] and [x / y] on doubles: the exact result of
    the operation on the two doubles, rounded. *)
Definition add (x y : Q) : Q :=
  Float64.round (Float64.round x + Float64.round y).

Definition sub (x y : Q) : Q :=
  Float64.round (Float64.round x - Float64.round y).

Definition mul (x y : Q) : Q :=
  Float64.round (Float64.round x * Float64.round y).

Definition div (x y : Q) : Q :=
  Float64.round (Float64.round x / Float64.round y).

Arguments add : simpl never.
Arguments sub : simpl never.
Arguments mul : simpl never.
Arguments div : simpl never.

(** Comparisons of numbers. *)
Definition ltb (a b : Q) : bool := negb (Qle_bool b a).
Definition gtb (a b : Q) : bool := ltb b a.

Definition Math_max (a b : Q) : Q := if ltb a b then b else a.
Definition Math_min (a b : Q) : Q := if ltb b a then b else a.

(** [Math.ceil] of a quotient of two array lengths. *)
Definition Math_ceil (q : Q) : Z := Qceiling q.

(** [x.toFixed(d)] picks the integer [n] with [n / 10^d] nearest to [|x|],
    the larger one on a tie, and keeps the sign of [x]. *)
Definition scale10 (d : nat) : positive := Z.to_pos (10 ^ Z.of_nat d).

Definition fixed_units (d : nat) (x : Q) : Z :=
  Qfloor (Qabs x * inject_Z (Zpos (scale10 d)) + (1 # 2)).

(** [Number(x.toFixed(d))] and [parseFloat(x.toFixed(d))]. *)
Definition round_fixed (d : nat) (x : Q) : Q :=
  let n := fixed_units d x in
  Qmake (if ltb x 0 then (- n)%Z else n) (scale10 d).

Definition digits (n : Z) : string :=
  NilZero.string_of_uint (N.to_uint (Z.to_N n)).

Fixpoint zeros (k : nat) : string :=
  match k with O => EmptyString | S k' => String "0" (zeros k') end.

Definition pad_left (width : nat) (s : string) : string :=
  (zeros (width - String.length s) ++ s)%string.

(** The text of [x.toFixed(d)]. *)
Definition toFixed (d : nat) (x : Q) : string :=
  let m := pad_left (S d) (digits (fixed_units d x)) in
  let k := (String.length m - d)%nat in
  let body :=
    match d with
    | O => m
    | S _ => (substring 0 k m ++ "." ++ substring k d m)%string
    end in
  ((if ltb x 0 then "-" else EmptyString) ++ body)%string.

(** The white space and the line terminators that [trim] strips, among the
    code units below 256: tab, line feed, vertical tab, form feed, carriage
    return, space and the no-break space. *)
Definition is_white (c : ascii) : bool :=
  let n := nat_of_ascii c in
  ((n =? 9) || (n =? 10) || (n =? 11) || (n =? 12) || (n =? 13) || (n =? 32)
   || (n =? 160))%nat.

Fixpoint trimStart (s : string) : string :=
  match s with
  | EmptyString => EmptyString
  | String c rest => if is_white c then trimStart rest else s
  end.

Fixpoint trimEnd (s : string) : string :=
  match s with
  | EmptyString => EmptyString
  | String c rest =>
      let t := trimEnd rest in
      if is_white c && str_empty t then EmptyString else String c t
  end.

Definition trim (s : string) : string := trimEnd (trimStart s).

Definition newline : ascii := ascii_of_nat 10.

(** [s.split('\n')]: never empty, the empty text gives one empty line. *)
Fixpoint split_lines (s : string) : list string :=
  match s with
  | EmptyString => [EmptyString]
  | String c rest =>
      if Ascii.eqb c newline then EmptyString :: split_lines rest
      else match split_lines rest with
           | [] => [String c EmptyString]
           | l :: ls => String c l :: ls
           end
  end.

End JS.

(** ** types.ts *)

(** [timestamp], [pid] and [command] are declared [string], [number] and
    [string?]; the parser stores whatever the decoded line carries there, so
    they are kept as values.  An absent [memory_percent] is [None]. *)
Record CpuLogEntry : Type := {
  timestamp : JS.value;
  pid : JS.value;
  cpu_user_percent : Q;
  cpu_sys_percent : Q;
  memory_percent : option Q;
  command : JS.value
}.

(** ** The host environment: clock, dates, random numbers, JSON *)

(** What the code asks of its platform.  The clock and the random
    generator are read through counters that the code threads along. *)
Record Host : Type := {
  (** the instant (ms) read by the [k]-th [new Date()] *)
  Date_now : nat -> Z;
  (** [new Date(t).toISOString()] for an instant in the range of [Date] *)
  Date_toISOString : Z -> string;
  (** [new Date(v).getTime()]; [None] is NaN, an invalid date *)
  Date_getTime : JS.value -> option Z;
  (** the [k]-th result of [Math.random()] *)
  Math_random : nat -> Q;
  (** [JSON.parse]; [None] is its SyntaxError *)
  JSON_parse : string -> option JS.value
}.

(** ** utils/parser.ts *)

Module Parser.
Section WithHost.
Context (host : Host).

(** The object literal pushed for a line that passed the validation; [k]
    counts the clock readings made so far.  [None] is the TypeError of
    calling [toFixed] on a truthy [memory_percent] that is not a number,
    which the [catch] of the loop turns into a skipped line. *)
Definition build_entry (k : nat) (entry : list (string * JS.value)) (u s : Q)
  : option CpuLogEntry * nat :=
  let prop name :=
    match JS.assoc name entry with Some x => x | None => JS.Undefined end in
  let ts := prop "timestamp"%string in
  let '(ts', k') :=
    if JS.truthy ts then (ts, k)
    else (JS.Str (Date_toISOString host (Date_now host k)), S k) in
  let pid' :=
    if JS.truthy (prop "pid"%string) then prop "pid"%string else JS.Num 0 in
  let mem := prop "memory_percent"%string in
  let mem' :=
    if JS.truthy mem then
      match mem with
      | JS.Num m => Some (Some (JS.round_fixed 2 m))
      | _ => None
      end
    else Some None in
  match mem' with
  | None => (None, k')
  | Some m =>
      (Some {| timestamp := ts';
               pid := pid';
               cpu_user_percent := JS.round_fixed 2 u;
               cpu_sys_percent := JS.round_fixed 2 s;
               memory_percent := m;
               command := prop "command"%string |}, k')
  end.

(** One iteration of the loop body: the entry pushed, if any.  Reading
    [cpu_user_percent] of a decoded [null] throws and of any other value
    that is not an object gives [undefined]; both end in a skipped line. *)
Definition parse_line (k : nat) (line : string) : option CpuLogEntry * nat :=
  let cleanLine := JS.trim line in
  if JS.str_empty cleanLine then (None, k)
  else
    match JSON_parse host cleanLine with
    | None => (None, k)
    | Some (JS.Obj entry) =>
        match JS.assoc "cpu_user_percent"%string entry,
              JS.assoc "cpu_sys_percent"%string entry with
        | Some (JS.Num u), Some (JS.Num s) => build_entry k entry u s
        | _, _ => (None, k)
        end
    | Some _ => (None, k)
    end.

Fixpoint parse_lines (k : nat) (lines : list string) : list CpuLogEntry :=
  match lines with
  | [] => []
  | line :: rest =>
      match parse_line k line with
      | (Some e, k') => e :: parse_lines k' rest
      | (None, k') => parse_lines k' rest
      end
  end.

Definition parseLogData (input : string) : list CpuLogEntry :=
  parse_lines 0 (JS.split_lines (JS.trim input)).

(** The entry pushed at index [i]; [r] counts the random numbers drawn so
    far.  The three draws are made in the order of the object literal. *)
Definition mock_entry (now : Z) (i r : nat) : CpuLogEntry :=
  let time := (now - (60 - Z.of_nat i) * 1000)%Z in
  let isSpike := ((40 <? i) && (i <? 50))%nat in
  let baseUser : Q := if isSpike then 60 else 10 in
  let baseSys : Q := if isSpike then 20 else 2 in
  {| timestamp := JS.Str (Date_toISOString host time);
     pid := JS.Num 1234;
     cpu_user_percent :=
       JS.Math_min 100 (JS.add baseUser (JS.mul (Math_random host r) 10));
     cpu_sys_percent :=
       JS.Math_min 100 (JS.add baseSys (JS.mul (Math_random host (r + 1)) 5));
     memory_percent := Some (JS.add 45 (Math_random host (r + 2)));
     command := JS.Str "python3 worker.py" |}.

(** [for (let i = ...; i < 60; i++)], with [todo] iterations left. *)
Fixpoint mock_loop (now : Z) (todo i r : nat) : list CpuLogEntry :=
  match todo with
  | O => []
  | S todo' => mock_entry now i r :: mock_loop now todo' (S i) (r + 3)
  end.

(** [k] and [r] count the clock readings and random draws made before the
    call. *)
Definition generateMockData (k r : nat) : list CpuLogEntry :=
  let now := Date_now host k in
  mock_loop now 60 0 r.

End WithHost.
End Parser.

(** ** components/Dashboard.tsx *)

Module Dashboard.

(** The time values the range filter compares: an instant, NaN, or one of
    the infinities that stand for an open bound. *)
Inductive time_value : Type :=
| NaN
| NegInfinity
| PosInfinity
| Time (ms : Z).

(** [a >= b] and [a <= b] on time values; false whenever NaN takes part. *)
Definition time_geb (a b : time_value) : bool :=
  match a, b with
  | NaN, _ | _, NaN => false
  | _, NegInfinity => true
  | PosInfinity, _ => true
  | NegInfinity, _ => false
  | _, PosInfinity => false
  | Time x, Time y => (y <=? x)%Z
  end.

Definition time_leb (a b : time_value) : bool := time_geb b a.

Record Incident : Type := {
  start : JS.value;
  end_ : JS.value;
  maxVal : Q
}.

(** The object returned by the [stats] memo.  The averages are numbers on
    the empty view and [toFixed] texts otherwise. *)
Record Stats : Type := {
  avgUser : JS.value;
  avgSys : JS.value;
  maxTotal : JS.value;
  avgMem : JS.value;
  count : nat
}.

(** The variables of the incident sweep. *)
Record Sweep : Type := {
  incidents : list Incident;
  consecutiveCount : nat;
  currentStart : option JS.value;
  currentMax : Q
}.

Definition MAX_HISTORY : nat := 100.

(** [arr.forEach((d, idx) => ...)] over a state, stopping at an exception. *)
Fixpoint forEach_idx {A St : Type} (f : St -> A -> nat -> option St)
  (l : list A) (idx : nat) (st : St) : option St :=
  match l with
  | [] => Some st
  | d :: rest =>
      match f st d idx with
      | None => None
      | Some st' => forEach_idx f rest (S idx) st'
      end
  end.

(** [arr[i - 1]] for an index [i]; index -1 holds nothing. *)
Definition at_pred {A : Type} (arr : list A) (i : nat) : option A :=
  match i with
  | O => None
  | S j => nth_error arr j
  end.

Section WithHost.
Context (host : Host).

Definition drift (r : nat) : Q := JS.mul (JS.sub (Math_random host r) (1 # 2)) 10.

Definition clamp (num : Q) : Q := JS.Math_min 100 (JS.Math_max 0 num).

(** The rolling window: keep the last [MAX_HISTORY] items. *)
Definition rolling_window (prevData : list CpuLogEntry) (newEntry : CpuLogEntry)
  : list CpuLogEntry :=
  let updated := prevData ++ [newEntry] in
  if (MAX_HISTORY <? List.length updated)%nat
  then skipn (List.length updated - MAX_HISTORY) updated
  else updated.

(** [new Date(t)] is a valid date when [t] lies within 8.64e15 ms of the
    epoch, and an invalid one otherwise. *)
Definition in_Date_range (t : Z) : bool := (Z.abs t <=? 8640000000000000)%Z.

(** The entry a tick derives from the last one; [r] counts the random draws
    made so far, and the third draw is made only when the last entry has a
    truthy [memory_percent].  [None] is the RangeError of [toISOString] on an
    invalid date: the last timestamp is no date, or the instant one second
    after it lies beyond the range of [Date]. *)
Definition next_entry (r : nat) (lastEntry : CpuLogEntry)
  : option (CpuLogEntry * nat) :=
  let lastDate := Date_getTime host (timestamp lastEntry) in
  let newDate :=
    match lastDate with
    | Some t => if in_Date_range (t + 1000) then Some (t + 1000)%Z else None
    | None => None
    end in
  let newUser := clamp (JS.add (cpu_user_percent lastEntry) (drift r)) in
  let newSys :=
    clamp (JS.add (cpu_sys_percent lastEntry) (JS.div (drift (r + 1)) 2)) in
  let '(newMem, r') :=
    match memory_percent lastEntry with
    | Some m =>
        if JS.nonzero m
        then (Some (clamp (JS.add m (JS.div (drift (r + 2)) 5))), (r + 3)%nat)
        else (None, (r + 2)%nat)
    | None => (None, (r + 2)%nat)
    end in
  match newDate with
  | None => None
  | Some t =>
      Some ({| timestamp := JS.Str (Date_toISOString host t);
               pid := pid lastEntry;
               cpu_user_percent := JS.round_fixed 2 newUser;
               cpu_sys_percent := JS.round_fixed 2 newSys;
               memory_percent :=
                 match newMem with
                 | Some m => if JS.nonzero m then Some (JS.round_fixed 2 m) else None
                 | None => None
                 end;
               command := command lastEntry |}, r')
  end.

(** The updater the interval passes to [setLocalData].  [None] is an
    exception: the TypeError of an empty store, or that of [next_entry]. *)
Definition stream_tick (r : nat) (prevData : list CpuLogEntry)
  : option (list CpuLogEntry * nat) :=
  match nth_error prevData (List.length prevData - 1) with
  | None => None
  | Some lastEntry =>
      match next_entry r lastEntry with
      | None => None
      | Some (newEntry, r') => Some (rolling_window prevData newEntry, r')
      end
  end.

(** [n] ticks in a row. *)
Fixpoint stream_ticks (n r : nat) (data : list CpuLogEntry)
  : option (list CpuLogEntry * nat) :=
  match n with
  | O => Some (data, r)
  | S n' =>
      match stream_tick r data with
      | None => None
      | Some (data', r') => stream_ticks n' r' data'
      end
  end.

Definition entry_time (d : CpuLogEntry) : time_value :=
  match Date_getTime host (timestamp d) with
  | Some t => Time t
  | None => NaN
  end.

Definition bound_time (text : string) : time_value :=
  match Date_getTime host (JS.Str text) with
  | Some t => Time t
  | None => NaN
  end.

Definition filteredData (isStreaming : bool) (localData : list CpuLogEntry)
  (filterStart filterEnd : string) : list CpuLogEntry :=
  if isStreaming then localData
  else if JS.str_empty filterStart && JS.str_empty filterEnd then localData
  else
    let startTs :=
      if negb (JS.str_empty filterStart) then bound_time filterStart
      else NegInfinity in
    let endTs :=
      if negb (JS.str_empty filterEnd) then bound_time filterEnd
      else PosInfinity in
    filter (fun d =>
              let t := entry_time d in
              time_geb t startTs && time_leb t endTs) localData.

End WithHost.

(** The sums the [stats] loop accumulates. *)
Record Sums : Type := {
  sumUser : Q;
  sumSys : Q;
  sumMem : Q;
  maxSeen : Q;
  memCount : nat
}.

Definition stats_step (acc : Sums) (d : CpuLogEntry) : Sums :=
  let total := JS.add (cpu_user_percent d) (cpu_sys_percent d) in
  {| sumUser := JS.add (sumUser acc) (cpu_user_percent d);
     sumSys := JS.add (sumSys acc) (cpu_sys_percent d);
     sumMem := match memory_percent d with
               | Some m => JS.add (sumMem acc) m
               | None => sumMem acc
               end;
     maxSeen := if JS.gtb total (maxSeen acc) then total else maxSeen acc;
     memCount := match memory_percent d with
                 | Some _ => S (memCount acc)
                 | None => memCount acc
                 end |}.

Definition number_of_nat (n : nat) : Q := inject_Z (Z.of_nat n).

Definition stats (filteredData : list CpuLogEntry) : Stats :=
  match filteredData with
  | [] =>
      {| avgUser := JS.Num 0; avgSys := JS.Num 0; maxTotal := JS.Num 0;
         avgMem := JS.Num 0; count := 0 |}
  | _ :: _ =>
      let acc :=
        fold_left stats_step filteredData
          {| sumUser := 0; sumSys := 0; sumMem := 0; maxSeen := 0; memCount := 0 |} in
      let n := number_of_nat (List.length filteredData) in
      {| avgUser := JS.Str (JS.toFixed 1 (JS.div (sumUser acc) n));
         avgSys := JS.Str (JS.toFixed 1 (JS.div (sumSys acc) n));
         maxTotal := JS.Str (JS.toFixed 1 (maxSeen acc));
         avgMem := if (0 <? memCount acc)%nat
                   then JS.Str (JS.toFixed 1
                                  (JS.div (sumMem acc) (number_of_nat (memCount acc))))
                   else JS.Str "N/A";
         count := List.length filteredData |}
  end.

(** [consecutiveCount >= 3 && currentStart]: the start is [null] or a
    timestamp, and a timestamp counts when it is truthy. *)
Definition run_reportable (st : Sweep) : bool :=
  (3 <=? consecutiveCount st)%nat
  && match currentStart st with
     | Some ts => JS.truthy ts
     | None => false
     end.

(** The body of the [forEach] of the incident sweep.  [None] is the
    TypeError of reading [timestamp] of a missing previous entry. *)
Definition sweep_step (filteredData : list CpuLogEntry) (cpuThreshold : Q)
  (st : Sweep) (d : CpuLogEntry) (idx : nat) : option Sweep :=
  let total := JS.add (cpu_user_percent d) (cpu_sys_percent d) in
  if JS.gtb total cpuThreshold then
    Some {| incidents := incidents st;
            consecutiveCount := S (consecutiveCount st);
            currentStart :=
              if (consecutiveCount st =? 0)%nat then Some (timestamp d)
              else currentStart st;
            currentMax :=
              if (consecutiveCount st =? 0)%nat then total
              else JS.Math_max (currentMax st) total |}
  else
    let closed :=
      if run_reportable st then
        match at_pred filteredData idx, currentStart st with
        | Some prev, Some s =>
            Some (incidents st ++
                  [{| start := s; end_ := timestamp prev; maxVal := currentMax st |}])
        | _, _ => None
        end
      else Some (incidents st) in
    match closed with
    | None => None
    | Some inc =>
        Some {| incidents := inc; consecutiveCount := 0;
                currentStart := None; currentMax := 0 |}
    end.

(** The test after the loop: the run still open at the end of the data. *)
Definition flush (filteredData : list CpuLogEntry) (o : option Sweep)
  : option (list Incident) :=
  match o with
  | None => None
  | Some st =>
      if run_reportable st then
        match at_pred filteredData (List.length filteredData), currentStart st with
        | Some last, Some s =>
            Some (incidents st ++
                  [{| start := s; end_ := timestamp last; maxVal := currentMax st |}])
        | _, _ => None
        end
      else Some (incidents st)
  end.

Definition alertIncidents (filteredData : list CpuLogEntry) (cpuThreshold : Q)
  : option (list Incident) :=
  flush filteredData
    (forEach_idx (sweep_step filteredData cpuThreshold) filteredData 0
       {| incidents := []; consecutiveCount := 0;
          currentStart := None; currentMax := 0 |}).

End Dashboard.

(** ** services/geminiService.ts *)

Module GeminiService.

(** What [ai.models.generateContent] does with a request: it throws, or it
    answers with a response whose [text] is a string or [undefined]. *)
Inductive GenerateResult : Type :=
| Throws
| Response (text : option string).

(** The request sent to the model.  The prompt is a fixed template around
    [JSON.stringify(sampledData)], so it is identified by the data it
    embeds. *)
Record Request : Type := {
  model : string;
  sampled : list CpuLogEntry
}.

(** The calls made on the client library, in order. *)
Inductive Event : Type :=
| NewClient (apiKey : string)
| GenerateContent (req : Request).

(** How the promise of [analyzeCpuData] settles. *)
Inductive Outcome : Type :=
| Rejected (message : string)
| Resolved (result : JS.value).

Definition fallback : JS.value :=
  JS.Obj [ ("summary"%string, JS.Str "Failed to generate analysis using AI.");
           ("recommendations"%string,
            JS.Arr [JS.Str "Check your network connection"; JS.Str "Verify API Key"]);
           ("severity"%string, JS.Str "LOW") ].

(** The message of the error thrown when the key is missing. *)
Definition missing_key_message : string :=
  "API Key not found. Please ensure process.env.API_KEY is set.".

(** [arr.filter((x, index) => ...)]. *)
Fixpoint filter_idx {A : Type} (f : A -> nat -> bool) (l : list A) (index : nat)
  : list A :=
  match l with
  | [] => []
  | x :: rest =>
      if f x index then x :: filter_idx f rest (S index)
      else filter_idx f rest (S index)
  end.

(** The quotient is taken exactly: for the length of an array, which is
    below 2^32, the double nearest to [length / 100] is that quotient when it
    is an integer and lies strictly between the same two integers
    otherwise, so its ceiling is the ceiling of the quotient. *)
Definition step_of (data : list CpuLogEntry) : Z :=
  JS.Math_ceil (Dashboard.number_of_nat (List.length data) / 100).

(** [index % step === 0]; the remainder by zero is NaN, which equals
    nothing. *)
Definition selected (step : Z) (index : nat) : bool :=
  match step with
  | Z0 => false
  | _ => (Z.rem (Z.of_nat index) step =? 0)%Z
  end.

Definition downsample (data : list CpuLogEntry) : list CpuLogEntry :=
  let step := step_of data in
  filter_idx (fun _ index => selected step index) data 0.

Section WithHost.
Context (host : Host).

(** [API_KEY] is the value of [process.env.API_KEY], [None] when unset.
    The result pairs the calls made with the way the promise settles.
    Building the client from a key is the one call outside the [try]; it is
    taken not to throw. *)
Definition analyzeCpuData (API_KEY : option string)
  (generateContent : Request -> GenerateResult) (data : list CpuLogEntry)
  : list Event * Outcome :=
  match API_KEY with
  | None => ([], Rejected missing_key_message)
  | Some key =>
      if JS.str_empty key then ([], Rejected missing_key_message)
      else
        let sampledData := downsample data in
        let req := {| model := "gemini-2.5-flash"; sampled := sampledData |} in
        let calls := [NewClient key; GenerateContent req] in
        match generateContent req with
        | Throws => (calls, Resolved fallback)
        | Response None => (calls, Resolved fallback)
        | Response (Some resultText) =>
            if JS.str_empty resultText then (calls, Resolved fallback)
            else
              match JSON_parse host resultText with
              | None => (calls, Resolved fallback)
              | Some result => (calls, Resolved result)
              end
        end
  end.

End WithHost.
End GeminiService.

(** ** A reference host, used to run the definitions on concrete inputs *)

Module RefHost.

Local Open Scope Z_scope.

(** Days since 1970-01-01 of a proleptic Gregorian date, and back. *)
Definition days_from_civil (y m d : Z) : Z :=
  let y' := if m <=? 2 then y - 1 else y in
  let era := y' / 400 in
  let yoe := y' - era * 400 in
  let doy := (153 * (if 2 <? m then m - 3 else m + 9) + 2) / 5 + d - 1 in
  let doe := yoe * 365 + yoe / 4 - yoe / 100 + doy in
  era * 146097 + doe - 719468.

Definition civil_from_days (z : Z) : Z * Z * Z :=
  let z' := z + 719468 in
  let era := z' / 146097 in
  let doe := z' - era * 146097 in
  let yoe := (doe - doe / 1460 + doe / 36524 - doe / 146096) / 365 in
  let doy := doe - (365 * yoe + yoe / 4 - yoe / 100) in
  let mp := (5 * doy + 2) / 153 in
  let d := doy - (153 * mp + 2) / 5 + 1 in
  let m := if mp <? 10 then mp + 3 else mp - 9 in
  ((if m <=? 2 then yoe + era * 400 + 1 else yoe + era * 400), m, d).

Definition pad (width : nat) (n : Z) : string :=
  JS.pad_left width (JS.digits n).

(** [YYYY-MM-DDTHH:mm:ss.sssZ], for the years 0 to 9999. *)
Definition toISOString (t : Z) : string :=
  let day := t / 86400000 in
  let ms := t mod 86400000 in
  let '(y, m, d) := civil_from_days day in
  (pad 4 y ++ "-" ++ pad 2 m ++ "-" ++ pad 2 d ++ "T"
   ++ pad 2 (ms / 3600000) ++ ":" ++ pad 2 (ms / 60000 mod 60) ++ ":"
   ++ pad 2 (ms / 1000 mod 60) ++ "." ++ pad 3 (ms mod 1000) ++ "Z")%string.

Definition digit (c : ascii) : option Z :=
  let n := nat_of_ascii c in
  if ((48 <=? n) && (n <=? 57))%nat then Some (Z.of_nat (n - 48)) else None.

(** Reads exactly [n] decimal digits. *)
Fixpoint number (n : nat) (acc : Z) (s : string) : option (Z * string) :=
  match n with
  | O => Some (acc, s)
  | S n' =>
      match s with
      | EmptyString => None
      | String c rest =>
          match digit c with
          | Some d => number n' (acc * 10 + d) rest
          | None => None
          end
      end
  end.

Definition expect (c : ascii) (s : string) : option string :=
  match s with
  | EmptyString => None
  | String c' rest => if Ascii.eqb c c' then Some rest else None
  end.

Definition bind {A B : Type} (x : option A) (f : A -> option B) : option B :=
  match x with Some a => f a | None => None end.

Definition field (n : nat) (sep : ascii) (s : string) : option (Z * string) :=
  bind (expect sep s) (number n 0).

(** The seconds, milliseconds and zone that may follow [HH:mm]. *)
Definition seconds_part (s : string) : option (Z * Z) :=
  match s with
  | EmptyString => Some (0, 0)
  | String "Z" EmptyString => Some (0, 0)
  | _ =>
      bind (field 2 ":" s) (fun '(ss, s1) =>
        match s1 with
        | EmptyString => Some (ss, 0)
        | String "Z" EmptyString => Some (ss, 0)
        | _ =>
            bind (field 3 "." s1) (fun '(ms, s2) =>
              match s2 with
              | EmptyString => Some (ss, ms)
              | String "Z" EmptyString => Some (ss, ms)
              | _ => None
              end)
        end)
  end.

(** Date-time texts of the shapes the viewer meets, all read as UTC:
    [YYYY-MM-DDTHH:mm], with optional [:ss], [.sss] and [Z]. *)
Definition parse_date (s : string) : option Z :=
  bind (number 4 0 s) (fun '(y, s1) =>
  bind (field 2 "-" s1) (fun '(m, s2) =>
  bind (field 2 "-" s2) (fun '(d, s3) =>
  bind (field 2 "T" s3) (fun '(hh, s4) =>
  bind (field 2 ":" s4) (fun '(mm, s5) =>
  bind (seconds_part s5) (fun '(ss, ms) =>
    if (1 <=? m) && (m <=? 12) && (1 <=? d) && (d <=? 31)
       && (hh <? 24) && (mm <? 60) && (ss <? 60)
    then Some (days_from_civil y m d * 86400000
               + hh * 3600000 + mm * 60000 + ss * 1000 + ms)
    else None)))))).

Definition getTime (v : JS.value) : option Z :=
  match v with
  | JS.Str s => parse_date s
  | _ => None
  end.

(** A decoder given by the table of the lines it accepts. *)
Fixpoint decode (table : list (string * JS.value)) (text : string)
  : option JS.value :=
  match table with
  | [] => None
  | (k, v) :: rest => if String.eqb k text then Some v else decode rest text
  end.

(** 2024-03-01T12:00:00.000Z *)
Definition epoch : Z := 1709294400000.

(** The host whose clock starts at [epoch] and advances a millisecond per
    reading, with the given random sequence and decoder table. *)
Definition make (random : nat -> Q) (table : list (string * JS.value)) : Host :=
  {| Date_now := fun k => epoch + Z.of_nat k;
     Date_toISOString := toISOString;
     Date_getTime := getTime;
     Math_random := random;
     JSON_parse := decode table |}.

Definition half : nat -> Q := fun _ => (1 # 2)%Q.

End RefHost.

(** ** Vocabulary of the specification *)

Module Spec.

(** The last [k] items of a list. *)
Definition lastn {A : Type} (k : nat) (l : list A) : list A :=
  skipn (List.length l - k) l.

(** A bound of the time range: absent, or an instant. *)
Definition lower_ok (S : option Z) (t : option Z) : bool :=
  match S, t with
  | None, _ => true
  | Some s, Some x => (s <=? x)%Z
  | Some _, None => false
  end.

Definition upper_ok (E : option Z) (t : option Z) : bool :=
  match E, t with
  | None, _ => true
  | Some e, Some x => (x <=? e)%Z
  | Some _, None => false
  end.

(** [S <= t <= E], an absent bound being open; a timestamp that is no
    instant lies within no bound. *)
Definition in_range (S E : option Z) (t : option Z) : bool :=
  lower_ok S t && upper_ok E t.

(** The text of a filter control stands for a bound: empty for an absent
    one, and otherwise a text the host reads as that instant. *)
Definition stands_for (host : Host) (text : string) (b : option Z) : Prop :=
  match b with
  | None => text = EmptyString
  | Some t => text <> EmptyString /\ Date_getTime host (JS.Str text) = Some t
  end.

(** The property [name] of a decoded value; [undefined] when absent. *)
Definition field (v : JS.value) (name : string) : JS.value :=
  match v with
  | JS.Obj fields =>
      match JS.assoc name fields with Some x => x | None => JS.Undefined end
  | _ => JS.Undefined
  end.

Definition is_number (v : JS.value) : bool :=
  match v with JS.Num _ => true | _ => false end.

(** A valid line: not blank, decodable as JSON, with numeric
    [cpu_user_percent] and [cpu_sys_percent]. *)
Definition valid_line (host : Host) (line : string) : bool :=
  negb (JS.str_empty (JS.trim line))
  && match JSON_parse host (JS.trim line) with
     | Some v => is_number (field v "cpu_user_percent")
                 && is_number (field v "cpu_sys_percent")
     | None => false
     end.

(** The [memory_percent] of the line is absent, falsy, or a number. *)
Definition memory_fits (host : Host) (line : string) : bool :=
  match JSON_parse host (JS.trim line) with
  | Some v => negb (JS.truthy (field v "memory_percent"))
              || is_number (field v "memory_percent")
  | None => true
  end.

(** The lines the parser keeps: the valid lines whose memory fits. *)
Definition accepted (host : Host) (line : string) : bool :=
  valid_line host line && memory_fits host line.

(** [ingested host line e]: [e] is the sample of the valid line [line].  Its
    CPU fields are those of the line rounded to 2 decimals; its memory is
    that of the line rounded to 2 decimals, and absent when the line has
    none or has 0; its timestamp is that of the line, or a reading of the
    clock when the line has none (or a falsy one); its pid is that of the
    line, or 0 when the line has none (or a falsy one). *)
Definition ingested (host : Host) (line : string) (e : CpuLogEntry) : Prop :=
  exists (v : JS.value) (u s : Q) (k : nat),
    JSON_parse host (JS.trim line) = Some v
    /\ field v "cpu_user_percent" = JS.Num u
    /\ field v "cpu_sys_percent" = JS.Num s
    /\ cpu_user_percent e = JS.round_fixed 2 u
    /\ cpu_sys_percent e = JS.round_fixed 2 s
    /\ memory_percent e
       = match field v "memory_percent" with
         | JS.Num m => if JS.nonzero m then Some (JS.round_fixed 2 m) else None
         | _ => None
         end
    /\ timestamp e
       = (if JS.truthy (field v "timestamp") then field v "timestamp"
          else JS.Str (Date_toISOString host (Date_now host k)))
    /\ pid e = (if JS.truthy (field v "pid") then field v "pid" else JS.Num 0)
    /\ command e = field v "command".

(** The credential is absent: the variable is unset, or set to the empty
    text. *)
Definition credential_absent (key : option string) : Prop :=
  key = None \/ key = Some EmptyString.


(** A sample is stamped when its timestamp is truthy. *)
Definition stamped (d : CpuLogEntry) : Prop := JS.truthy (timestamp d) = true.

(** The load of a sample: the sum of its two readings, a double; and
    whether it exceeds the threshold [T]. *)
Definition total (d : CpuLogEntry) : Q :=
  JS.add (cpu_user_percent d) (cpu_sys_percent d).

Definition above (T : Q) (d : CpuLogEntry) : bool := JS.gtb (total d) T.

Definition starts_below (T : Q) (l : list CpuLogEntry) : Prop :=
  match l with
  | [] => True
  | d :: _ => above T d = false
  end.

(** [maximal_runs T data runs]: [runs] lists, in order, the maximal
    contiguous runs of samples of [data] above [T].  A run is not empty,
    all of its samples are above [T], and it ends at the end of the data or
    before a sample that is not above [T]; the samples between runs are
    not above [T]. *)
Inductive maximal_runs (T : Q) : list CpuLogEntry -> list (list CpuLogEntry) -> Prop :=
| runs_nil : maximal_runs T [] []
| runs_below (d : CpuLogEntry) (rest : list CpuLogEntry) (rs : list (list CpuLogEntry)) :
    above T d = false ->
    maximal_runs T rest rs ->
    maximal_runs T (d :: rest) rs
| runs_run (run rest : list CpuLogEntry) (rs : list (list CpuLogEntry)) :
    run <> [] ->
    Forall (fun d => above T d = true) run ->
    starts_below T rest ->
    maximal_runs T rest rs ->
    maximal_runs T (run ++ rest) (run :: rs).

Definition sustained (run : list CpuLogEntry) : bool := (3 <=? List.length run)%nat.

(** [describes run inc]: the incident starts at the first sample of the
    run, ends at its last sample, and its peak is the greatest load of the
    run. *)
Definition describes (run : list CpuLogEntry) (inc : Dashboard.Incident) : Prop :=
  (exists d rest, run = d :: rest
                  /\ Dashboard.start inc = timestamp d
                  /\ Dashboard.end_ inc = timestamp (last rest d))
  /\ In (Dashboard.maxVal inc) (map total run)
  /\ (forall x, In x run -> total x <= Dashboard.maxVal inc).

(** For the proofs: the runs as a left-to-right pass computes them, [cur]
    being the run in progress; the peak of a run that starts with [d]; the
    incidents a run gives; and the state of the sweep after it. *)
Fixpoint split_runs (T : Q) (cur l : list CpuLogEntry) : list (list CpuLogEntry) :=
  match l with
  | [] => match cur with [] => [] | _ :: _ => [cur] end
  | d :: rest =>
      if above T d then split_runs T (cur ++ [d]) rest
      else match cur with
           | [] => split_runs T [] rest
           | _ :: _ => cur :: split_runs T [] rest
           end
  end.

Definition peak (d : CpuLogEntry) (rest : list CpuLogEntry) : Q :=
  fold_left (fun m x => JS.Math_max m (total x)) rest (total d).

Definition report (run : list CpuLogEntry) : list Dashboard.Incident :=
  match run with
  | [] => []
  | d :: rest =>
      if sustained run
      then [{| Dashboard.start := timestamp d;
               Dashboard.end_ := timestamp (last rest d);
               Dashboard.maxVal := peak d rest |}]
      else []
  end.

(** The state of the sweep with the incidents [acc] found and the run [cur]
    in progress. *)
Definition sweep_state (acc : list Dashboard.Incident) (cur : list CpuLogEntry)
  : Dashboard.Sweep :=
  {| Dashboard.incidents := acc;
     Dashboard.consecutiveCount := List.length cur;
     Dashboard.currentStart :=
       match cur with [] => None | d :: _ => Some (timestamp d) end;
     Dashboard.currentMax :=
       match cur with [] => 0 | d :: rest => peak d rest end |}.

End Spec.

(** ** Concrete lines, samples and hosts *)

Module Examples.

(** The quotation mark, and a name between quotation marks, for the text of
    JSON lines. *)
Definition quote : string := String (ascii_of_nat 34) EmptyString.

Definition quoted (s : string) : string := (quote ++ s ++ quote)%string.

(** A line with cpu_user_percent 12.345, cpu_sys_percent 1 and, for
    memory_percent, the text 45 in quotation marks. *)
Definition line_text_memory : string :=
  ("{" ++ quoted "cpu_user_percent" ++ ":12.345," ++ quoted "cpu_sys_percent"
   ++ ":1," ++ quoted "memory_percent" ++ ":" ++ quoted "45" ++ "}")%string.

Definition line_text_memory_value : JS.value :=
  JS.Obj [ ("cpu_user_percent"%string, JS.Num (12345 # 1000));
           ("cpu_sys_percent"%string, JS.Num 1);
           ("memory_percent"%string, JS.Str "45") ].

(** A line with pid 77, cpu_user_percent 12.345, cpu_sys_percent 1 and
    memory_percent 0, without timestamp. *)
Definition line_zero_memory : string :=
  ("{" ++ quoted "pid" ++ ":77," ++ quoted "cpu_user_percent" ++ ":12.345,"
   ++ quoted "cpu_sys_percent" ++ ":1," ++ quoted "memory_percent" ++ ":0}")%string.

Definition line_zero_memory_value : JS.value :=
  JS.Obj [ ("pid"%string, JS.Num 77);
           ("cpu_user_percent"%string, JS.Num (12345 # 1000));
           ("cpu_sys_percent"%string, JS.Num 1);
           ("memory_percent"%string, JS.Num 0) ].

(** A line of the capture script: timestamp 2024-03-01T12:00:05, pid 77,
    cpu_user_percent 50, cpu_sys_percent 20, memory_percent 0.004. *)
Definition line_small_memory : string :=
  ("{" ++ quoted "timestamp" ++ ":" ++ quoted "2024-03-01T12:00:05" ++ ","
   ++ quoted "pid" ++ ":77," ++ quoted "cpu_user_percent" ++ ":50,"
   ++ quoted "cpu_sys_percent" ++ ":20," ++ quoted "memory_percent"
   ++ ":0.004}")%string.

Definition line_small_memory_value : JS.value :=
  JS.Obj [ ("timestamp"%string, JS.Str "2024-03-01T12:00:05");
           ("pid"%string, JS.Num 77);
           ("cpu_user_percent"%string, JS.Num 50);
           ("cpu_sys_percent"%string, JS.Num 20);
           ("memory_percent"%string, JS.Num (4 # 1000)) ].

(** The decoder of the reference host on the lines above; any other text
    is a syntax error. *)
Definition lines_table : list (string * JS.value) :=
  [ (line_text_memory, line_text_memory_value);
    (line_zero_memory, line_zero_memory_value);
    (line_small_memory, line_small_memory_value) ].

Definition line_host : Host := RefHost.make RefHost.half lines_table.

Definition newline : string := String JS.newline EmptyString.

(** A random sequence that starts with the given draws. *)
Definition draws (l : list Q) : nat -> Q := fun k => nth k l (1 # 2).

Definition tick_host (l : list Q) : Host := RefHost.make (draws l) [].

(** A last sample at 50% user and 20% system load with the given memory. *)
Definition last_sample (mem : option Q) : CpuLogEntry :=
  {| timestamp := JS.Str "2024-03-01T12:00:00.000Z";
     pid := JS.Num 1234;
     cpu_user_percent := 50;
     cpu_sys_percent := 20;
     memory_percent := mem;
     command := JS.Str "python3 worker.py" |}.

(** A sample with the given loads, stamped [i] seconds after the epoch of
    the reference host. *)
Definition sample (i : Z) (user sys : Q) : CpuLogEntry :=
  {| timestamp := JS.Str (RefHost.toISOString (RefHost.epoch + i * 1000));
     pid := JS.Num 1234;
     cpu_user_percent := user;
     cpu_sys_percent := sys;
     memory_percent := None;
     command := JS.Str "python3 worker.py" |}.

(** Samples whose loads are 90, 90, 90, 10, 95, 95, 95, 95, 10. *)
Definition sample_loads : list CpuLogEntry :=
  [ sample 0 70 20; sample 1 70 20; sample 2 70 20; sample 3 8 2;
    sample 4 75 20; sample 5 75 20; sample 6 75 20; sample 7 75 20;
    sample 8 8 2 ].

(** 250 samples, one per second. *)
Definition many_samples : list CpuLogEntry :=
  map (fun i => sample (Z.of_nat i) 1 1) (seq 0 250).

(** Three samples at load 90 of which the first has the empty text for
    timestamp. *)
Definition unstamped_run : list CpuLogEntry :=
  [ {| timestamp := JS.Str EmptyString; pid := JS.Num 1234;
       cpu_user_percent := 70; cpu_sys_percent := 20;
       memory_percent := None; command := JS.Undefined |};
    sample 1 70 20; sample 2 70 20 ].

End Examples.

(** ** App.tsx and the handlers of components/SetupView.tsx *)

Module App.

Inductive AppState : Type := SETUP | DASHBOARD.

(** The two pieces of state of the [App] component. *)
Record Model : Type := {
  state : AppState;
  data : list CpuLogEntry
}.

Definition initial : Model := {| state := SETUP; data := [] |}.

Definition handleDataLoaded (loadedData : list CpuLogEntry) (m : Model) : Model :=
  {| state := DASHBOARD; data := loadedData |}.

Definition handleReset (m : Model) : Model :=
  {| state := SETUP; data := [] |}.

End App.

Module SetupView.

(** What a click on the parse button ends in: an error message on the
    form, or a call of [onDataLoaded]. *)
Inductive Outcome : Type :=
| ShowError (message : string)
| DataLoaded (data : list CpuLogEntry).

Definition paste_first : string := "Please paste some log data first.".

Definition no_valid_lines : string :=
  "Could not parse any valid JSON lines. Check the format.".

Section WithHost.
Context (host : Host).

Definition handleParse (logInput : string) : Outcome :=
  if JS.str_empty (JS.trim logInput) then ShowError paste_first
  else
    match Parser.parseLogData host logInput with
    | [] => ShowError no_valid_lines
    | data => DataLoaded data
    end.

(** [k] and [r] count the clock readings and random draws made before. *)
Definition loadDemo (k r : nat) : Outcome :=
  DataLoaded (Parser.generateMockData host k r).

(** What the user can do: parse a pasted text or load the demonstration
    data on the setup view, and reset on the dashboard. *)
Inductive Event : Type :=
| ClickParse (logInput : string)
| ClickDemo (k r : nat)
| ClickReset.

Definition deliver (o : Outcome) (m : App.Model) : App.Model :=
  match o with
  | ShowError _ => m
  | DataLoaded data => App.handleDataLoaded data m
  end.

(** [App] renders the setup view in state [SETUP] and the dashboard
    otherwise; a control that is not rendered cannot be clicked. *)
Definition step (m : App.Model) (ev : Event) : App.Model :=
  match App.state m, ev with
  | App.SETUP, ClickParse logInput => deliver (handleParse logInput) m
  | App.SETUP, ClickDemo k r => deliver (loadDemo k r) m
  | App.DASHBOARD, ClickReset => App.handleReset m
  | _, _ => m
  end.

Definition run (events : list Event) : App.Model :=
  fold_left step events App.initial.

End WithHost.
End SetupView.

(** ** The state and the handlers of components/Dashboard.tsx *)

Module Session.

(** [formatForInput], on a timestamp of the declared type [string]. *)
Definition formatForInput (ts : string) : string :=
  if (16 <=? String.length ts)%nat then substring 0 16 ts else ts.

(** The state of the component.  [analysis] is [JS.Null] when there is no
    report. *)
Record State : Type := {
  localData : list CpuLogEntry;
  analysis : JS.value;
  isAnalyzing : bool;
  filterStart : string;
  filterEnd : string;
  hasSavedAnalysis : bool;
  cpuThreshold : Q;
  isStreaming : bool
}.

Definition with_analysis (a : JS.value) (s : State) : State :=
  {| localData := localData s; analysis := a; isAnalyzing := isAnalyzing s;
     filterStart := filterStart s; filterEnd := filterEnd s;
     hasSavedAnalysis := hasSavedAnalysis s; cpuThreshold := cpuThreshold s;
     isStreaming := isStreaming s |}.

Definition with_isAnalyzing (b : bool) (s : State) : State :=
  {| localData := localData s; analysis := analysis s; isAnalyzing := b;
     filterStart := filterStart s; filterEnd := filterEnd s;
     hasSavedAnalysis := hasSavedAnalysis s; cpuThreshold := cpuThreshold s;
     isStreaming := isStreaming s |}.

Definition with_filters (a b : string) (s : State) : State :=
  {| localData := localData s; analysis := analysis s; isAnalyzing := isAnalyzing s;
     filterStart := a; filterEnd := b;
     hasSavedAnalysis := hasSavedAnalysis s; cpuThreshold := cpuThreshold s;
     isStreaming := isStreaming s |}.

Definition with_hasSavedAnalysis (b : bool) (s : State) : State :=
  {| localData := localData s; analysis := analysis s; isAnalyzing := isAnalyzing s;
     filterStart := filterStart s; filterEnd := filterEnd s;
     hasSavedAnalysis := b; cpuThreshold := cpuThreshold s;
     isStreaming := isStreaming s |}.

Definition with_isStreaming (b : bool) (s : State) : State :=
  {| localData := localData s; analysis := analysis s; isAnalyzing := isAnalyzing s;
     filterStart := filterStart s; filterEnd := filterEnd s;
     hasSavedAnalysis := hasSavedAnalysis s; cpuThreshold := cpuThreshold s;
     isStreaming := b |}.

(** The texts the mount effect sets the two filter controls to, from the
    first and the last sample, when both timestamps are strings.  [None]
    is no failure of the code: it marks data outside the declared type of
    [timestamp], on which the effect stores a value that is no string or
    takes its [catch] branch; the state after that is not modelled. *)
Definition filters_of (data : list CpuLogEntry) : option (string * string) :=
  match data with
  | [] => None
  | first :: _ =>
      match timestamp first, timestamp (last data first) with
      | JS.Str a, JS.Str b => Some (formatForInput a, formatForInput b)
      | _, _ => None
      end
  end.

(** The state after the first render and its effects: [saved] is the
    content of the storage slot.  On empty data the filters stay empty. *)
Definition mount (initialData : list CpuLogEntry) (saved : option string)
  : option State :=
  let s0 :=
    {| localData := initialData; analysis := JS.Null; isAnalyzing := false;
       filterStart := EmptyString; filterEnd := EmptyString;
       hasSavedAnalysis :=
         match saved with Some text => negb (JS.str_empty text) | None => false end;
       cpuThreshold := 80; isStreaming := false |} in
  match initialData with
  | [] => Some s0
  | _ :: _ =>
      match filters_of initialData with
      | Some (a, b) => Some (with_filters a b s0)
      | None => None
      end
  end.

(** [toggleStream] followed by the streaming effect, which drops the report
    when the stream starts. *)
Definition toggleStream (s : State) : State :=
  let s' := with_isStreaming (negb (isStreaming s)) s in
  if isStreaming s' && JS.truthy (analysis s') then with_analysis JS.Null s'
  else s'.

Section WithHost.
Context (host : Host).

(** The view the memo [filteredData] holds in state [s]. *)
Definition view (s : State) : list CpuLogEntry :=
  Dashboard.filteredData host (isStreaming s) (localData s) (filterStart s) (filterEnd s).

(** [handleAnalyze], from the click to the settled promise, nothing else
    happening in between.  [confirmed] is the answer to the dialog, asked
    only while streaming.  The result pairs the calls made on the client
    library with the state reached. *)
Definition handleAnalyze (confirmed : bool) (API_KEY : option string)
  (generateContent : GeminiService.Request -> GeminiService.GenerateResult)
  (s : State) : list GeminiService.Event * State :=
  if isStreaming s && negb confirmed then ([], s)
  else
    let s1 := with_isAnalyzing true (with_isStreaming false s) in
    let '(calls, outcome) :=
      GeminiService.analyzeCpuData host API_KEY generateContent (view s) in
    let s2 :=
      match outcome with
      | GeminiService.Resolved result => with_analysis result s1
      | GeminiService.Rejected _ => s1
      end in
    (calls, with_isAnalyzing false s2).

(** [handleSaveAnalysis] on the storage slot; [stringify] is
    [JSON.stringify]. *)
Definition handleSaveAnalysis (stringify : JS.value -> string)
  (slot : option string) (s : State) : option string * State :=
  if JS.truthy (analysis s)
  then (Some (stringify (analysis s)), with_hasSavedAnalysis true s)
  else (slot, s).

(** [handleLoadAnalysis]. *)
Definition handleLoadAnalysis (slot : option string) (s : State) : State :=
  match slot with
  | None => s
  | Some saved =>
      if JS.str_empty saved then s
      else
        match JSON_parse host saved with
        | Some result => with_analysis result s
        | None => s
        end
  end.

End WithHost.
End Session.

(** ** Further vocabulary *)

Module Behaviour.

(** A run is reported when it is sustained and starts with a truthy
    timestamp. *)
Definition reported (run : list CpuLogEntry) : bool :=
  Spec.sustained run
  && match run with
     | [] => false
     | d :: _ => JS.truthy (timestamp d)
     end.

(** For the proofs: the incidents a run gives. *)
Definition report (run : list CpuLogEntry) : list Dashboard.Incident :=
  match run with
  | [] => []
  | d :: rest =>
      if reported run
      then [{| Dashboard.start := timestamp d;
               Dashboard.end_ := timestamp (last rest d);
               Dashboard.maxVal := Spec.peak d rest |}]
      else []
  end.


(** The memory of a sample is absent or 0. *)
Definition memoryless (d : CpuLogEntry) : bool :=
  match memory_percent d with
  | None => true
  | Some m => negb (JS.nonzero m)
  end.

(** The memory values of the samples that carry one, in order; the sum of
    numbers as a loop adds them up, from 0 and left to right; and their
    mean, the sum divided by the count. *)
Definition memory_values (data : list CpuLogEntry) : list Q :=
  flat_map (fun d => match memory_percent d with Some m => [m] | None => [] end) data.

Definition js_sum (l : list Q) : Q := fold_left JS.add l 0.

Definition mean (l : list Q) : Q :=
  JS.div (js_sum l) (Dashboard.number_of_nat (List.length l)).

Definition all_white (s : string) : bool :=
  forallb JS.is_white (list_ascii_of_string s).

(** A value is a whole number of hundredths within 0.005 of [x]. *)
Definition rounds (x y : Q) : Prop :=
  Qden y = 100%positive /\ Qabs (y - x) <= 1 # 200.

(** The samples of [small] are samples of [big], in the same order. *)
Inductive subsequence {A : Type} : list A -> list A -> Prop :=
| sub_nil : subsequence [] []
| sub_skip (x : A) (small big : list A) :
    subsequence small big -> subsequence small (x :: big)
| sub_keep (x : A) (small big : list A) :
    subsequence small big -> subsequence (x :: small) (x :: big).

(** A report and its JSON text, which the decoder of [report_host]
    reads back. *)
Definition report_text : string :=
  ("{" ++ Examples.quoted "summary" ++ ":" ++ Examples.quoted "Mostly idle." ++ ","
   ++ Examples.quoted "recommendations" ++ ":[" ++ Examples.quoted "None" ++ "],"
   ++ Examples.quoted "severity" ++ ":" ++ Examples.quoted "LOW" ++ "}")%string.

Definition report_value : JS.value :=
  JS.Obj [ ("summary"%string, JS.Str "Mostly idle.");
           ("recommendations"%string, JS.Arr [JS.Str "None"]);
           ("severity"%string, JS.Str "LOW") ].

Definition report_host : Host :=
  RefHost.make RefHost.half [(report_text, report_value)].

(** Nine samples as the capture script stamps them, one per second from
    12:00:00. *)
Definition captured (i : nat) : CpuLogEntry :=
  {| timestamp := JS.Str ("2024-03-01T12:00:0" ++ JS.digits (Z.of_nat i));
     pid := JS.Num 77;
     cpu_user_percent := 12;
     cpu_sys_percent := 3;
     memory_percent := Some (1 # 2);
     command := JS.Undefined |}.

Definition captured_samples : list CpuLogEntry := map captured (seq 0 9).

(** The state after mounting the dashboard on the captured samples. *)
Definition mounted : Session.State :=
  {| Session.localData := Behaviour.captured_samples;
     Session.analysis := JS.Null;
     Session.isAnalyzing := false;
     Session.filterStart := "2024-03-01T12:00";
     Session.filterEnd := "2024-03-01T12:00";
     Session.hasSavedAnalysis := false;
     Session.cpuThreshold := 80;
     Session.isStreaming := false |}.

(** The store and the count of random draws after [n] ticks from the one
    sample [L], on the host whose random numbers are all one half. *)
Definition ticked (n : nat) (L : CpuLogEntry) : list CpuLogEntry * nat :=
  match Dashboard.stream_ticks (Examples.tick_host []) n 0 [L] with
  | Some after => after
  | None => ([], 0%nat)
  end.

(** A dashboard that streams, after its first tick. *)
Definition live : Session.State :=
  {| Session.localData := fst (ticked 1 (Examples.last_sample None));
     Session.analysis := JS.Null;
     Session.isAnalyzing := false;
     Session.filterStart := "2024-03-01T12:00";
     Session.filterEnd := "2024-03-01T12:00";
     Session.hasSavedAnalysis := false;
     Session.cpuThreshold := 80;
     Session.isStreaming := true |}.

(** A dashboard that shows the report. *)
Definition analysed : Session.State :=
  Session.with_analysis Behaviour.report_value mounted.

Definition padding : string := String (ascii_of_nat 13) EmptyString.

(** The dashboard mounted on the captured samples, after two ticks of the
    stream and a pause. *)
Definition paused : Session.State :=
  {| Session.localData :=
       match Dashboard.stream_ticks Behaviour.report_host 2 0 Behaviour.captured_samples with
       | Some after => fst after
       | None => []
       end;
     Session.analysis := JS.Null;
     Session.isAnalyzing := false;
     Session.filterStart := "2024-03-01T12:00";
     Session.filterEnd := "2024-03-01T12:00";
     Session.hasSavedAnalysis := false;
     Session.cpuThreshold := 80;
     Session.isStreaming := false |}.

End Behaviour.

(** ** Rounding to the nearest double *)

Section Binary64.

Lemma pow2_pos (k : Z) : 0 < Float64.pow2 k.
Proof. apply Qpower_0_lt. reflexivity. Qed.

Lemma pow2_add (a b : Z) : Float64.pow2 (a + b) == Float64.pow2 a * Float64.pow2 b.
Proof. apply Qpower_plus. discriminate. Qed.

Lemma pow2_le (a b : Z) : (a <= b)%Z -> Float64.pow2 a <= Float64.pow2 b.
Proof. intros H. apply Qpower_le_compat_l; [exact H | discriminate]. Qed.

Lemma pow2_Z (n : Z) : (0 <= n)%Z -> Float64.pow2 n == inject_Z (2 ^ n).
Proof. intros H. unfold Float64.pow2. rewrite (Zpower_Qpower 2 n H). reflexivity. Qed.

Lemma nearest_even_floor (q : Q) :
  (Qfloor q <= Float64.nearest_even q <= Qfloor q + 1)%Z.
Proof.
  unfold Float64.nearest_even.
  destruct (Qcompare (q - inject_Z (Qfloor q)) (1 # 2)); [destruct (Z.even (Qfloor q)) | |]; lia.
Qed.

Lemma nearest_even_Z (n : Z) : Float64.nearest_even (inject_Z n) = n.
Proof.
  unfold Float64.nearest_even. rewrite Qfloor_Z.
  destruct (Qcompare (inject_Z n - inject_Z n) (1 # 2)) eqn:C; [| reflexivity |];
    exfalso; [apply Qeq_alt in C | apply Qgt_alt in C]; lra.
Qed.

Lemma nearest_even_mono (p q : Q) :
  p <= q -> (Float64.nearest_even p <= Float64.nearest_even q)%Z.
Proof.
  intros H. pose proof (Qfloor_resp_le _ _ H) as Hf.
  pose proof (nearest_even_floor p) as Hp. pose proof (nearest_even_floor q) as Hq.
  destruct (Z.eq_dec (Qfloor p) (Qfloor q)) as [E | E]; [| lia].
  clear Hp Hq Hf. unfold Float64.nearest_even. rewrite <- E.
  destruct (Qcompare (p - inject_Z (Qfloor p)) (1 # 2)) eqn:Cp;
    [apply Qeq_alt in Cp | apply Qlt_alt in Cp | apply Qgt_alt in Cp];
    (destruct (Qcompare (q - inject_Z (Qfloor p)) (1 # 2)) eqn:Cq;
     [apply Qeq_alt in Cq | apply Qlt_alt in Cq | apply Qgt_alt in Cq]);
    try (destruct (Z.even (Qfloor p)); lia); try lia; exfalso; lra.
Qed.

Lemma ulp_exponent_upper (x : Q) :
  0 <= x -> x < Float64.pow2 (Float64.ulp_exponent x + 53).
Proof.
  intros Hx. unfold Float64.ulp_exponent. rewrite (Qabs_pos x Hx).
  set (n := Qfloor (x * Float64.pow2 1022)).
  assert (Hn0 : (0 <= n)%Z).
  { subst n. change 0%Z with (Qfloor 0). apply Qfloor_resp_le.
    pose proof (pow2_pos 1022). nra. }
  assert (Hn : (n + 1 <= 2 ^ (Z.log2 n + 1))%Z).
  { destruct (Z.eq_dec n 0) as [E | E]; [rewrite E; simpl; lia |].
    pose proof (Z.log2_spec n ltac:(lia)) as [_ H]. unfold Z.succ in H. lia. }
  pose proof (Qlt_floor (x * Float64.pow2 1022)) as Hlt. fold n in Hlt.
  assert (HL : (0 <= Z.log2 n)%Z) by apply Z.log2_nonneg.
  assert (H1 : x * Float64.pow2 1022 < Float64.pow2 (Z.log2 n + 1)).
  { rewrite (@pow2_Z (Z.log2 n + 1)%Z) by lia.
    eapply Qlt_le_trans; [exact Hlt |]. rewrite <- Zle_Qle. exact Hn. }
  replace (Z.log2 n + 1)%Z with ((Z.log2 n - 1074 + 53) + 1022)%Z in H1 by lia.
  rewrite pow2_add in H1. pose proof (pow2_pos 1022) as Hp.
  set (a := Float64.pow2 (Z.log2 n - 1074 + 53)) in *.
  set (b := Float64.pow2 1022) in *. nra.
Qed.

Lemma ulp_exponent_lower (x : Q) :
  0 <= x -> (-1074 < Float64.ulp_exponent x)%Z ->
  Float64.pow2 (Float64.ulp_exponent x + 52) <= x.
Proof.
  intros Hx. unfold Float64.ulp_exponent. rewrite (Qabs_pos x Hx).
  set (n := Qfloor (x * Float64.pow2 1022)). intros Hk.
  assert (HL : (0 < Z.log2 n)%Z) by lia.
  assert (Hn : (0 < n)%Z).
  { destruct (Z.lt_ge_cases 0 n) as [H | H]; [exact H |].
    rewrite (Z.log2_nonpos n H) in HL. lia. }
  pose proof (Z.log2_spec n Hn) as [Hlo _].
  pose proof (Qfloor_le (x * Float64.pow2 1022)) as Hle. fold n in Hle.
  assert (H1 : Float64.pow2 (Z.log2 n) <= x * Float64.pow2 1022).
  { rewrite (@pow2_Z (Z.log2 n)) by lia.
    eapply Qle_trans; [| exact Hle]. rewrite <- Zle_Qle. exact Hlo. }
  replace (Z.log2 n) with ((Z.log2 n - 1074 + 52) + 1022)%Z in H1 at 1 by lia.
  rewrite pow2_add in H1. pose proof (pow2_pos 1022) as Hp.
  set (a := Float64.pow2 (Z.log2 n - 1074 + 52)) in *.
  set (b := Float64.pow2 1022) in *. nra.
Qed.

Lemma ulp_exponent_mono (x y : Q) :
  0 <= x -> x <= y -> (Float64.ulp_exponent x <= Float64.ulp_exponent y)%Z.
Proof.
  intros Hx Hxy. unfold Float64.ulp_exponent.
  rewrite (Qabs_pos x Hx), (Qabs_pos y) by lra.
  assert (H : (Qfloor (x * Float64.pow2 1022) <= Qfloor (y * Float64.pow2 1022))%Z).
  { apply Qfloor_resp_le. pose proof (pow2_pos 1022). nra. }
  pose proof (Z.log2_le_mono _ _ H). lia.
Qed.

Lemma round_magnitude_nonneg (x : Q) : 0 <= x -> 0 <= Float64.round_magnitude x.
Proof.
  intros Hx. unfold Float64.round_magnitude.
  set (k := Float64.ulp_exponent x). pose proof (pow2_pos k) as Hp.
  assert (H : (0 <= Float64.nearest_even (x / Float64.pow2 k))%Z).
  { rewrite <- (nearest_even_Z 0). apply nearest_even_mono.
    apply Qle_shift_div_l; [exact Hp |]. change (inject_Z 0) with 0. rewrite Qmult_0_l. exact Hx. }
  rewrite Zle_Qle in H. apply Qmult_le_0_compat; [exact H | apply Qlt_le_weak, Hp].
Qed.

Lemma round_magnitude_mono (x y : Q) :
  0 <= x -> x <= y -> Float64.round_magnitude x <= Float64.round_magnitude y.
Proof.
  intros Hx Hxy. assert (Hy : 0 <= y) by lra.
  pose proof (ulp_exponent_mono Hx Hxy) as Hk.
  unfold Float64.round_magnitude.
  set (kx := Float64.ulp_exponent x) in *. set (ky := Float64.ulp_exponent y) in *.
  pose proof (pow2_pos kx) as Hpx. pose proof (pow2_pos ky) as Hpy.
  destruct (Z.eq_dec kx ky) as [E | E].
  - rewrite <- E.
    assert (H : (Float64.nearest_even (x / Float64.pow2 kx)
                 <= Float64.nearest_even (y / Float64.pow2 kx))%Z).
    { apply nearest_even_mono. apply Qle_shift_div_l; [exact Hpx |].
      unfold Qdiv. rewrite <- Qmult_assoc, (Qmult_comm (/ _)), Qmult_inv_r, Qmult_1_r.
      - exact Hxy.
      - intros H0. rewrite H0 in Hpx. inversion Hpx. }
    rewrite Zle_Qle in H. apply Qmult_le_compat_r; [exact H | apply Qlt_le_weak, Hpx].
  - assert (Hlow : Float64.pow2 (ky + 52) <= y).
    { apply ulp_exponent_lower; [exact Hy |].
      assert (-1074 <= kx)%Z.
      { subst kx. unfold Float64.ulp_exponent.
        pose proof (Z.log2_nonneg (Qfloor (Qabs x * Float64.pow2 1022))). lia. }
      fold ky. lia. }
    pose proof (ulp_exponent_upper Hx) as Hup. fold kx in Hup.
    assert (Hm : (2 ^ 52 <= Float64.nearest_even (y / Float64.pow2 ky))%Z).
    { rewrite <- (nearest_even_Z (2 ^ 52)). apply nearest_even_mono.
      apply Qle_shift_div_l; [exact Hpy |].
      rewrite <- (@pow2_Z 52) by lia. rewrite <- pow2_add.
      replace (52 + ky)%Z with (ky + 52)%Z by lia. exact Hlow. }
    assert (Hn : (Float64.nearest_even (x / Float64.pow2 kx) <= 2 ^ 53)%Z).
    { rewrite <- (nearest_even_Z (2 ^ 53)). apply nearest_even_mono.
      apply Qle_shift_div_r; [exact Hpx |].
      rewrite <- (@pow2_Z 53) by lia. rewrite <- pow2_add.
      replace (53 + kx)%Z with (kx + 53)%Z by lia. apply Qlt_le_weak. exact Hup. }
    rewrite Zle_Qle in Hm. rewrite Zle_Qle in Hn.
    rewrite <- (@pow2_Z 52) in Hm by lia. rewrite <- (@pow2_Z 53) in Hn by lia.
    assert (Hstep : Float64.pow2 53 * Float64.pow2 kx <= Float64.pow2 52 * Float64.pow2 ky).
    { rewrite <- !pow2_add. apply pow2_le. lia. }
    eapply Qle_trans; [apply Qmult_le_compat_r; [exact Hn | apply Qlt_le_weak, Hpx] |].
    eapply Qle_trans; [exact Hstep |].
    apply Qmult_le_compat_r; [exact Hm | apply Qlt_le_weak, Hpy].
Qed.

Lemma round_mono (x y : Q) : x <= y -> Float64.round x <= Float64.round y.
Proof.
  intros H. unfold Float64.round. rewrite !Qred_correct.
  destruct (Qle_bool 0 x) eqn:Ex; destruct (Qle_bool 0 y) eqn:Ey.
  - apply Qle_bool_iff in Ex. apply round_magnitude_mono; assumption.
  - apply Qle_bool_iff in Ex.
    assert (Hy : ~ 0 <= y) by (intros C; apply Qle_bool_iff in C; congruence). lra.
  - apply Qle_bool_iff in Ey.
    assert (Hx : ~ 0 <= x) by (intros C; apply Qle_bool_iff in C; congruence).
    pose proof (@round_magnitude_nonneg (- x) ltac:(lra)).
    pose proof (round_magnitude_nonneg Ey). lra.
  - assert (Hx : ~ 0 <= x) by (intros C; apply Qle_bool_iff in C; congruence).
    assert (Hy : ~ 0 <= y) by (intros C; apply Qle_bool_iff in C; congruence).
    pose proof (@round_magnitude_mono (- y) (- x) ltac:(lra) ltac:(lra)). lra.
Qed.

Lemma round_between (a b x : Q) :
  Float64.round a == a -> Float64.round b == b -> a <= x -> x <= b ->
  a <= Float64.round x /\ Float64.round x <= b.
Proof.
  intros Ha Hb H1 H2. split.
  - rewrite <- Ha. apply round_mono. exact H1.
  - rewrite <- Hb. apply round_mono. exact H2.
Qed.

(** Bounds of the four operations between doubles. *)
Lemma add_between (a1 b1 a2 b2 x y : Q) :
  Float64.round a1 == a1 -> Float64.round b1 == b1 ->
  Float64.round a2 == a2 -> Float64.round b2 == b2 ->
  Float64.round (a1 + a2) == a1 + a2 -> Float64.round (b1 + b2) == b1 + b2 ->
  a1 <= x -> x <= b1 -> a2 <= y -> y <= b2 ->
  a1 + a2 <= JS.add x y /\ JS.add x y <= b1 + b2.
Proof.
  intros Ha1 Hb1 Ha2 Hb2 Hlo Hhi Hx0 Hx1 Hy0 Hy1.
  destruct (round_between Ha1 Hb1 Hx0 Hx1) as [X0 X1].
  destruct (round_between Ha2 Hb2 Hy0 Hy1) as [Y0 Y1].
  unfold JS.add. apply (round_between Hlo Hhi); lra.
Qed.

Lemma sub_between (a b c x : Q) :
  Float64.round a == a -> Float64.round b == b -> Float64.round c == c ->
  Float64.round (a - c) == a - c -> Float64.round (b - c) == b - c ->
  a <= x -> x <= b ->
  a - c <= JS.sub x c /\ JS.sub x c <= b - c.
Proof.
  intros Ha Hb Hc Hlo Hhi Hx0 Hx1.
  destruct (round_between Ha Hb Hx0 Hx1) as [X0 X1].
  unfold JS.sub. apply (round_between Hlo Hhi); rewrite Hc; lra.
Qed.

Lemma mul_between (a b c x : Q) :
  0 <= c ->
  Float64.round a == a -> Float64.round b == b -> Float64.round c == c ->
  Float64.round (a * c) == a * c -> Float64.round (b * c) == b * c ->
  a <= x -> x <= b ->
  a * c <= JS.mul x c /\ JS.mul x c <= b * c.
Proof.
  intros Hc0 Ha Hb Hc Hlo Hhi Hx0 Hx1.
  destruct (round_between Ha Hb Hx0 Hx1) as [X0 X1].
  unfold JS.mul. apply (round_between Hlo Hhi); rewrite Hc;
    apply Qmult_le_compat_r; assumption.
Qed.

Lemma div_between (a b c x : Q) :
  0 < c ->
  Float64.round a == a -> Float64.round b == b -> Float64.round c == c ->
  Float64.round (a / c) == a / c -> Float64.round (b / c) == b / c ->
  a <= x -> x <= b ->
  a / c <= JS.div x c /\ JS.div x c <= b / c.
Proof.
  intros Hc0 Ha Hb Hc Hlo Hhi Hx0 Hx1.
  destruct (round_between Ha Hb Hx0 Hx1) as [X0 X1].
  assert (Hi : 0 <= / c) by (apply Qlt_le_weak, Qinv_lt_0_compat; exact Hc0).
  unfold JS.div. apply (round_between Hlo Hhi); rewrite Hc; unfold Qdiv;
    apply Qmult_le_compat_r; assumption.
Qed.


(** The doubles nearest to 0.1 and to the sum of the doubles nearest to 1.1
    and 2.2, which lies above the double nearest to 3.3. *)
Example round_tenth :
  Float64.round (1 # 10) = 3602879701896397 # 36028797018963968.
Proof. vm_compute. reflexivity. Qed.

(** A tie goes to the even neighbour, above 2^53 as in the subnormal
    range, whose doubles are the multiples of 2^-1074. *)
Example round_ties_to_even :
  Float64.round (inject_Z (2 ^ 53 + 1)) = inject_Z (2 ^ 53)
  /\ Float64.round (inject_Z (2 ^ 53 + 3)) = inject_Z (2 ^ 53 + 4)
  /\ Float64.round (Float64.pow2 (-1075)) = 0
  /\ Float64.round (3 * Float64.pow2 (-1075)) == Float64.pow2 (-1073).
Proof. repeat split; vm_compute; reflexivity. Qed.

Example add_above_decimal_sum :
  JS.add (11 # 10) (22 # 10) = 7430939385161319 # 2251799813685248
  /\ JS.gtb (JS.add (11 # 10) (22 # 10)) (Float64.round (33 # 10)) = true.
Proof. split; vm_compute; reflexivity. Qed.

End Binary64.

(** A closed rational is a double: rounding leaves it as it is. *)
Ltac exact_double :=
  match goal with |- Float64.round _ == _ => vm_compute; reflexivity end.

(** From here on the operations are used through the lemmas above. *)
Opaque Float64.round JS.add JS.sub JS.mul JS.div.

(** ** The rolling window of the store *)

Section RollingWindow.
Context (host : Host).

Lemma lastn_length {A : Type} (k : nat) (l : list A) :
  List.length (Spec.lastn k l) = Nat.min k (List.length l).
Proof. unfold Spec.lastn. rewrite length_skipn. lia. Qed.

Lemma lastn_all {A : Type} (k : nat) (l : list A) :
  (List.length l <= k)%nat -> Spec.lastn k l = l.
Proof.
  intros H. unfold Spec.lastn.
  replace (List.length l - k)%nat with 0%nat by lia. reflexivity.
Qed.

Lemma lastn_snoc {A : Type} (k : nat) (l : list A) (x : A) :
  Spec.lastn (S k) (l ++ [x]) = Spec.lastn k l ++ [x].
Proof.
  unfold Spec.lastn. rewrite length_app. simpl.
  replace (List.length l + 1 - S k)%nat with (List.length l - k)%nat by lia.
  rewrite skipn_app.
  replace (List.length l - k - List.length l)%nat with 0%nat by lia.
  reflexivity.
Qed.

Lemma lastn_lastn {A : Type} (k : nat) (l : list A) :
  Spec.lastn k (Spec.lastn (S k) l) = Spec.lastn k l.
Proof.
  unfold Spec.lastn at 1 3. rewrite lastn_length.
  unfold Spec.lastn. rewrite skipn_skipn. f_equal. lia.
Qed.

Lemma rolling_window_lastn (prevData : list CpuLogEntry) (e : CpuLogEntry) :
  Dashboard.rolling_window prevData e
  = Spec.lastn Dashboard.MAX_HISTORY (prevData ++ [e]).
Proof.
  unfold Dashboard.rolling_window.
  destruct (Nat.ltb_spec Dashboard.MAX_HISTORY (List.length (prevData ++ [e]))) as [H | H].
  - reflexivity.
  - symmetry. apply lastn_all. exact H.
Qed.

Lemma appends_lastn (es : list CpuLogEntry) :
  forall (store : list CpuLogEntry) (e : CpuLogEntry),
    fold_left Dashboard.rolling_window (es ++ [e]) store
    = Spec.lastn Dashboard.MAX_HISTORY (store ++ es ++ [e]).
Proof.
  induction es as [| x es IH] using rev_ind; intros store e.
  - simpl. apply rolling_window_lastn.
  - rewrite fold_left_app. simpl. rewrite IH, rolling_window_lastn.
    unfold Dashboard.MAX_HISTORY.
    replace (store ++ (es ++ [x]) ++ [e]) with ((store ++ es ++ [x]) ++ [e])
      by (rewrite <- !app_assoc; reflexivity).
    rewrite !(lastn_snoc 99), lastn_lastn. reflexivity.
Qed.

Lemma stream_tick_window (r : nat) (store data' : list CpuLogEntry) (r' : nat) :
  Dashboard.stream_tick host r store = Some (data', r') ->
  (exists newEntry, data' = Dashboard.rolling_window store newEntry)
  /\ (List.length data' <= 100)%nat.
Proof.
  intros H. unfold Dashboard.stream_tick in H.
  destruct (nth_error store (List.length store - 1)) as [lastEntry |]; [| discriminate].
  destruct (Dashboard.next_entry host r lastEntry) as [[newEntry r1] |]; [| discriminate].
  inversion H; subst. split; [exists newEntry; reflexivity |].
  rewrite rolling_window_lastn, lastn_length. unfold Dashboard.MAX_HISTORY. lia.
Qed.

Lemma stream_ticks_window (n : nat) :
  forall (r : nat) (store data' : list CpuLogEntry) (r' : nat),
    Dashboard.stream_ticks host (S n) r store = Some (data', r') ->
    (List.length data' <= 100)%nat.
Proof.
  induction n as [| n IH]; intros r store data' r' H.
  - simpl in H. destruct (Dashboard.stream_tick host r store) as [[d1 r1] |] eqn:E;
      [| discriminate].
    inversion H; subst. apply (stream_tick_window _ _ E).
  - change (Dashboard.stream_ticks host (S (S n)) r store)
      with (match Dashboard.stream_tick host r store with
            | None => None
            | Some (d1, r1) => Dashboard.stream_ticks host (S n) r1 d1
            end) in H.
    destruct (Dashboard.stream_tick host r store) as [[d1 r1] |]; [| discriminate].
    apply (IH _ _ _ _ H).
Qed.

(** C6.  After every streaming append the store holds at most 100 entries:
    whatever the store was and however many entries were appended before,
    the store after the append of [e] is exactly the last 100 of everything
    it ever received, in order, and an append to a store of at most 99
    entries keeps all of them.  A stream tick is such an append, so the
    store holds at most 100 entries after any number of ticks. *)
Theorem rolling_window_capacity :
  forall (store es : list CpuLogEntry) (e : CpuLogEntry),
    let after := fold_left Dashboard.rolling_window (es ++ [e]) store in
    (List.length after <= 100)%nat
    /\ after = Spec.lastn 100 (store ++ es ++ [e])
    /\ ((List.length store <= 99)%nat ->
        Dashboard.rolling_window store e = store ++ [e])
    /\ (forall r data' r', Dashboard.stream_tick host r store = Some (data', r') ->
        exists newEntry, data' = Dashboard.rolling_window store newEntry)
    /\ (forall n r data' r',
          Dashboard.stream_ticks host (S n) r store = Some (data', r') ->
          (List.length data' <= 100)%nat).
Proof.
  intros store es e after. subst after. rewrite appends_lastn.
  change Dashboard.MAX_HISTORY with 100%nat.
  split; [rewrite lastn_length; lia |].
  split; [reflexivity |].
  split; [| split].
  - intros H. rewrite rolling_window_lastn. apply lastn_all.
    rewrite length_app. simpl. unfold Dashboard.MAX_HISTORY. lia.
  - intros r data' r' H. apply (stream_tick_window _ _ H).
  - intros n r data' r' H. apply (stream_ticks_window _ _ _ H).
Qed.

End RollingWindow.

(** ** The time-range filter *)

Section RangeFilter.
Context (host : Host).

Lemma filter_all {A : Type} (f : A -> bool) (l : list A) :
  (forall x, f x = true) -> filter f l = l.
Proof.
  intros H. induction l as [| x l IH]; simpl; [reflexivity |].
  rewrite H, IH. reflexivity.
Qed.

Lemma str_empty_false (s : string) : s <> EmptyString -> JS.str_empty s = false.
Proof. destruct s; [congruence | reflexivity]. Qed.

Lemma filteredData_open (localData : list CpuLogEntry) :
  Dashboard.filteredData host false localData EmptyString EmptyString = localData.
Proof. reflexivity. Qed.

(** While streaming the filter is bypassed. *)
Lemma filteredData_streaming (localData : list CpuLogEntry) (filterStart filterEnd : string) :
  Dashboard.filteredData host true localData filterStart filterEnd = localData.
Proof. reflexivity. Qed.

(** The test of the filter callback against bounds that stand for [S] and
    [E], not both absent. *)
Lemma range_test (filterStart filterEnd : string) (S E : option Z) (d : CpuLogEntry) :
  Spec.stands_for host filterStart S ->
  Spec.stands_for host filterEnd E ->
  JS.str_empty filterStart && JS.str_empty filterEnd = false ->
  Dashboard.time_geb (Dashboard.entry_time host d)
    (if negb (JS.str_empty filterStart)
     then Dashboard.bound_time host filterStart else Dashboard.NegInfinity)
  && Dashboard.time_leb (Dashboard.entry_time host d)
       (if negb (JS.str_empty filterEnd)
        then Dashboard.bound_time host filterEnd else Dashboard.PosInfinity)
  = Spec.in_range S E (Date_getTime host (timestamp d)).
Proof.
  intros HS HE Hsome.
  unfold Spec.in_range, Dashboard.entry_time, Dashboard.bound_time.
  destruct S as [s |], E as [e |]; simpl in HS, HE;
    repeat match goal with
           | H : _ /\ _ |- _ => destruct H as [? H]
           | H : ?x <> EmptyString |- _ => rewrite (str_empty_false H) in *; clear H
           | H : Date_getTime host (JS.Str _) = Some _ |- _ => rewrite H; clear H
           | H : ?x = EmptyString |- _ => subst x
           end;
    try discriminate Hsome; simpl;
    destruct (Date_getTime host (timestamp d)); simpl;
    try reflexivity; try (rewrite andb_true_r; reflexivity).
Qed.

(** C7.  Outside streaming, the filter with both bounds absent is the
    identity, and with controls that stand for the bounds [S] and [E] (either
    of them possibly absent) it returns, in input order, exactly the samples
    whose timestamp [t] satisfies [S <= t <= E], the boundaries included. *)
Theorem filteredData_in_range :
  forall (localData : list CpuLogEntry) (filterStart filterEnd : string)
         (S E : option Z),
    Spec.stands_for host filterStart S ->
    Spec.stands_for host filterEnd E ->
    Dashboard.filteredData host false localData EmptyString EmptyString = localData
    /\ Dashboard.filteredData host false localData filterStart filterEnd
       = filter (fun d => Spec.in_range S E (Date_getTime host (timestamp d)))
           localData.
Proof.
  intros localData filterStart filterEnd S E HS HE.
  split; [reflexivity |].
  unfold Dashboard.filteredData.
  destruct (JS.str_empty filterStart && JS.str_empty filterEnd) eqn:Hboth.
  - apply andb_prop in Hboth. destruct Hboth as [H1 H2].
    destruct S as [s |]; simpl in HS.
    { destruct HS as [Hne _]. rewrite (str_empty_false Hne) in H1. discriminate. }
    destruct E as [e |]; simpl in HE.
    { destruct HE as [Hne _]. rewrite (str_empty_false Hne) in H2. discriminate. }
    symmetry. apply filter_all. intros d. reflexivity.
  - apply filter_ext. intros d. apply range_test; assumption.
Qed.

End RangeFilter.

(** ** The downsampling step of the analysis request *)

Section Downsampling.

Lemma step_of_ceiling (data : list CpuLogEntry) :
  GeminiService.step_of data = ((Z.of_nat (List.length data) + 99) / 100)%Z.
Proof.
  unfold GeminiService.step_of, JS.Math_ceil, Dashboard.number_of_nat.
  unfold Qceiling, Qfloor, Qdiv, Qmult, Qinv, Qopp, inject_Z. simpl.
  set (n := Z.of_nat (List.length data)).
  rewrite Z.mul_1_r.
  assert (Hn : (0 <= n)%Z) by (subst n; lia).
  clearbody n. 
  pose proof (Z.div_mod (- n) 100 ltac:(lia)) as H1.
  pose proof (Z.mod_pos_bound (- n) 100 ltac:(lia)) as H2.
  pose proof (Z.div_mod (n + 99) 100 ltac:(lia)) as H3.
  pose proof (Z.mod_pos_bound (n + 99) 100 ltac:(lia)) as H4.
  lia.
Qed.

Lemma selected_mod (step : Z) (index : nat) :
  (0 < step)%Z ->
  GeminiService.selected step index = (index mod Z.to_nat step =? 0)%nat.
Proof.
  intros H. unfold GeminiService.selected.
  destruct step as [| p | p]; try lia.
  rewrite Z.rem_mod_nonneg by lia.
  destruct (Z.eqb_spec (Z.of_nat index mod Z.pos p) 0) as [E | E];
    destruct (Nat.eqb_spec (index mod Z.to_nat (Z.pos p)) 0) as [F | F];
    try reflexivity; exfalso.
  - apply F. apply Nat2Z.inj. rewrite Nat2Z.inj_mod, Z2Nat.id by lia. exact E.
  - apply E. rewrite <- (Z2Nat.id (Z.pos p)) by lia.
    rewrite <- Nat2Z.inj_mod, F. reflexivity.
Qed.

(** Starting [o] places before the next index divisible by [N], the [j]-th
    item kept is the one [o + j * N] places ahead. *)
Lemma filter_idx_nth (N : nat) (l : list CpuLogEntry) :
  (0 < N)%nat ->
  forall (k o j : nat),
    ((k + o) mod N = 0)%nat -> (o < N)%nat ->
    nth_error (GeminiService.filter_idx (fun _ i => (i mod N =? 0)%nat) l k) j
    = nth_error l (o + j * N).
Proof.
  intros HN. induction l as [| x l IH]; intros k o j Hk Ho.
  - simpl. rewrite !nth_error_nil. reflexivity.
  - simpl. destruct o as [| o'].
    + replace (k + 0)%nat with k in Hk by lia. rewrite Hk. simpl.
      destruct j as [| j']; [reflexivity |].
      simpl. rewrite (IH (S k) (N - 1)%nat j').
      * replace (N + j' * N)%nat with (S (N - 1 + j' * N)) by lia. reflexivity.
      * replace (S k + (N - 1))%nat with (k + 1 * N)%nat by lia.
        rewrite Nat.Div0.mod_add. exact Hk.
      * lia.
    + destruct (Nat.eqb_spec (k mod N) 0) as [E | E].
      * exfalso.
        assert (H : ((k + S o') mod N = S o')%nat).
        { rewrite <- Nat.Div0.add_mod_idemp_l, E. simpl. apply Nat.mod_small. exact Ho. }
        lia.
      * simpl. rewrite (IH (S k) o' j).
        -- reflexivity.
        -- replace (S k + o')%nat with (k + S o')%nat by lia. exact Hk.
        -- lia.
Qed.

Lemma filter_idx_ext {A : Type} (f g : A -> nat -> bool) (l : list A) :
  forall k, (forall x i, f x i = g x i) ->
  GeminiService.filter_idx f l k = GeminiService.filter_idx g l k.
Proof.
  induction l as [| x l IH]; intros k H; simpl; [reflexivity |].
  rewrite H, (IH (S k) H). reflexivity.
Qed.

Lemma downsample_nth (data : list CpuLogEntry) (j : nat) :
  data <> [] ->
  nth_error (GeminiService.downsample data) j
  = nth_error data (j * Z.to_nat (GeminiService.step_of data)).
Proof.
  intros Hne. unfold GeminiService.downsample.
  assert (Hpos : (0 < GeminiService.step_of data)%Z).
  { rewrite step_of_ceiling. destruct data; [congruence |]. simpl List.length.
    apply Z.div_str_pos. lia. }
  rewrite (filter_idx_ext _ (fun _ i => (i mod Z.to_nat (GeminiService.step_of data) =? 0)%nat))
    by (intros; apply selected_mod; exact Hpos).
  assert (HposN : (0 < Z.to_nat (GeminiService.step_of data))%nat) by lia.
  rewrite (@filter_idx_nth _ data HposN 0 0 j).
  - reflexivity.
  - apply Nat.Div0.mod_0_l.
  - lia.
Qed.

(** C8.  For a non-empty input of length [n], the step [N] is the ceiling of
    [n / 100]; the downsampled payload holds, in order, exactly the samples at
    the indices divisible by [N] (its [j]-th item is the input's item
    [j * N]); so it has at most 100 samples, starts with the first sample, and
    is the whole input when [n <= 100]. *)
Theorem downsample_every_Nth :
  forall (data : list CpuLogEntry),
    data <> [] ->
    let n := List.length data in
    let N := Z.to_nat (GeminiService.step_of data) in
    (100 * (N - 1) < n <= 100 * N)%nat
    /\ (forall j, nth_error (GeminiService.downsample data) j = nth_error data (j * N))
    /\ (List.length (GeminiService.downsample data) <= 100)%nat
    /\ hd_error (GeminiService.downsample data) = hd_error data
    /\ ((n <= 100)%nat -> GeminiService.downsample data = data).
Proof.
  intros data Hne n N.
  assert (HN : (100 * (N - 1) < n <= 100 * N)%nat).
  { subst N n. rewrite step_of_ceiling.
    assert (0 < List.length data)%nat by (destruct data; [congruence | simpl; lia]).
    set (m := List.length data) in *.
    pose proof (Z.div_mod (Z.of_nat m + 99) 100 ltac:(lia)) as H1.
    pose proof (Z.mod_pos_bound (Z.of_nat m + 99) 100 ltac:(lia)) as H2.
    assert (0 <= (Z.of_nat m + 99) / 100)%Z by (apply Z.div_pos; lia).
    lia. }
  assert (Hnth : forall j, nth_error (GeminiService.downsample data) j = nth_error data (j * N)).
  { intros j. apply downsample_nth. exact Hne. }
  split; [exact HN |]. split; [exact Hnth |]. split; [| split].
  - apply nth_error_None. rewrite Hnth. apply nth_error_None. subst n. lia.
  - pose proof (Hnth 0%nat) as H0. simpl in H0.
    destruct (GeminiService.downsample data), data; exact H0.
  - intros Hle. apply nth_error_ext. intros j. rewrite Hnth.
    replace N with 1%nat by lia. f_equal. lia.
Qed.

End Downsampling.

(** ** The incident sweep *)

Section IncidentSweep.
Variable T : Q.

Lemma Math_max_l (a b : Q) : a <= JS.Math_max a b.
Proof.
  unfold JS.Math_max, JS.ltb. destruct (Qle_bool b a) eqn:E; simpl.
  - apply Qle_refl.
  - apply Qlt_le_weak, Qnot_le_lt. intros H. apply Qle_bool_iff in H. congruence.
Qed.

Lemma Math_max_r (a b : Q) : b <= JS.Math_max a b.
Proof.
  unfold JS.Math_max, JS.ltb. destruct (Qle_bool b a) eqn:E; simpl.
  - apply Qle_bool_iff. exact E.
  - apply Qle_refl.
Qed.

Lemma Math_max_cases (a b : Q) : JS.Math_max a b = a \/ JS.Math_max a b = b.
Proof. unfold JS.Math_max. destruct (JS.ltb a b); auto. Qed.

Lemma peak_snoc (d : CpuLogEntry) (rest : list CpuLogEntry) (x : CpuLogEntry) :
  Spec.peak d (rest ++ [x]) = JS.Math_max (Spec.peak d rest) (Spec.total x).
Proof. unfold Spec.peak. rewrite fold_left_app. reflexivity. Qed.

Lemma peak_attained (d : CpuLogEntry) (rest : list CpuLogEntry) :
  In (Spec.peak d rest) (map Spec.total (d :: rest)).
Proof.
  induction rest as [| x rest IH] using rev_ind.
  - left. reflexivity.
  - rewrite peak_snoc. change (d :: rest ++ [x]) with ((d :: rest) ++ [x]).
    rewrite map_app. apply in_or_app.
    destruct (Math_max_cases (Spec.peak d rest) (Spec.total x)) as [E | E]; rewrite E.
    + left. exact IH.
    + right. left. reflexivity.
Qed.

Lemma peak_bound (d : CpuLogEntry) (rest : list CpuLogEntry) (x : CpuLogEntry) :
  In x (d :: rest) -> Spec.total x <= Spec.peak d rest.
Proof.
  induction rest as [| y rest IH] using rev_ind; intros H.
  - destruct H as [H | []]. subst. apply Qle_refl.
  - rewrite peak_snoc. change (d :: rest ++ [y]) with ((d :: rest) ++ [y]) in H.
    apply in_app_or in H. destruct H as [H | [H | []]].
    + eapply Qle_trans; [apply IH; exact H | apply Math_max_l].
    + subst. apply Math_max_r.
Qed.

Lemma last_default {A : Type} (l : list A) (x a c : A) :
  last (x :: l) a = last (x :: l) c.
Proof.
  revert x. induction l as [| y l IH]; intros x; [reflexivity |].
  change (last (y :: l) a = last (y :: l) c). apply IH.
Qed.

Lemma nth_error_last {A : Type} (cs : list A) :
  forall c, nth_error (c :: cs) (List.length cs) = Some (last cs c).
Proof.
  induction cs as [| a cs IH]; intros c; [reflexivity |].
  change (nth_error (a :: cs) (List.length cs) = Some (last (a :: cs) c)).
  rewrite IH. f_equal. destruct cs as [| b cs]; [reflexivity |].
  change (last (b :: cs) a = last (b :: cs) c). apply last_default.
Qed.

Lemma at_pred_run (pre cs l : list CpuLogEntry) (c : CpuLogEntry) :
  Dashboard.at_pred (pre ++ (c :: cs) ++ l) (List.length (pre ++ c :: cs))
  = Some (last cs c).
Proof.
  rewrite length_app. simpl List.length.
  replace (List.length pre + S (List.length cs))%nat
    with (S (List.length pre + List.length cs)) by lia.
  unfold Dashboard.at_pred.
  rewrite nth_error_app2 by lia.
  replace (List.length pre + List.length cs - List.length pre)%nat
    with (List.length cs) by lia.
  rewrite nth_error_app1 by (simpl; lia).
  apply nth_error_last.
Qed.

Lemma sweep_step_above (data cur : list CpuLogEntry) (acc : list Dashboard.Incident)
  (d : CpuLogEntry) (idx : nat) :
  Spec.above T d = true ->
  Dashboard.sweep_step data T (Spec.sweep_state acc cur) d idx
  = Some (Spec.sweep_state acc (cur ++ [d])).
Proof.
  intros Habove. unfold Dashboard.sweep_step.
  change (JS.gtb (JS.add (cpu_user_percent d) (cpu_sys_percent d)) T) with (Spec.above T d).
  rewrite Habove. unfold Spec.sweep_state.
  cbn [Dashboard.consecutiveCount Dashboard.currentStart Dashboard.incidents
       Dashboard.currentMax].
  f_equal. destruct cur as [| c cs].
  - reflexivity.
  - cbn [List.length Nat.eqb app]. rewrite peak_snoc, length_app.
    cbn [List.length]. replace (List.length cs + 1)%nat with (S (List.length cs)) by lia.
    reflexivity.
Qed.

Lemma sweep_step_below (data pre cur rest : list CpuLogEntry)
  (acc : list Dashboard.Incident) (d : CpuLogEntry) :
  Forall (fun d => JS.truthy (timestamp d) = true) data ->
  data = pre ++ cur ++ d :: rest ->
  Spec.above T d = false ->
  Dashboard.sweep_step data T (Spec.sweep_state acc cur) d (List.length (pre ++ cur))
  = Some (Spec.sweep_state (acc ++ Spec.report cur) []).
Proof.
  intros Hts Hdata Hbelow. unfold Dashboard.sweep_step.
  change (JS.gtb (JS.add (cpu_user_percent d) (cpu_sys_percent d)) T) with (Spec.above T d).
  rewrite Hbelow. unfold Dashboard.run_reportable, Spec.sweep_state.
  cbn [Dashboard.consecutiveCount Dashboard.currentStart Dashboard.incidents
       Dashboard.currentMax].
  destruct cur as [| c cs].
  - cbn. rewrite app_nil_r. reflexivity.
  - assert (Hc : JS.truthy (timestamp c) = true).
    { rewrite Forall_forall in Hts. apply Hts. rewrite Hdata.
      apply in_or_app. right. left. reflexivity. }
    rewrite Hc, andb_true_r. unfold Spec.report, Spec.sustained.
    destruct (3 <=? List.length (c :: cs))%nat.
    + rewrite Hdata, at_pred_run. reflexivity.
    + rewrite app_nil_r. reflexivity.
Qed.

Lemma sweep_split_runs (data : list CpuLogEntry) :
  Forall (fun d => JS.truthy (timestamp d) = true) data ->
  forall (l pre cur : list CpuLogEntry) (acc : list Dashboard.Incident),
    data = pre ++ cur ++ l ->
    Dashboard.flush data
      (Dashboard.forEach_idx (Dashboard.sweep_step data T) l
         (List.length (pre ++ cur)) (Spec.sweep_state acc cur))
    = Some (acc ++ flat_map Spec.report (Spec.split_runs T cur l)).
Proof.
  intros Hts. induction l as [| d rest IH]; intros pre cur acc Hdata.
  - simpl Dashboard.forEach_idx. unfold Dashboard.flush, Dashboard.run_reportable.
    destruct cur as [| c cs].
    + simpl. rewrite app_nil_r. reflexivity.
    + assert (Hc : JS.truthy (timestamp c) = true).
      { rewrite Forall_forall in Hts. apply Hts. rewrite Hdata.
        apply in_or_app. right. left. reflexivity. }
      unfold Spec.sweep_state.
      cbn [Dashboard.consecutiveCount Dashboard.currentStart Dashboard.incidents
           Dashboard.currentMax Spec.split_runs flat_map].
      unfold Spec.report, Spec.sustained.
      rewrite Hc, andb_true_r.
      destruct (3 <=? List.length (c :: cs))%nat eqn:E.
      * rewrite app_nil_r in Hdata. 
        replace (Dashboard.at_pred data (List.length data)) with (Some (last cs c)).
        { rewrite app_nil_r. reflexivity. }
        symmetry. rewrite Hdata at 2. rewrite <- (app_nil_r (c :: cs)) in Hdata.
        rewrite Hdata. apply at_pred_run.
      * rewrite app_nil_r. reflexivity.
  - cbn [Dashboard.forEach_idx Spec.split_runs].
    destruct (Spec.above T d) eqn:Habove.
    + rewrite sweep_step_above by exact Habove.
      replace (S (List.length (pre ++ cur))) with (List.length (pre ++ cur ++ [d]))
        by (rewrite !length_app; simpl; lia).
      apply IH. rewrite Hdata, <- app_assoc. reflexivity.
    + rewrite (@sweep_step_below data pre cur rest acc d Hts Hdata Habove).
      replace (S (List.length (pre ++ cur)))
        with (List.length ((pre ++ cur ++ [d]) ++ []))
        by (rewrite !length_app; simpl; lia).
      rewrite IH by (rewrite Hdata, <- !app_assoc; reflexivity).
      rewrite <- app_assoc. destruct cur; reflexivity.
Qed.

Lemma split_runs_maximal (l : list CpuLogEntry) :
  forall cur, Forall (fun d => Spec.above T d = true) cur ->
  Spec.maximal_runs T (cur ++ l) (Spec.split_runs T cur l).
Proof.
  induction l as [| d rest IH]; intros cur Hcur.
  - destruct cur as [| c cs]; [constructor |].
    simpl Spec.split_runs. apply (@Spec.runs_run T (c :: cs) [] []).
    + discriminate.
    + exact Hcur.
    + exact I.
    + constructor.
  - simpl Spec.split_runs. destruct (Spec.above T d) eqn:Habove.
    + replace (cur ++ d :: rest) with ((cur ++ [d]) ++ rest)
        by (rewrite <- app_assoc; reflexivity).
      apply IH. apply Forall_app. split; [exact Hcur | repeat constructor; exact Habove].
    + assert (Hrest : Spec.maximal_runs T (d :: rest) (Spec.split_runs T [] rest)).
      { apply Spec.runs_below; [exact Habove | apply (IH []); constructor]. }
      destruct cur as [| c cs]; [exact Hrest |].
      apply (@Spec.runs_run T (c :: cs) (d :: rest)).
      * discriminate.
      * exact Hcur.
      * exact Habove.
      * exact Hrest.
Qed.

Lemma split_runs_run (run : list CpuLogEntry) :
  forall cur rest, Forall (fun d => Spec.above T d = true) run ->
  Spec.split_runs T cur (run ++ rest) = Spec.split_runs T (cur ++ run) rest.
Proof.
  induction run as [| d run IH]; intros cur rest Hrun.
  - rewrite app_nil_r. reflexivity.
  - inversion Hrun as [| ? ? Hd Hrun']; subst. simpl. rewrite Hd.
    rewrite IH by exact Hrun'. rewrite <- app_assoc. reflexivity.
Qed.

Lemma split_runs_close (cur rest : list CpuLogEntry) :
  cur <> [] -> Spec.starts_below T rest ->
  Spec.split_runs T cur rest = cur :: Spec.split_runs T [] rest.
Proof.
  intros Hne Hrest. destruct cur as [| c cs]; [congruence |].
  destruct rest as [| d rest]; [reflexivity |].
  simpl in Hrest. simpl. rewrite Hrest. reflexivity.
Qed.

Lemma maximal_runs_split (data : list CpuLogEntry) (runs : list (list CpuLogEntry)) :
  Spec.maximal_runs T data runs -> runs = Spec.split_runs T [] data.
Proof.
  induction 1 as [| d rest rs Hd _ IH | run rest rs Hne Hrun Hrest _ IH].
  - reflexivity.
  - simpl. rewrite Hd. exact IH.
  - rewrite split_runs_run by exact Hrun. simpl.
    rewrite split_runs_close by assumption. rewrite IH. reflexivity.
Qed.

Lemma report_describes (runs : list (list CpuLogEntry)) :
  Forall2 Spec.describes (filter Spec.sustained runs) (flat_map Spec.report runs).
Proof.
  induction runs as [| run runs IH]; [constructor |].
  simpl. unfold Spec.report at 1. destruct run as [| d rest].
  - simpl. exact IH.
  - destruct (Spec.sustained (d :: rest)); [| exact IH].
    simpl. constructor; [| exact IH].
    split; [| split]; simpl.
    + exists d, rest. repeat split.
    + apply (@peak_attained d rest).
    + intros x Hx. apply peak_bound. exact Hx.
Qed.

(** C1.  On samples whose timestamps are truthy (not empty), as every
    producer of samples makes them, the incident sweep with threshold [T]
    succeeds and reports, in input order, exactly one incident for each
    maximal contiguous run of samples whose load [user + sys], the sum the
    code computes on doubles, is strictly above [T] and whose length is at
    least 3: the incident starts at the
    timestamp of the first sample of the run, ends at the timestamp of its
    last sample, and its peak is the greatest load within the run.  Shorter
    runs report nothing, and the run still open at the end of the data is
    reported by the same rule.  The runs of the data are unique. *)
Theorem alertIncidents_maximal_runs :
  forall (data : list CpuLogEntry),
    Forall (fun d => JS.truthy (timestamp d) = true) data ->
    exists (runs : list (list CpuLogEntry)) (found : list Dashboard.Incident),
      Spec.maximal_runs T data runs
      /\ (forall runs', Spec.maximal_runs T data runs' -> runs' = runs)
      /\ Dashboard.alertIncidents data T = Some found
      /\ Forall2 Spec.describes (filter Spec.sustained runs) found.
Proof.
  intros data Hts.
  exists (Spec.split_runs T [] data), (flat_map Spec.report (Spec.split_runs T [] data)).
  split; [apply (@split_runs_maximal data []); constructor |].
  split; [intros runs' H; apply maximal_runs_split; exact H |].
  split; [| apply report_describes].
  apply (@sweep_split_runs data Hts data [] [] []). reflexivity.
Qed.

End IncidentSweep.

(** The theorem at the samples with loads 90, 90, 90, 10, 95, 95, 95, 95, 10
    and threshold 80. *)
Lemma alertIncidents_sample_loads :
  exists (runs : list (list CpuLogEntry)) (found : list Dashboard.Incident),
    Spec.maximal_runs 80 Examples.sample_loads runs
    /\ (forall runs', Spec.maximal_runs 80 Examples.sample_loads runs' -> runs' = runs)
    /\ Dashboard.alertIncidents Examples.sample_loads 80 = Some found
    /\ Forall2 Spec.describes (filter Spec.sustained runs) found.
Proof.
  apply (@alertIncidents_maximal_runs 80 Examples.sample_loads).
  repeat constructor.
Defined.

(** With threshold 80 these samples give two incidents, the first three
    samples and the four samples at 95; with threshold 96 they give none. *)
Example alertIncidents_threshold_80 :
  Dashboard.alertIncidents Examples.sample_loads 80
  = Some [ {| Dashboard.start := JS.Str "2024-03-01T12:00:00.000Z";
              Dashboard.end_ := JS.Str "2024-03-01T12:00:02.000Z";
              Dashboard.maxVal := 90 |};
           {| Dashboard.start := JS.Str "2024-03-01T12:00:04.000Z";
              Dashboard.end_ := JS.Str "2024-03-01T12:00:07.000Z";
              Dashboard.maxVal := 95 |} ].
Proof. vm_compute. reflexivity. Qed.

Example alertIncidents_threshold_96 :
  Dashboard.alertIncidents Examples.sample_loads 96 = Some [].
Proof. vm_compute. reflexivity. Qed.

(** A load equal to the threshold is not above it. *)
Example alertIncidents_threshold_90 :
  Dashboard.alertIncidents Examples.sample_loads 90
  = Some [ {| Dashboard.start := JS.Str "2024-03-01T12:00:04.000Z";
              Dashboard.end_ := JS.Str "2024-03-01T12:00:07.000Z";
              Dashboard.maxVal := 95 |} ].
Proof. vm_compute. reflexivity. Qed.

(** The load is the sum of doubles: at the readings 1.1 and 2.2 it is the
    double above 3.3, so three such samples are an incident at the
    threshold 3.3, although the decimal sum is not above it. *)
Example alertIncidents_sum_of_doubles :
  Dashboard.alertIncidents
    [ Examples.sample 0 (11 # 10) (22 # 10); Examples.sample 1 (11 # 10) (22 # 10);
      Examples.sample 2 (11 # 10) (22 # 10) ]
    (Float64.round (33 # 10))
  = Some [ {| Dashboard.start := JS.Str "2024-03-01T12:00:00.000Z";
              Dashboard.end_ := JS.Str "2024-03-01T12:00:02.000Z";
              Dashboard.maxVal := 7430939385161319 # 2251799813685248 |} ]
  /\ (11 # 10) + (22 # 10) == 33 # 10.
Proof. split; vm_compute; reflexivity. Qed.

(** ** Ingestion of log lines *)

Section Ingestion.
Context (host : Host).

Lemma parse_line_accepts (k : nat) (line : string) :
  match Parser.parse_line host k line with
  | (Some e, _) => Spec.accepted host line = true /\ Spec.ingested host line e
  | (None, _) => Spec.accepted host line = false
  end.
Proof.
  unfold Parser.parse_line, Spec.accepted, Spec.valid_line, Spec.memory_fits.
  destruct (JS.str_empty (JS.trim line)); [reflexivity |].
  destruct (JSON_parse host (JS.trim line)) as [v |] eqn:Hv; [| reflexivity].
  destruct v as [| | b | q | t | items | entry]; try reflexivity.
  unfold Parser.build_entry, Spec.ingested. cbn [Spec.field].
  destruct (JS.assoc "cpu_user_percent" entry) as [[| | | u | | |] |] eqn:Hu;
    try reflexivity.
  destruct (JS.assoc "cpu_sys_percent" entry) as [[| | | s | | |] |] eqn:Hs;
    try reflexivity.
  remember (match JS.assoc "timestamp" entry with Some x => x | None => JS.Undefined end)
    as ts eqn:Ets.
  remember (match JS.assoc "memory_percent" entry with Some x => x | None => JS.Undefined end)
    as mem eqn:Emem.
  cbn [negb Spec.is_number andb].
  assert (Hfin : forall e,
    cpu_user_percent e = JS.round_fixed 2 u ->
    cpu_sys_percent e = JS.round_fixed 2 s ->
    memory_percent e
    = match mem with
      | JS.Num m => if JS.nonzero m then Some (JS.round_fixed 2 m) else None
      | _ => None
      end ->
    timestamp e
    = (if JS.truthy ts then ts else JS.Str (Date_toISOString host (Date_now host k))) ->
    pid e = (if JS.truthy (Spec.field (JS.Obj entry) "pid")
             then Spec.field (JS.Obj entry) "pid" else JS.Num 0) ->
    command e = Spec.field (JS.Obj entry) "command" ->
    Spec.ingested host line e).
  { intros e H1 H2 H3 H4 H5 H6. exists (JS.Obj entry), u, s, k.
    cbn [Spec.field]. rewrite Hu, Hs, <- Ets, <- Emem.
    repeat split; assumption. }
  destruct (JS.truthy ts) eqn:Hts;
    destruct mem as [| | b | m | t | items | o];
    try change (JS.truthy (JS.Num m)) with (JS.nonzero m);
    cbn [JS.truthy Spec.is_number negb orb];
    try (destruct b); try (destruct (JS.nonzero m) eqn:Hnz);
    try (destruct (JS.str_empty t));
    cbn [negb orb]; try reflexivity;
    (split; [reflexivity |]; apply Hfin; cbn; rewrite ?Hnz; reflexivity).
Qed.

Lemma parse_lines_accepted (lines : list string) :
  forall k, Forall2 (Spec.ingested host) (filter (Spec.accepted host) lines)
              (Parser.parse_lines host k lines).
Proof.
  induction lines as [| line rest IH]; intros k; simpl; [constructor |].
  pose proof (parse_line_accepts k line) as H.
  destruct (Parser.parse_line host k line) as [[e |] k'].
  - destruct H as [Hacc Hing]. rewrite Hacc. constructor; [exact Hing | apply IH].
  - rewrite H. apply IH.
Qed.

(** C3, amended.  A line is valid when it is not blank, decodes as JSON and
    has numeric [cpu_user_percent] and [cpu_sys_percent]; the parser keeps
    the valid lines whose [memory_percent] is absent, falsy or a number.  It
    returns exactly one sample for each kept line, in the order of the lines:
    CPU and memory rounded to 2 decimals, the timestamp defaulted to a reading
    of the clock and the pid to 0 when absent.  Every other line is skipped
    without failing the parse, and an input without kept lines gives the
    empty sequence. *)
Theorem parseLogData_accepted_lines :
  forall (input : string),
    let lines := JS.split_lines (JS.trim input) in
    let kept := filter (Spec.accepted host) lines in
    Forall2 (Spec.ingested host) kept (Parser.parseLogData host input)
    /\ List.length (Parser.parseLogData host input) = List.length kept
    /\ (List.length kept <= List.length (filter (Spec.valid_line host) lines))%nat
    /\ (kept = [] -> Parser.parseLogData host input = []).
Proof.
  intros input lines kept.
  assert (H : Forall2 (Spec.ingested host) kept (Parser.parseLogData host input))
    by apply parse_lines_accepted.
  split; [exact H |]. split; [symmetry; eapply Forall2_length; exact H |]. split.
  - subst kept. clear H. induction lines as [| l ls IH]; simpl; [lia |].
    unfold Spec.accepted at 1. destruct (Spec.valid_line host l); simpl.
    + destruct (Spec.memory_fits host l); simpl; lia.
    + exact IH.
  - intros E. rewrite E in H. inversion H. reflexivity.
Qed.

End Ingestion.

(** A valid line whose [memory_percent] is a text is skipped: the input has
    one valid line and the parse is empty. *)
Lemma parseLogData_skips_text_memory :
  filter (Spec.valid_line Examples.line_host)
    (JS.split_lines (JS.trim Examples.line_text_memory)) = [Examples.line_text_memory]
  /\ Parser.parseLogData Examples.line_host Examples.line_text_memory = [].
Proof. split; vm_compute; reflexivity. Qed.

(** A line without timestamp and with memory 0, a line that does not
    decode, a blank line, and a line of the capture script. *)
Example parseLogData_mixed_lines :
  Parser.parseLogData Examples.line_host
    (Examples.line_zero_memory ++ Examples.newline ++ "not json" ++ Examples.newline
     ++ "   " ++ Examples.newline ++ Examples.line_small_memory ++ Examples.newline)%string
  = [ {| timestamp := JS.Str "2024-03-01T12:00:00.000Z";
         pid := JS.Num 77;
         cpu_user_percent := 1235 # 100;
         cpu_sys_percent := 100 # 100;
         memory_percent := None;
         command := JS.Undefined |};
      {| timestamp := JS.Str "2024-03-01T12:00:05";
         pid := JS.Num 77;
         cpu_user_percent := 5000 # 100;
         cpu_sys_percent := 2000 # 100;
         memory_percent := Some (0 # 100);
         command := JS.Undefined |} ].
Proof. vm_compute. reflexivity. Qed.

(** ** Statistics *)

Section Statistics.

Lemma memCount_without_memory (data : list CpuLogEntry) :
  forall acc,
    Forall (fun d => memory_percent d = None) data ->
    Dashboard.memCount (fold_left Dashboard.stats_step data acc) = Dashboard.memCount acc.
Proof.
  induction data as [| d data IH]; intros acc H; [reflexivity |].
  inversion H as [| ? ? Hd Hrest]; subst. simpl. rewrite IH by exact Hrest.
  unfold Dashboard.stats_step. rewrite Hd. reflexivity.
Qed.

Lemma fold_memory_values (data : list CpuLogEntry) :
  forall acc,
    Dashboard.sumMem (fold_left Dashboard.stats_step data acc)
    = fold_left JS.add (Behaviour.memory_values data) (Dashboard.sumMem acc)
    /\ Dashboard.memCount (fold_left Dashboard.stats_step data acc)
       = (Dashboard.memCount acc + List.length (Behaviour.memory_values data))%nat.
Proof.
  induction data as [| d data IH]; intros acc.
  - simpl. split; [reflexivity | lia].
  - cbn [fold_left]. destruct (IH (Dashboard.stats_step acc d)) as [Hs Hc].
    rewrite Hs, Hc. unfold Dashboard.stats_step, Behaviour.memory_values.
    cbn [flat_map Dashboard.sumMem Dashboard.memCount].
    destruct (memory_percent d) as [m |]; cbn [app fold_left List.length];
      split; try reflexivity; lia.
Qed.

(** On a view of which a sample carries memory, the average shown is the
    mean of the memory values. *)
Lemma avgMem_mean (data : list CpuLogEntry) :
  Behaviour.memory_values data <> [] ->
  Dashboard.avgMem (Dashboard.stats data)
  = JS.Str (JS.toFixed 1 (Behaviour.mean (Behaviour.memory_values data))).
Proof.
  intros Hne. destruct data as [| d data]; [exfalso; apply Hne; reflexivity |].
  unfold Dashboard.stats. cbn [Dashboard.avgMem].
  match goal with |- context [fold_left Dashboard.stats_step ?l ?z] =>
    destruct (fold_memory_values l z) as [Hs Hc] end.
  rewrite Hs, Hc. cbn [Dashboard.sumMem Dashboard.memCount Nat.add].
  destruct (Behaviour.memory_values (d :: data)) as [| v vs] eqn:E; [congruence |].
  reflexivity.
Qed.

Lemma in_memory_values (data : list CpuLogEntry) (d : CpuLogEntry) (z : Q) :
  In d data -> memory_percent d = Some z -> In z (Behaviour.memory_values data).
Proof.
  intros Hin Hz. unfold Behaviour.memory_values. apply in_flat_map.
  exists d. split; [exact Hin |]. rewrite Hz. left. reflexivity.
Qed.

(** C4, amended.  On the empty sequence the statistics are [count = 0] and
    the number 0 for [avgUser], [avgSys], [maxTotal] and also for [avgMem];
    the marker [N/A], which differs from the number 0, is the [avgMem] of
    the non-empty sequences in which no sample carries [memory_percent]. *)
Theorem stats_empty_and_marker :
  Dashboard.stats []
  = {| Dashboard.avgUser := JS.Num 0; Dashboard.avgSys := JS.Num 0;
       Dashboard.maxTotal := JS.Num 0; Dashboard.avgMem := JS.Num 0;
       Dashboard.count := 0 |}
  /\ (forall (d : CpuLogEntry) (data : list CpuLogEntry),
        Forall (fun x => memory_percent x = None) (d :: data) ->
        Dashboard.avgMem (Dashboard.stats (d :: data)) = JS.Str "N/A"
        /\ Dashboard.count (Dashboard.stats (d :: data)) = S (List.length data))
  /\ JS.Str "N/A" <> JS.Num 0.
Proof.
  split; [reflexivity |]. split; [| discriminate].
  intros d data H. split; [| reflexivity].
  unfold Dashboard.stats. cbn [Dashboard.avgMem].
  rewrite memCount_without_memory by exact H. reflexivity.
Qed.

(** On the empty sequence [avgMem] is the number 0, while one sample
    without memory gives the marker. *)
Lemma stats_empty_avgMem_is_zero :
  Dashboard.avgMem (Dashboard.stats []) = JS.Num 0
  /\ Dashboard.avgMem (Dashboard.stats [Examples.sample 0 70 20]) = JS.Str "N/A".
Proof. split; reflexivity. Qed.

(** A sample stored with memory 0 is counted by the average. *)
Example stats_counts_zero_memory :
  Dashboard.avgMem (Dashboard.stats [Examples.last_sample (Some 0)]) = JS.Str "0.0".
Proof. vm_compute. reflexivity. Qed.

End Statistics.

(** ** The analysis request *)

Section Analysis.
Context (host : Host).


End Analysis.

(** ** The demonstration data *)

Section MockData.
Context (host : Host).

Lemma Math_min_r (a b : Q) : b < a -> JS.Math_min a b = b.
Proof.
  intros H. unfold JS.Math_min, JS.ltb.
  destruct (Qle_bool a b) eqn:E; [| reflexivity].
  apply Qle_bool_iff in E. exfalso. apply (Qlt_not_le _ _ H). exact E.
Qed.

Lemma mock_loop_length (now : Z) (todo : nat) :
  forall i r, List.length (Parser.mock_loop host now todo i r) = todo.
Proof.
  induction todo as [| todo IH]; intros i r; simpl; [reflexivity |].
  rewrite IH. reflexivity.
Qed.

Lemma mock_loop_nth (now : Z) (todo : nat) :
  forall i r j, (j < todo)%nat ->
    nth_error (Parser.mock_loop host now todo i r) j
    = Some (Parser.mock_entry host now (i + j) (r + 3 * j)).
Proof.
  induction todo as [| todo IH]; intros i r j Hj; [lia |].
  destruct j as [| j]; simpl.
  - rewrite !Nat.add_0_r. reflexivity.
  - rewrite IH by lia. f_equal. f_equal; lia.
Qed.

(** C9, amended.  With random numbers in [0, 1), [generateMockData] gives
    exactly 60 samples; the sample at index [i] is stamped [60 - i] seconds
    before the instant [now] read at the call, so the samples are exactly 1
    second apart, the first 60 seconds and the last 1 second before [now];
    the samples at the indices strictly between 40 and 50 have user load in
    [60, 70] and system load in [20, 25], all others user load in [10, 20]
    and system load in [2, 7]; every sample has memory in [45, 46], pid 1234
    and the command label of the worker. *)
Theorem generateMockData_shape :
  forall (k r : nat),
    (forall j, 0 <= Math_random host j /\ Math_random host j < 1) ->
    let data := Parser.generateMockData host k r in
    let now := Date_now host k in
    List.length data = 60%nat
    /\ (forall i, (i < 60)%nat ->
        exists e,
          nth_error data i = Some e
          /\ timestamp e
             = JS.Str (Date_toISOString host (now - (60 - Z.of_nat i) * 1000)%Z)
          /\ pid e = JS.Num 1234
          /\ command e = JS.Str "python3 worker.py"
          /\ (exists m, memory_percent e = Some m /\ 45 <= m /\ m <= 46)
          /\ (if ((40 <? i) && (i <? 50))%nat
              then 60 <= cpu_user_percent e /\ cpu_user_percent e <= 70
                   /\ 20 <= cpu_sys_percent e /\ cpu_sys_percent e <= 25
              else 10 <= cpu_user_percent e /\ cpu_user_percent e <= 20
                   /\ 2 <= cpu_sys_percent e /\ cpu_sys_percent e <= 7))
    /\ option_map timestamp (nth_error data 59)
       = Some (JS.Str (Date_toISOString host (now - 1000)%Z)).
Proof.
  intros k r Hrand data now. subst data now. unfold Parser.generateMockData.
  split; [apply mock_loop_length |]. split.
  - intros i Hi. rewrite mock_loop_nth by exact Hi.
    eexists. split; [reflexivity |].
    unfold Parser.mock_entry.
    cbn [timestamp pid command memory_percent cpu_user_percent cpu_sys_percent].
    simpl (0 + i)%nat.
    destruct (Hrand (r + 3 * i)%nat) as [Hu0 Hu1].
    destruct (Hrand (r + 3 * i + 1)%nat) as [Hs0 Hs1].
    destruct (Hrand (r + 3 * i + 2)%nat) as [Hm0 Hm1].
    destruct (@mul_between 0 1 10 (Math_random host (r + 3 * i))) as [Mu0 Mu1];
      try exact_double; try lra.
    destruct (@mul_between 0 1 5 (Math_random host (r + 3 * i + 1))) as [Ms0 Ms1];
      try exact_double; try lra.
    destruct (@add_between 45 45 0 1 45 (Math_random host (r + 3 * i + 2))) as [Am0 Am1];
      try exact_double; try lra.
    repeat split.
    + eexists. split; [reflexivity |]. split; lra.
    + destruct ((40 <? i) && (i <? 50))%nat.
      * destruct (@add_between 60 60 (0 * 10) (1 * 10) 60
                    (JS.mul (Math_random host (r + 3 * i)) 10)) as [Au0 Au1];
          try exact_double; try lra.
        destruct (@add_between 20 20 (0 * 5) (1 * 5) 20
                    (JS.mul (Math_random host (r + 3 * i + 1)) 5)) as [As0 As1];
          try exact_double; try lra.
        rewrite !Math_min_r by lra. repeat split; lra.
      * destruct (@add_between 10 10 (0 * 10) (1 * 10) 10
                    (JS.mul (Math_random host (r + 3 * i)) 10)) as [Au0 Au1];
          try exact_double; try lra.
        destruct (@add_between 2 2 (0 * 5) (1 * 5) 2
                    (JS.mul (Math_random host (r + 3 * i + 1)) 5)) as [As0 As1];
          try exact_double; try lra.
        rewrite !Math_min_r by lra. repeat split; lra.
  - rewrite mock_loop_nth by lia. reflexivity.
Qed.

End MockData.

(** The theorem on the reference host with all draws at 1/2. *)
Lemma generateMockData_reference :
  let host := RefHost.make RefHost.half [] in
  let data := Parser.generateMockData host 0 0 in
  let now := Date_now host 0 in
    List.length data = 60%nat
    /\ (forall i, (i < 60)%nat ->
        exists e,
          nth_error data i = Some e
          /\ timestamp e
             = JS.Str (Date_toISOString host (now - (60 - Z.of_nat i) * 1000)%Z)
          /\ pid e = JS.Num 1234
          /\ command e = JS.Str "python3 worker.py"
          /\ (exists m, memory_percent e = Some m /\ 45 <= m /\ m <= 46)
          /\ (if ((40 <? i) && (i <? 50))%nat
              then 60 <= cpu_user_percent e /\ cpu_user_percent e <= 70
                   /\ 20 <= cpu_sys_percent e /\ cpu_sys_percent e <= 25
              else 10 <= cpu_user_percent e /\ cpu_user_percent e <= 20
                   /\ 2 <= cpu_sys_percent e /\ cpu_sys_percent e <= 7))
    /\ option_map timestamp (nth_error data 59)
       = Some (JS.Str (Date_toISOString host (now - 1000)%Z)).
Proof.
  apply (@generateMockData_shape (RefHost.make RefHost.half []) 0 0).
  intros j. split; [discriminate | reflexivity].
Defined.

(** The last sample is stamped one second before the instant of the
    call, not at it. *)
Lemma generateMockData_ends_before_now :
  option_map timestamp
    (nth_error (Parser.generateMockData (RefHost.make RefHost.half []) 0 0) 59)
  = Some (JS.Str "2024-03-01T11:59:59.000Z")
  /\ Date_toISOString (RefHost.make RefHost.half [])
       (Date_now (RefHost.make RefHost.half []) 0)
     = "2024-03-01T12:00:00.000Z"%string.
Proof. split; vm_compute; reflexivity. Qed.

(** ** The stream tick *)

Section StreamTick.
Context (host : Host).

Lemma drift_range (r : nat) :
  0 <= Math_random host r -> Math_random host r < 1 ->
  -5 <= Dashboard.drift host r /\ Dashboard.drift host r <= 5.
Proof.
  intros H0 H1. unfold Dashboard.drift.
  destruct (@sub_between 0 1 (1 # 2) (Math_random host r)) as [S0 S1];
    try exact_double; try lra.
  destruct (@mul_between (- (1 # 2)) (1 # 2) 10 (JS.sub (Math_random host r) (1 # 2)))
    as [M0 M1]; try exact_double; try lra.
Qed.

Lemma clamp_range (x : Q) : 0 <= Dashboard.clamp x /\ Dashboard.clamp x <= 100.
Proof.
  unfold Dashboard.clamp, JS.Math_min, JS.Math_max, JS.ltb.
  destruct (Qle_bool x 0) eqn:E0; simpl.
  - destruct (Qle_bool 100 0) eqn:E1; simpl; [discriminate E1 | split; lra].
  - destruct (Qle_bool 100 x) eqn:E1; simpl.
    + split; lra.
    + split.
      * apply Qlt_le_weak, Qnot_le_lt. intros H. apply Qle_bool_iff in H. congruence.
      * apply Qlt_le_weak, Qnot_le_lt. intros H. apply Qle_bool_iff in H. congruence.
Qed.

Lemma nonzero_false (m : Q) : m == 0 -> JS.nonzero m = false.
Proof.
  intros H. unfold JS.nonzero. apply Qeq_bool_iff in H. rewrite H. reflexivity.
Qed.

Lemma round_fixed_percent (x : Q) :
  0 <= x -> x <= 100 ->
  0 <= JS.round_fixed 2 x /\ JS.round_fixed 2 x <= 100.
Proof.
  intros H0 H1. unfold JS.round_fixed, JS.fixed_units, JS.ltb.
  assert (E : Qle_bool 0 x = true) by (apply Qle_bool_iff; exact H0).
  rewrite E. simpl negb. cbv iota.
  change (JS.scale10 2) with 100%positive.
  set (n := Qfloor (Qabs x * inject_Z 100 + (1 # 2))).
  assert (Hn0 : (0 <= n)%Z).
  { change 0%Z with (Qfloor 0). apply Qfloor_resp_le.
    pose proof (Qabs_nonneg x). change (inject_Z 100) with 100. lra. }
  assert (Hn1 : (n <= 10000)%Z).
  { change 10000%Z with (Qfloor (10000 + (1 # 2))). apply Qfloor_resp_le.
    rewrite (Qabs_pos x H0). change (inject_Z 100) with 100. lra. }
  unfold Qle. simpl. split; lia.
Qed.

Lemma round_fixed_2_close (x : Q) :
  Qabs (JS.round_fixed 2 x - x) <= 1 # 200.
Proof.
  unfold JS.round_fixed, JS.fixed_units, JS.ltb.
  change (JS.scale10 2) with 100%positive. change (inject_Z (Z.pos 100)) with 100.
  set (n := Qfloor (Qabs x * 100 + (1 # 2))).
  pose proof (Qfloor_le (Qabs x * 100 + (1 # 2))) as Hle.
  pose proof (Qlt_floor (Qabs x * 100 + (1 # 2))) as Hlt.
  fold n in Hle, Hlt. rewrite inject_Z_plus in Hlt. change (inject_Z 1) with 1 in Hlt.
  set (q := inject_Z n) in *.
  assert (Hq : forall k : Z, k # 100 == inject_Z k * (1 # 100)).
  { intros k. rewrite (Qmake_Qdiv k 100). reflexivity. }
  apply Qabs_Qle_condition.
  destruct (Qle_bool 0 x) eqn:E; simpl negb; cbv iota.
  - apply Qle_bool_iff in E. rewrite (Qabs_pos x E) in Hle, Hlt.
    rewrite (Hq n). fold q. split; lra.
  - assert (Hx : x < 0).
    { apply Qnot_le_lt. intros H. apply Qle_bool_iff in H. congruence. }
    rewrite (Qabs_neg x (Qlt_le_weak _ _ Hx)) in Hle, Hlt.
    rewrite (Hq (- n)%Z), inject_Z_opp. fold q. split; lra.
Qed.

Lemma drift_half_range (r : nat) :
  0 <= Math_random host r -> Math_random host r < 1 ->
  -(5 # 2) <= JS.div (Dashboard.drift host r) 2
  /\ JS.div (Dashboard.drift host r) 2 <= 5 # 2.
Proof.
  intros H0 H1. destruct (drift_range r H0 H1) as [D0 D1].
  destruct (@div_between (-5) 5 2 (Dashboard.drift host r)) as [V0 V1];
    try exact_double; try lra; try reflexivity.
  split; [eapply Qle_trans; [| exact V0] | eapply Qle_trans; [exact V1 |]];
    unfold Qle; simpl; lia.
Qed.

Lemma drift_fifth_range (r : nat) :
  0 <= Math_random host r -> Math_random host r < 1 ->
  -1 <= JS.div (Dashboard.drift host r) 5 /\ JS.div (Dashboard.drift host r) 5 <= 1.
Proof.
  intros H0 H1. destruct (drift_range r H0 H1) as [D0 D1].
  destruct (@div_between (-5) 5 5 (Dashboard.drift host r)) as [V0 V1];
    try exact_double; try lra; try reflexivity.
  split; [eapply Qle_trans; [| exact V0] | eapply Qle_trans; [exact V1 |]];
    unfold Qle; simpl; lia.
Qed.

(** What a tick derives from the last entry [L], for random numbers in
    [0, 1) and a timestamp the host reads as an instant [t] at least one
    second before the end of the range of [Date].  The perturbations are
    the doubles the code computes, and so are the sums. *)
Lemma next_entry_perturbs (r : nat) (L : CpuLogEntry) (t : Z) :
  (forall j, 0 <= Math_random host j /\ Math_random host j < 1) ->
  Date_getTime host (timestamp L) = Some t ->
  Dashboard.in_Date_range (t + 1000) = true ->
  exists (e : CpuLogEntry) (r' : nat) (pu ps : Q),
    Dashboard.next_entry host r L = Some (e, r')
    /\ timestamp e = JS.Str (Date_toISOString host (t + 1000)%Z)
    /\ pid e = pid L /\ command e = command L
    /\ (-5 <= pu /\ pu <= 5)
    /\ cpu_user_percent e
       = JS.round_fixed 2 (Dashboard.clamp (JS.add (cpu_user_percent L) pu))
    /\ (-(5 # 2) <= ps /\ ps <= 5 # 2)
    /\ cpu_sys_percent e
       = JS.round_fixed 2 (Dashboard.clamp (JS.add (cpu_sys_percent L) ps))
    /\ (0 <= cpu_user_percent e /\ cpu_user_percent e <= 100)
    /\ (0 <= cpu_sys_percent e /\ cpu_sys_percent e <= 100)
    /\ match memory_percent L with
       | None => memory_percent e = None
       | Some m =>
           exists pm, (-1 <= pm /\ pm <= 1)
             /\ memory_percent e
                = (if JS.nonzero m && JS.nonzero (Dashboard.clamp (JS.add m pm))
                   then Some (JS.round_fixed 2 (Dashboard.clamp (JS.add m pm)))
                   else None)
       end.
Proof.
  intros Hrand Ht Hrange. unfold Dashboard.next_entry. rewrite Ht, Hrange.
  destruct (Hrand r) as [Hu0 Hu1]. destruct (Hrand (r + 1)%nat) as [Hs0 Hs1].
  destruct (Hrand (r + 2)%nat) as [Hm0 Hm1].
  pose proof (clamp_range (JS.add (cpu_user_percent L) (Dashboard.drift host r)))
    as [Cu0 Cu1].
  pose proof (clamp_range
                (JS.add (cpu_sys_percent L) (JS.div (Dashboard.drift host (r + 1)) 2)))
    as [Cs0 Cs1].
  destruct (memory_percent L) as [m |] eqn:Hmem.
  - destruct (JS.nonzero m) eqn:Hnz;
      (eexists; eexists;
       exists (Dashboard.drift host r), (JS.div (Dashboard.drift host (r + 1)) 2);
       split; [reflexivity |];
       cbn [timestamp pid command cpu_user_percent cpu_sys_percent memory_percent];
       repeat split;
       try (apply drift_range; assumption);
       try (apply drift_half_range; assumption);
       try (apply round_fixed_percent; assumption)).
    + exists (JS.div (Dashboard.drift host (r + 2)) 5). split.
      * apply drift_fifth_range; assumption.
      * reflexivity.
    + exists (JS.div (Dashboard.drift host (r + 2)) 5). split.
      * apply drift_fifth_range; assumption.
      * reflexivity.
  - eexists; eexists;
      exists (Dashboard.drift host r), (JS.div (Dashboard.drift host (r + 1)) 2);
      split; [reflexivity |];
      cbn [timestamp pid command cpu_user_percent cpu_sys_percent memory_percent];
      repeat split;
      try (apply drift_range; assumption);
      try (apply drift_half_range; assumption);
      try (apply round_fixed_percent; assumption).
Qed.

(** A tick that succeeds has read the last timestamp as an instant at least
    one second before the end of the range of [Date]. *)
Lemma next_entry_inv (r : nat) (L e : CpuLogEntry) (r' : nat) :
  Dashboard.next_entry host r L = Some (e, r') ->
  exists t,
    Date_getTime host (timestamp L) = Some t
    /\ Dashboard.in_Date_range (t + 1000) = true
    /\ timestamp e = JS.Str (Date_toISOString host (t + 1000)%Z)
    /\ pid e = pid L /\ command e = command L.
Proof.
  unfold Dashboard.next_entry. intros H.
  destruct (Date_getTime host (timestamp L)) as [t |];
    [| destruct (memory_percent L) as [m |]; [destruct (JS.nonzero m) |];
       discriminate H].
  destruct (Dashboard.in_Date_range (t + 1000)) eqn:Hrange;
    [| destruct (memory_percent L) as [m |]; [destruct (JS.nonzero m) |];
       discriminate H].
  exists t. split; [reflexivity |]. split; [exact Hrange |].
  destruct (memory_percent L) as [m |]; [destruct (JS.nonzero m) |];
    injection H as He Hr; subst e;
    (split; [reflexivity |]); (split; reflexivity).
Qed.

Lemma in_Date_range_iff (t : Z) :
  Dashboard.in_Date_range t = true
  <-> (- 8640000000000000 <= t /\ t <= 8640000000000000)%Z.
Proof. unfold Dashboard.in_Date_range. rewrite Z.leb_le. lia. Qed.

Lemma last_entry_snoc (pre : list CpuLogEntry) (L : CpuLogEntry) :
  nth_error (pre ++ [L]) (List.length (pre ++ [L]) - 1) = Some L.
Proof.
  rewrite length_app. simpl.
  replace (List.length pre + 1 - 1)%nat with (List.length pre) by lia.
  rewrite nth_error_app2 by lia. rewrite Nat.sub_diag. reflexivity.
Qed.

(** A tick on a store that ends with [L] appends the derived entry under
    the rolling window. *)
Lemma stream_tick_appends (r : nat) (pre : list CpuLogEntry) (L e : CpuLogEntry) (r' : nat) :
  Dashboard.next_entry host r L = Some (e, r') ->
  Dashboard.stream_tick host r (pre ++ [L])
  = Some (Dashboard.rolling_window (pre ++ [L]) e, r').
Proof.
  intros H. unfold Dashboard.stream_tick. rewrite last_entry_snoc, H. reflexivity.
Qed.

Lemma nonzero_true (m : Q) : ~ m == 0 -> JS.nonzero m = true.
Proof.
  intros H. unfold JS.nonzero. destruct (Qeq_bool m 0) eqn:E; [| reflexivity].
  apply Qeq_bool_iff in E. contradiction.
Qed.

(** A number below 0.005 in magnitude has the text 0.00. *)
Lemma round_fixed_small (m : Q) : Qabs m < 1 # 200 -> JS.round_fixed 2 m == 0.
Proof.
  intros H. unfold JS.round_fixed, JS.fixed_units.
  change (JS.scale10 2) with 100%positive. change (inject_Z (Z.pos 100)) with 100.
  assert (E : Qfloor (Qabs m * 100 + (1 # 2)) = 0%Z).
  { pose proof (Qabs_nonneg m) as H0.
    assert (H1 : (0 <= Qfloor (Qabs m * 100 + (1 # 2)))%Z).
    { change 0%Z with (Qfloor 0). apply Qfloor_resp_le. lra. }
    assert (H2 : (Qfloor (Qabs m * 100 + (1 # 2)) < 1)%Z).
    { pose proof (Qfloor_le (Qabs m * 100 + (1 # 2))) as Hle.
      apply Z.lt_nge. intros C. rewrite Zle_Qle in C.
      change (inject_Z 1) with 1 in C. lra. }
    lia. }
  rewrite E. destruct (JS.ltb m 0); reflexivity.
Qed.

(** C10, amended.  Where the parser and the stream tick test
    [memory_percent] for truthiness, the number 0 is taken for absence: a
    valid line whose [memory_percent] is 0 gives a sample without memory;
    a tick from a last sample whose memory is 0 derives a sample without
    memory; and so does a tick whose perturbed and clamped memory, as the
    code computes it, is 0.  A memory that is not 0 and lies below 0.005
    is stored as the number 0, by the parser and by the tick alike; and
    the statistics average every stored memory, a stored 0 included. *)
Theorem zero_memory_is_absent :
  (forall (k : nat) (line : string) (v : JS.value) (m : Q),
      Spec.valid_line host line = true ->
      JSON_parse host (JS.trim line) = Some v ->
      Spec.field v "memory_percent" = JS.Num m ->
      m == 0 ->
      exists e k', Parser.parse_line host k line = (Some e, k')
                   /\ memory_percent e = None)
  /\ (forall (r : nat) (L e : CpuLogEntry) (r' : nat) (m : Q),
        Dashboard.next_entry host r L = Some (e, r') ->
        memory_percent L = Some m ->
        m == 0 ->
        memory_percent e = None)
  /\ (forall (r : nat) (L e : CpuLogEntry) (r' : nat) (m : Q),
        Dashboard.next_entry host r L = Some (e, r') ->
        memory_percent L = Some m ->
        Dashboard.clamp (JS.add m (JS.div (Dashboard.drift host (r + 2)) 5)) == 0 ->
        memory_percent e = None)
  /\ (forall (k : nat) (line : string) (v : JS.value) (m : Q),
        Spec.valid_line host line = true ->
        JSON_parse host (JS.trim line) = Some v ->
        Spec.field v "memory_percent" = JS.Num m ->
        ~ m == 0 ->
        Qabs m < 1 # 200 ->
        exists e k' z, Parser.parse_line host k line = (Some e, k')
                       /\ memory_percent e = Some z /\ z == 0)
  /\ (forall (r : nat) (L e : CpuLogEntry) (r' : nat) (m : Q),
        Dashboard.next_entry host r L = Some (e, r') ->
        memory_percent L = Some m ->
        ~ m == 0 ->
        ~ Dashboard.clamp (JS.add m (JS.div (Dashboard.drift host (r + 2)) 5)) == 0 ->
        Dashboard.clamp (JS.add m (JS.div (Dashboard.drift host (r + 2)) 5)) < 1 # 200 ->
        exists z, memory_percent e = Some z /\ z == 0)
  /\ (forall (data : list CpuLogEntry) (d : CpuLogEntry) (z : Q),
        In d data ->
        memory_percent d = Some z ->
        In z (Behaviour.memory_values data)
        /\ Dashboard.avgMem (Dashboard.stats data)
           = JS.Str (JS.toFixed 1
                       (JS.div (Behaviour.js_sum (Behaviour.memory_values data))
                          (Dashboard.number_of_nat
                             (List.length (Behaviour.memory_values data)))))).
Proof.
  assert (Hline : forall (k : nat) (line : string) (v : JS.value) (m : Q),
            Spec.valid_line host line = true ->
            JSON_parse host (JS.trim line) = Some v ->
            Spec.field v "memory_percent" = JS.Num m ->
            exists e k', Parser.parse_line host k line = (Some e, k')
                         /\ memory_percent e
                            = (if JS.nonzero m then Some (JS.round_fixed 2 m) else None)).
  { intros k line v m Hvalid Hv Hm.
    pose proof (parse_line_accepts host k line) as H.
    assert (Hacc : Spec.accepted host line = true).
    { unfold Spec.accepted, Spec.memory_fits. rewrite Hvalid, Hv, Hm.
      cbn [Spec.is_number andb]. apply orb_true_r. }
    destruct (Parser.parse_line host k line) as [[e |] k'].
    - exists e, k'. split; [reflexivity |].
      destruct H as [_ [v' [u [s [k0 [Hv' [_ [_ [_ [_ [Hmem _]]]]]]]]]]].
      rewrite Hv in Hv'. inversion Hv'; subst v'.
      rewrite Hmem, Hm. reflexivity.
    - rewrite H in Hacc. discriminate. }
  assert (Htick : forall (r : nat) (L e : CpuLogEntry) (r' : nat) (m : Q),
            Dashboard.next_entry host r L = Some (e, r') ->
            memory_percent L = Some m ->
            memory_percent e
            = (if JS.nonzero m
               then (if JS.nonzero
                          (Dashboard.clamp (JS.add m (JS.div (Dashboard.drift host (r + 2)) 5)))
                     then Some (JS.round_fixed 2
                                  (Dashboard.clamp
                                     (JS.add m (JS.div (Dashboard.drift host (r + 2)) 5))))
                     else None)
               else None)).
  { intros r L e r' m H Hmem. unfold Dashboard.next_entry in H. rewrite Hmem in H.
    destruct (JS.nonzero m);
      (destruct (Date_getTime host (timestamp L)) as [t |]; [| discriminate H]);
      (destruct (Dashboard.in_Date_range (t + 1000)); [| discriminate H]);
      inversion H; reflexivity. }
  split; [| split; [| split; [| split; [| split]]]].
  - intros k line v m Hvalid Hv Hm Hzero.
    destruct (Hline k line v m Hvalid Hv Hm) as [e [k' [Hp Hmem]]].
    exists e, k'. split; [exact Hp |]. rewrite Hmem, (nonzero_false Hzero). reflexivity.
  - intros r L e r' m H Hmem Hzero.
    rewrite (Htick r L e r' m H Hmem), (nonzero_false Hzero). reflexivity.
  - intros r L e r' m H Hmem Hzero.
    rewrite (Htick r L e r' m H Hmem), (nonzero_false Hzero).
    destruct (JS.nonzero m); reflexivity.
  - intros k line v m Hvalid Hv Hm Hnz Hsmall.
    destruct (Hline k line v m Hvalid Hv Hm) as [e [k' [Hp Hmem]]].
    exists e, k', (JS.round_fixed 2 m). split; [exact Hp |].
    split; [rewrite Hmem, (nonzero_true Hnz); reflexivity |].
    apply round_fixed_small. exact Hsmall.
  - intros r L e r' m H Hmem Hnz Hc Hsmall.
    eexists. split.
    + rewrite (Htick r L e r' m H Hmem), (nonzero_true Hnz), (nonzero_true Hc).
      reflexivity.
    + apply round_fixed_small.
      destruct (clamp_range (JS.add m (JS.div (Dashboard.drift host (r + 2)) 5)))
        as [C0 _].
      rewrite Qabs_pos by exact C0. exact Hsmall.
  - intros data d z Hin Hz.
    pose proof (in_memory_values data d Hin Hz) as Hv.
    split; [exact Hv |]. apply avgMem_mean.
    intros E. rewrite E in Hv. exact Hv.
Qed.

End StreamTick.

(** C5 at a failing input.  The last sample carries memory 0.5 and the
    third draw is 0.05, a perturbation of -0.9: the perturbed memory clamps
    to 0, and the derived sample carries no memory at all. *)
Lemma stream_tick_drops_clamped_memory :
  Dashboard.stream_tick (Examples.tick_host [1 # 2; 1 # 2; 1 # 20]) 0
    [Examples.last_sample (Some (1 # 2))]
  = Some ([ Examples.last_sample (Some (1 # 2));
            {| timestamp := JS.Str "2024-03-01T12:00:01.000Z";
               pid := JS.Num 1234;
               cpu_user_percent := 5000 # 100;
               cpu_sys_percent := 2000 # 100;
               memory_percent := None;
               command := JS.Str "python3 worker.py" |} ], 3%nat).
Proof. vm_compute. reflexivity. Qed.

(** The last sample carries memory 0.5 and the third draw is 0.2515: the
    perturbed and clamped memory is the double 0.0030000000000000027, which
    is stored as the number 0, so the derived sample does carry a memory
    field. *)
Lemma stream_tick_stores_rounded_zero :
  Dashboard.clamp
    (JS.add (1 # 2)
       (JS.div (Dashboard.drift (Examples.tick_host [1 # 2; 1 # 2; 2515 # 10000]) 2) 5))
  == 27021597764223 # 9007199254740992
  /\ Dashboard.stream_tick (Examples.tick_host [1 # 2; 1 # 2; 2515 # 10000]) 0
       [Examples.last_sample (Some (1 # 2))]
     = Some ([ Examples.last_sample (Some (1 # 2));
               {| timestamp := JS.Str "2024-03-01T12:00:01.000Z";
                  pid := JS.Num 1234;
                  cpu_user_percent := 5000 # 100;
                  cpu_sys_percent := 2000 # 100;
                  memory_percent := Some (0 # 100);
                  command := JS.Str "python3 worker.py" |} ], 3%nat).
Proof. split; vm_compute; reflexivity. Qed.

(** The last sample carries memory 0.1 and the third draw is 0.45: the
    exact perturbation would be -0.1, but the doubles leave the residue
    2^-55, which is truthy and is stored as the number 0. *)
Example stream_tick_stores_binary_residue :
  Dashboard.clamp
    (JS.add (1 # 10)
       (JS.div (Dashboard.drift (Examples.tick_host [1 # 2; 1 # 2; 45 # 100]) 2) 5))
  == 1 # 36028797018963968
  /\ option_map (fun after => map memory_percent (fst after))
       (Dashboard.stream_tick (Examples.tick_host [1 # 2; 1 # 2; 45 # 100]) 0
          [Examples.last_sample (Some (1 # 10))])
     = Some [Some (1 # 10); Some (0 # 100)].
Proof. split; vm_compute; reflexivity. Qed.

(** ** Concrete runs of the filter and of the downsampling *)

(** The theorem of the filter on the reference host: the bounds are the
    instants of the third and of the fifth sample. *)
Lemma filteredData_reference :
  Dashboard.filteredData Examples.line_host false Examples.sample_loads
    EmptyString EmptyString = Examples.sample_loads
  /\ Dashboard.filteredData Examples.line_host false Examples.sample_loads
       "2024-03-01T12:00:02" "2024-03-01T12:00:04.000Z"
     = filter (fun d => Spec.in_range (Some (RefHost.epoch + 2000)%Z)
                          (Some (RefHost.epoch + 4000)%Z)
                          (Date_getTime Examples.line_host (timestamp d)))
         Examples.sample_loads.
Proof.
  apply (@filteredData_in_range Examples.line_host Examples.sample_loads
           "2024-03-01T12:00:02" "2024-03-01T12:00:04.000Z"
           (Some (RefHost.epoch + 2000)%Z) (Some (RefHost.epoch + 4000)%Z)).
  - split; [discriminate | reflexivity].
  - split; [discriminate | reflexivity].
Defined.

(** The samples at the two bounds are kept. *)
Example filteredData_keeps_boundaries :
  Dashboard.filteredData Examples.line_host false Examples.sample_loads
    "2024-03-01T12:00:02" "2024-03-01T12:00:04.000Z"
  = [Examples.sample 2 70 20; Examples.sample 3 8 2; Examples.sample 4 75 20].
Proof. vm_compute. reflexivity. Qed.

(** With the start absent the end alone bounds the view. *)
Example filteredData_open_start :
  Dashboard.filteredData Examples.line_host false Examples.sample_loads
    EmptyString "2024-03-01T12:00:01"
  = [Examples.sample 0 70 20; Examples.sample 1 70 20].
Proof. vm_compute. reflexivity. Qed.

(** The theorem of the downsampling on 250 samples. *)
Lemma downsample_many_samples :
  (100 * (Z.to_nat (GeminiService.step_of Examples.many_samples) - 1)
   < List.length Examples.many_samples
   <= 100 * Z.to_nat (GeminiService.step_of Examples.many_samples))%nat
  /\ (forall j, nth_error (GeminiService.downsample Examples.many_samples) j
                = nth_error Examples.many_samples
                    (j * Z.to_nat (GeminiService.step_of Examples.many_samples)))
  /\ (List.length (GeminiService.downsample Examples.many_samples) <= 100)%nat
  /\ hd_error (GeminiService.downsample Examples.many_samples)
     = hd_error Examples.many_samples
  /\ ((List.length Examples.many_samples <= 100)%nat ->
      GeminiService.downsample Examples.many_samples = Examples.many_samples).
Proof.
  apply (@downsample_every_Nth Examples.many_samples).
  unfold Examples.many_samples. simpl. discriminate.
Defined.

(** 250 samples are sent as the 84 samples at the indices 0, 3, 6, ... *)
Example downsample_many_samples_step :
  GeminiService.step_of Examples.many_samples = 3%Z
  /\ List.length (GeminiService.downsample Examples.many_samples) = 84%nat
  /\ GeminiService.downsample Examples.sample_loads = Examples.sample_loads
  /\ GeminiService.downsample [] = [].
Proof. repeat split; vm_compute; reflexivity. Qed.

(** ** The guard on the start of a run *)

(** A run whose first timestamp is the empty text is not reported, whatever
    its length: the sweep tests the start for truthiness. *)
Example alertIncidents_unstamped_run :
  Dashboard.alertIncidents Examples.unstamped_run 80 = Some [].
Proof. vm_compute. reflexivity. Qed.

(** Every producer of samples stamps them with a truthy value, provided the
    host prints no instant as the empty text. *)
Section Timestamps.
Context (host : Host).
Hypothesis toISOString_not_empty : forall t, Date_toISOString host t <> EmptyString.

Lemma iso_truthy (t : Z) : JS.truthy (JS.Str (Date_toISOString host t)) = true.
Proof. simpl. rewrite (str_empty_false (toISOString_not_empty t)). reflexivity. Qed.

Lemma parseLogData_stamped (input : string) :
  Forall Spec.stamped (Parser.parseLogData host input).
Proof.
  pose proof (parse_lines_accepted host (JS.split_lines (JS.trim input)) 0) as H.
  unfold Parser.parseLogData.
  induction H as [| line e lines es Hing _ IH]; constructor; [| exact IH].
  destruct Hing as [v [u [s [k [_ [_ [_ [_ [_ [_ [Hts _]]]]]]]]]]].
  unfold Spec.stamped. rewrite Hts.
  destruct (JS.truthy (Spec.field v "timestamp")) eqn:E; [exact E | apply iso_truthy].
Qed.

Lemma mock_loop_stamped (now : Z) (todo : nat) :
  forall i r, Forall Spec.stamped (Parser.mock_loop host now todo i r).
Proof.
  induction todo as [| todo IH]; intros i r; simpl; constructor; [| apply IH].
  apply iso_truthy.
Qed.

Lemma generateMockData_stamped (k r : nat) :
  Forall Spec.stamped (Parser.generateMockData host k r).
Proof. apply mock_loop_stamped. Qed.

Lemma next_entry_stamped (r : nat) (L e : CpuLogEntry) (r' : nat) :
  Dashboard.next_entry host r L = Some (e, r') -> Spec.stamped e.
Proof.
  intros H. destruct (@next_entry_inv host r L e r' H) as [t [_ [_ [Hts _]]]].
  unfold Spec.stamped. rewrite Hts. apply iso_truthy.
Qed.

End Timestamps.

Lemma RefHost_toISOString_not_empty (t : Z) : RefHost.toISOString t <> EmptyString.
Proof.
  unfold RefHost.toISOString.
  destruct (RefHost.civil_from_days (t / 86400000)) as [[y m] d].
  destruct (RefHost.pad 4 y); discriminate.
Qed.

(** A tick from a last sample at 50% user and 20% system load with memory
    45, on the draws 0.9, 0.1 and 0.7: the perturbations are 4, -2 and 0.4,
    and the new sample is stamped one second later. *)
Example stream_tick_from_50_20 :
  Dashboard.stream_tick (Examples.tick_host [9 # 10; 1 # 10; 7 # 10]) 0
    [Examples.last_sample (Some 45)]
  = Some ([ Examples.last_sample (Some 45);
            {| timestamp := JS.Str "2024-03-01T12:00:01.000Z";
               pid := JS.Num 1234;
               cpu_user_percent := 5400 # 100;
               cpu_sys_percent := 1800 # 100;
               memory_percent := Some (4540 # 100);
               command := JS.Str "python3 worker.py" |} ], 3%nat).
Proof. vm_compute. reflexivity. Qed.

(** A tick on the empty store, or from a timestamp the host cannot read,
    raises an exception. *)
Example stream_tick_exceptions :
  Dashboard.stream_tick (Examples.tick_host []) 0 [] = None
  /\ Dashboard.stream_tick (Examples.tick_host []) 0
       [{| timestamp := JS.Str "12:00:00"; pid := JS.Num 1;
           cpu_user_percent := 50; cpu_sys_percent := 20;
           memory_percent := None; command := JS.Undefined |}] = None.
Proof. split; vm_compute; reflexivity. Qed.

(** A tick from a last sample whose memory is 0 derives a sample without
    memory, and makes two draws only. *)
Example stream_tick_from_zero_memory :
  Dashboard.stream_tick (Examples.tick_host [9 # 10; 1 # 10; 7 # 10]) 0
    [Examples.last_sample (Some 0)]
  = Some ([ Examples.last_sample (Some 0);
            {| timestamp := JS.Str "2024-03-01T12:00:01.000Z";
               pid := JS.Num 1234;
               cpu_user_percent := 5400 # 100;
               cpu_sys_percent := 1800 # 100;
               memory_percent := None;
               command := JS.Str "python3 worker.py" |} ], 2%nat).
Proof. vm_compute. reflexivity. Qed.

(** ** Concrete runs of the analysis request *)

(** Without a key, or with the empty key, the promise rejects and no call
    is made; with a key, a throwing call, an empty answer and an answer
    that is no JSON text all resolve to the fallback, and a decodable answer
    resolves to what it decodes to. *)
Example analyzeCpuData_runs :
  let answer (a : GeminiService.GenerateResult) := fun _ : GeminiService.Request => a in
  let run key a := GeminiService.analyzeCpuData Examples.line_host key (answer a) Examples.sample_loads in
  let calls :=
    [ GeminiService.NewClient "secret";
      GeminiService.GenerateContent
        {| GeminiService.model := "gemini-2.5-flash";
           GeminiService.sampled := Examples.sample_loads |} ] in
  run None GeminiService.Throws
  = ([], GeminiService.Rejected GeminiService.missing_key_message)
  /\ run (Some EmptyString) (GeminiService.Response (Some Examples.line_zero_memory))
     = ([], GeminiService.Rejected GeminiService.missing_key_message)
  /\ run (Some "secret"%string) GeminiService.Throws
     = (calls, GeminiService.Resolved GeminiService.fallback)
  /\ run (Some "secret"%string) (GeminiService.Response None)
     = (calls, GeminiService.Resolved GeminiService.fallback)
  /\ run (Some "secret"%string) (GeminiService.Response (Some "not json"%string))
     = (calls, GeminiService.Resolved GeminiService.fallback)
  /\ run (Some "secret"%string) (GeminiService.Response (Some Examples.line_zero_memory))
     = (calls, GeminiService.Resolved Examples.line_zero_memory_value).
Proof. repeat split; vm_compute; reflexivity. Qed.

(** ** Incidents on arbitrary samples *)

Section IncidentsAnywhere.
Variable T : Q.

Lemma sweep_state_step_below (data pre cur rest : list CpuLogEntry)
  (acc : list Dashboard.Incident) (d : CpuLogEntry) :
  data = pre ++ cur ++ d :: rest ->
  Spec.above T d = false ->
  Dashboard.sweep_step data T (Spec.sweep_state acc cur) d (List.length (pre ++ cur))
  = Some (Spec.sweep_state (acc ++ Behaviour.report cur) []).
Proof.
  intros Hdata Hbelow. unfold Dashboard.sweep_step.
  change (JS.gtb (JS.add (cpu_user_percent d) (cpu_sys_percent d)) T) with (Spec.above T d).
  rewrite Hbelow. unfold Dashboard.run_reportable, Spec.sweep_state.
  cbn [Dashboard.consecutiveCount Dashboard.currentStart Dashboard.incidents
       Dashboard.currentMax].
  destruct cur as [| c cs].
  - cbn. rewrite app_nil_r. reflexivity.
  - unfold Behaviour.report, Behaviour.reported, Spec.sustained.
    destruct ((3 <=? List.length (c :: cs))%nat && JS.truthy (timestamp c)).
    + rewrite Hdata, at_pred_run. reflexivity.
    + rewrite app_nil_r. reflexivity.
Qed.

Lemma sweep_runs_anywhere (data : list CpuLogEntry) :
  forall (l pre cur : list CpuLogEntry) (acc : list Dashboard.Incident),
    data = pre ++ cur ++ l ->
    Dashboard.flush data
      (Dashboard.forEach_idx (Dashboard.sweep_step data T) l
         (List.length (pre ++ cur)) (Spec.sweep_state acc cur))
    = Some (acc ++ flat_map Behaviour.report (Spec.split_runs T cur l)).
Proof.
  induction l as [| d rest IH]; intros pre cur acc Hdata.
  - simpl Dashboard.forEach_idx. unfold Dashboard.flush, Dashboard.run_reportable.
    destruct cur as [| c cs].
    + simpl. rewrite app_nil_r. reflexivity.
    + unfold Spec.sweep_state.
      cbn [Dashboard.consecutiveCount Dashboard.currentStart Dashboard.incidents
           Dashboard.currentMax Spec.split_runs flat_map].
      unfold Behaviour.report, Behaviour.reported, Spec.sustained.
      destruct ((3 <=? List.length (c :: cs))%nat && JS.truthy (timestamp c)).
      * rewrite app_nil_r in Hdata.
        replace (Dashboard.at_pred data (List.length data)) with (Some (last cs c)).
        { rewrite app_nil_r. reflexivity. }
        symmetry. rewrite Hdata at 2. rewrite <- (app_nil_r (c :: cs)) in Hdata.
        rewrite Hdata. apply at_pred_run.
      * rewrite app_nil_r. reflexivity.
  - cbn [Dashboard.forEach_idx Spec.split_runs].
    destruct (Spec.above T d) eqn:Habove.
    + rewrite sweep_step_above by exact Habove.
      replace (S (List.length (pre ++ cur))) with (List.length (pre ++ cur ++ [d]))
        by (rewrite !length_app; simpl; lia).
      apply IH. rewrite Hdata, <- app_assoc. reflexivity.
    + rewrite (@sweep_state_step_below data pre cur rest acc d Hdata Habove).
      replace (S (List.length (pre ++ cur)))
        with (List.length ((pre ++ cur ++ [d]) ++ []))
        by (rewrite !length_app; simpl; lia).
      rewrite IH by (rewrite Hdata, <- !app_assoc; reflexivity).
      rewrite <- app_assoc. destruct cur; reflexivity.
Qed.

Lemma report_describes_reported (runs : list (list CpuLogEntry)) :
  Forall2 Spec.describes (filter Behaviour.reported runs) (flat_map Behaviour.report runs).
Proof.
  induction runs as [| run runs IH]; [constructor |].
  simpl. unfold Behaviour.report at 1. destruct run as [| d rest].
  - simpl. exact IH.
  - destruct (Behaviour.reported (d :: rest)); [| exact IH].
    simpl. constructor; [| exact IH].
    split; [| split]; simpl.
    + exists d, rest. repeat split.
    + apply (@peak_attained d rest).
    + intros x Hx. apply peak_bound. exact Hx.
Qed.

(** X1.  On any samples the incident sweep returns a list, never an
    exception: of the maximal runs whose load, the sum of doubles the code
    computes, is above the threshold it reports, in order,
    exactly those of length at least 3 whose first timestamp is truthy, and
    silently drops a sustained run that starts with a falsy timestamp. *)
Theorem alertIncidents_any_samples :
  forall (data : list CpuLogEntry),
    exists (runs : list (list CpuLogEntry)) (found : list Dashboard.Incident),
      Spec.maximal_runs T data runs
      /\ (forall runs', Spec.maximal_runs T data runs' -> runs' = runs)
      /\ Dashboard.alertIncidents data T = Some found
      /\ Forall2 Spec.describes (filter Behaviour.reported runs) found.
Proof.
  intros data.
  exists (Spec.split_runs T [] data), (flat_map Behaviour.report (Spec.split_runs T [] data)).
  split; [apply (@split_runs_maximal T data []); constructor |].
  split; [intros runs' H; apply maximal_runs_split; exact H |].
  split; [| apply report_describes_reported].
  apply (@sweep_runs_anywhere data data [] [] []). reflexivity.
Qed.

(** Lengths of runs. *)
Lemma split_runs_lengths (l : list CpuLogEntry) :
  forall cur,
    (list_sum (map (@List.length CpuLogEntry) (Spec.split_runs T cur l))
     <= List.length cur + List.length l)%nat.
Proof.
  induction l as [| d rest IH]; intros cur.
  - destruct cur; simpl; lia.
  - simpl. destruct (Spec.above T d).
    + specialize (IH (cur ++ [d])). rewrite length_app in IH. simpl in IH. lia.
    + specialize (IH []). destruct cur; simpl in *; lia.
Qed.

Lemma split_runs_above (l : list CpuLogEntry) :
  forall cur, Forall (fun d => Spec.above T d = true) cur ->
    Forall (Forall (fun d => Spec.above T d = true)) (Spec.split_runs T cur l).
Proof.
  induction l as [| d rest IH]; intros cur Hcur.
  - destruct cur; simpl; [constructor | constructor; [exact Hcur | constructor]].
  - simpl. destruct (Spec.above T d) eqn:E.
    + apply IH. apply Forall_app. split; [exact Hcur | repeat constructor; exact E].
    + destruct cur; [apply IH; constructor |].
      constructor; [exact Hcur | apply IH; constructor].
Qed.

Lemma report_length (run : list CpuLogEntry) :
  (3 * List.length (Behaviour.report run) <= List.length run)%nat.
Proof.
  unfold Behaviour.report, Behaviour.reported, Spec.sustained.
  destruct run as [| d rest]; [simpl; lia |].
  destruct (Nat.leb_spec 3 (List.length (d :: rest))) as [H | H]; simpl andb.
  - destruct (JS.truthy (timestamp d)); simpl List.length in *; lia.
  - simpl List.length. lia.
Qed.

Lemma report_lengths (runs : list (list CpuLogEntry)) :
  (3 * List.length (flat_map Behaviour.report runs)
   <= list_sum (map (@List.length CpuLogEntry) runs))%nat.
Proof.
  induction runs as [| run runs IH]; simpl; [lia |].
  rewrite length_app. pose proof (report_length run). lia.
Qed.

Lemma above_lt (d : CpuLogEntry) : Spec.above T d = true -> T < Spec.total d.
Proof.
  unfold Spec.above, JS.gtb, JS.ltb. intros H.
  apply Qnot_le_lt. intros Hle. apply Qle_bool_iff in Hle. rewrite Hle in H. discriminate.
Qed.

Lemma report_peaks (runs : list (list CpuLogEntry)) :
  Forall (Forall (fun d => Spec.above T d = true)) runs ->
  Forall (fun inc => T < Dashboard.maxVal inc) (flat_map Behaviour.report runs).
Proof.
  induction 1 as [| run runs Hrun _ IH]; simpl; [constructor |].
  apply Forall_app. split; [| exact IH].
  unfold Behaviour.report. destruct run as [| d rest]; [constructor |].
  destruct (Behaviour.reported (d :: rest)); [| constructor].
  constructor; [| constructor]. simpl.
  pose proof (peak_attained d rest) as Hin. apply in_map_iff in Hin.
  destruct Hin as [x [Hx Hin]]. rewrite <- Hx. apply above_lt.
  rewrite Forall_forall in Hrun. apply Hrun. exact Hin.
Qed.

(** X2.  Every incident reported has a peak strictly above the threshold,
    and the incidents are at most a third as many as the samples. *)
Theorem alertIncidents_peaks_and_count :
  forall (data : list CpuLogEntry),
    exists found,
      Dashboard.alertIncidents data T = Some found
      /\ Forall (fun inc => T < Dashboard.maxVal inc) found
      /\ (3 * List.length found <= List.length data)%nat.
Proof.
  intros data. exists (flat_map Behaviour.report (Spec.split_runs T [] data)).
  split; [apply (@sweep_runs_anywhere data data [] [] []); reflexivity |].
  split.
  - apply report_peaks. apply split_runs_above. constructor.
  - eapply Nat.le_trans; [apply report_lengths |].
    apply (split_runs_lengths data []).
Qed.

End IncidentsAnywhere.

(** ** Edges of the range filter *)

Section FilterEdges.
Context (host : Host).

Lemma filter_none {A : Type} (f : A -> bool) (l : list A) :
  (forall x, f x = false) -> filter f l = [].
Proof.
  intros H. induction l as [| x l IH]; simpl; [reflexivity |]. rewrite H. exact IH.
Qed.

Lemma time_geb_NaN_r (a : Dashboard.time_value) : Dashboard.time_geb a Dashboard.NaN = false.
Proof. destruct a; reflexivity. Qed.

(** X3.  Outside streaming the view is empty when a filter control holds a
    text the host cannot read as a date, and when the start bound lies after
    the end bound. *)
Theorem filteredData_empty_view :
  forall (localData : list CpuLogEntry) (filterStart filterEnd : string),
    (filterStart <> EmptyString /\ Date_getTime host (JS.Str filterStart) = None)
    \/ (filterEnd <> EmptyString /\ Date_getTime host (JS.Str filterEnd) = None)
    \/ (exists s e, Spec.stands_for host filterStart (Some s)
                    /\ Spec.stands_for host filterEnd (Some e) /\ (e < s)%Z) ->
    Dashboard.filteredData host false localData filterStart filterEnd = [].
Proof.
  intros localData filterStart filterEnd H. unfold Dashboard.filteredData.
  destruct H as [[Hne Hnan] | [[Hne Hnan] | [s [e [[Hs1 Hs2] [[He1 He2] Hlt]]]]]].
  - rewrite (str_empty_false Hne). simpl. apply filter_none. intros d.
    unfold Dashboard.bound_time at 1. rewrite Hnan, time_geb_NaN_r. reflexivity.
  - rewrite (str_empty_false Hne), andb_false_r. simpl negb. cbv iota.
    apply filter_none. intros d.
    unfold Dashboard.time_leb, Dashboard.bound_time at 2. rewrite Hnan. simpl.
    apply andb_false_r.
  - rewrite (str_empty_false Hs1), (str_empty_false He1). simpl.
    apply filter_none. intros d. unfold Dashboard.bound_time, Dashboard.time_leb.
    rewrite Hs2, He2. destruct (Dashboard.entry_time host d) as [| | | x]; try reflexivity.
    simpl. destruct (Z.leb_spec s x); destruct (Z.leb_spec x e); try reflexivity. lia.
Qed.

(** X4.  Outside streaming, as soon as one filter control is not empty the
    view holds only samples whose timestamp the host reads as an instant:
    samples with an unreadable timestamp are dropped, which with both
    controls empty they are not. *)
Theorem filteredData_readable_only :
  forall (localData : list CpuLogEntry) (filterStart filterEnd : string),
    filterStart <> EmptyString \/ filterEnd <> EmptyString ->
    Forall (fun d => exists t, Date_getTime host (timestamp d) = Some t)
      (Dashboard.filteredData host false localData filterStart filterEnd).
Proof.
  intros localData filterStart filterEnd H. unfold Dashboard.filteredData.
  assert (E : JS.str_empty filterStart && JS.str_empty filterEnd = false).
  { destruct H as [H | H]; rewrite (str_empty_false H); [reflexivity | apply andb_false_r]. }
  rewrite E. apply Forall_forall. intros d Hd. apply filter_In in Hd.
  destruct Hd as [_ Hd]. unfold Dashboard.entry_time in Hd.
  destruct (Date_getTime host (timestamp d)) as [t |]; [exists t; reflexivity |].
  simpl in Hd. discriminate.
Qed.

Lemma formatForInput_not_empty (ts : string) :
  ts <> EmptyString -> Session.formatForInput ts <> EmptyString.
Proof.
  intros H. unfold Session.formatForInput.
  destruct (16 <=? String.length ts)%nat; [| exact H].
  destruct ts; [congruence | discriminate].
Qed.

Lemma last_snoc {A : Type} (pre : list A) (x d : A) : last (pre ++ [x]) d = x.
Proof. apply last_last. Qed.

(** X5.  On mount the end control is set to the first 16 characters of the
    last timestamp.  When the host reads that text as the instant [e], the
    first view holds no sample later than [e]; so the last sample itself is
    missing from it whenever its own instant lies after [e], as it does for
    a timestamp with seconds. *)
Theorem mount_view_ends_at_truncated_end :
  forall (pre : list CpuLogEntry) (L : CpuLogEntry) (saved : option string)
         (s : Session.State) (e : Z),
    Session.mount (pre ++ [L]) saved = Some s ->
    JS.truthy (timestamp L) = true ->
    Date_getTime host (JS.Str (Session.filterEnd s)) = Some e ->
    (exists b, timestamp L = JS.Str b /\ Session.filterEnd s = Session.formatForInput b)
    /\ Forall (fun d => exists t, Date_getTime host (timestamp d) = Some t /\ (t <= e)%Z)
         (Session.view host s)
    /\ (forall t, Date_getTime host (timestamp L) = Some t -> (e < t)%Z ->
        ~ In L (Session.view host s)).
Proof.
  intros pre L saved s e Hmount Hstamped He.
  unfold Session.mount in Hmount.
  destruct (pre ++ [L]) as [| first rest] eqn:Hdata.
  { destruct pre; discriminate. }
  unfold Session.filters_of in Hmount. rewrite <- Hdata in Hmount.
  rewrite last_snoc in Hmount.
  destruct (pre ++ [L]) as [| first' rest'] eqn:Hdata'; [discriminate |].
  inversion Hdata; subst first' rest'.
  destruct (timestamp first) as [| | | | a | |]; try discriminate.
  destruct (timestamp L) as [| | | | b | |] eqn:HL; try discriminate.
  inversion Hmount; subst s. clear Hmount.
  cbn [Session.filterEnd Session.with_filters] in He |- *.
  assert (Hb : b <> EmptyString) by (destruct b; [discriminate | discriminate]).
  pose proof (formatForInput_not_empty Hb) as Hfe.
  assert (Hview : Forall (fun d => exists t, Date_getTime host (timestamp d) = Some t /\ (t <= e)%Z)
             (Session.view host
                (Session.with_filters (Session.formatForInput a) (Session.formatForInput b)
                   {| Session.localData := first :: rest; Session.analysis := JS.Null;
                      Session.isAnalyzing := false; Session.filterStart := EmptyString;
                      Session.filterEnd := EmptyString;
                      Session.hasSavedAnalysis :=
                        match saved with Some text => negb (JS.str_empty text) | None => false end;
                      Session.cpuThreshold := 80; Session.isStreaming := false |}))).
  { unfold Session.view, Dashboard.filteredData.
    cbn [Session.isStreaming Session.localData Session.filterStart Session.filterEnd
         Session.with_filters].
    rewrite (str_empty_false Hfe), andb_false_r. simpl negb. cbv iota.
    apply Forall_forall. intros d Hd. apply filter_In in Hd. destruct Hd as [_ Hd].
    apply andb_prop in Hd. destruct Hd as [_ Hd].
    unfold Dashboard.time_leb, Dashboard.bound_time, Dashboard.entry_time in Hd.
    rewrite He in Hd.
    destruct (Date_getTime host (timestamp d)) as [t |]; [| discriminate].
    exists t. split; [reflexivity |]. simpl in Hd. apply Z.leb_le. exact Hd. }
  split; [exists b; split; reflexivity |]. split; [exact Hview |].
  intros t Ht Hlt Hin. rewrite Forall_forall in Hview.
  destruct (Hview L Hin) as [t' [Ht' Hle]]. rewrite HL in Ht'. rewrite Ht in Ht'.
  inversion Ht'. lia.
Qed.

End FilterEdges.

(** X3 on the reference host. *)
Lemma filteredData_unreadable_bound :
  Dashboard.filteredData Examples.line_host false Examples.sample_loads
    "yesterday" EmptyString = [].
Proof.
  apply (@filteredData_empty_view Examples.line_host Examples.sample_loads
           "yesterday" EmptyString).
  left. split; [discriminate | reflexivity].
Defined.


(** ** Sequences of stream ticks *)

Section TickSequences.
Context (host : Host).

Lemma next_entry_fails (r : nat) (L : CpuLogEntry) :
  Dashboard.next_entry host r L = None
  <-> Date_getTime host (timestamp L) = None
      \/ exists t, Date_getTime host (timestamp L) = Some t
                   /\ (8640000000000000 < Z.abs (t + 1000))%Z.
Proof.
  unfold Dashboard.next_entry.
  destruct (Date_getTime host (timestamp L)) as [t |].
  - unfold Dashboard.in_Date_range.
    destruct (Z.leb_spec (Z.abs (t + 1000)) 8640000000000000) as [Hle | Hgt].
    + destruct (memory_percent L) as [m |]; [destruct (JS.nonzero m) |];
        (split; [discriminate |]);
        (intros [H | [t' [H Hout]]]; [discriminate H | inversion H; subst t'; lia]).
    + destruct (memory_percent L) as [m |]; [destruct (JS.nonzero m) |];
        (split; [| reflexivity]); intros _; right; exists t;
        (split; [reflexivity | exact Hgt]).
  - destruct (memory_percent L) as [m |]; [destruct (JS.nonzero m) |];
      (split; [| reflexivity]); intros _; left; reflexivity.
Qed.

(** X7.  A stream tick raises an exception exactly when the store is empty,
    or the host cannot read the timestamp of its last sample, or the
    instant one second after that timestamp lies beyond the range of [Date]
    (more than 8.64e15 ms from the epoch); the random draws play no part
    in it. *)
Theorem stream_tick_fails_iff :
  forall (r : nat) (store : list CpuLogEntry),
    Dashboard.stream_tick host r store = None
    <-> store = []
        \/ exists pre L,
             store = pre ++ [L]
             /\ (Date_getTime host (timestamp L) = None
                 \/ exists t, Date_getTime host (timestamp L) = Some t
                              /\ (8640000000000000 < Z.abs (t + 1000))%Z).
Proof.
  intros r store. destruct store as [| x xs] using rev_ind.
  - split; [left; reflexivity | reflexivity].
  - clear IHxs. unfold Dashboard.stream_tick. rewrite last_entry_snoc.
    destruct (Dashboard.next_entry host r x) as [[e r'] |] eqn:E.
    + split; [discriminate |].
      intros [H | [pre [L [H Hnone]]]].
      * destruct xs; discriminate.
      * apply app_inj_tail in H. destruct H as [_ H]. subst L.
        apply (next_entry_fails r) in Hnone. congruence.
    + split; [| reflexivity]. intros _. right. exists xs, x.
      split; [reflexivity |]. apply (next_entry_fails r). exact E.
Qed.

Lemma next_entry_reads (r : nat) (L : CpuLogEntry) (t : Z) :
  Date_getTime host (timestamp L) = Some t ->
  Dashboard.in_Date_range (t + 1000) = true ->
  exists e r',
    Dashboard.next_entry host r L = Some (e, r')
    /\ timestamp e = JS.Str (Date_toISOString host (t + 1000)%Z)
    /\ pid e = pid L /\ command e = command L
    /\ (Behaviour.memoryless L = true -> memory_percent e = None /\ r' = (r + 2)%nat).
Proof.
  intros Ht Hrange. unfold Dashboard.next_entry, Behaviour.memoryless.
  rewrite Ht, Hrange.
  destruct (memory_percent L) as [m |]; [destruct (JS.nonzero m) |];
    (eexists; eexists; split; [reflexivity |]; cbn [timestamp pid command memory_percent];
     do 3 (split; [reflexivity |]); intros Hm; try discriminate Hm;
     split; reflexivity).
Qed.

Lemma rolling_window_snoc (store : list CpuLogEntry) (e : CpuLogEntry) :
  exists pre', Dashboard.rolling_window store e = pre' ++ [e]
               /\ List.length (pre' ++ [e]) = Nat.min 100 (List.length store + 1).
Proof.
  rewrite rolling_window_lastn. unfold Dashboard.MAX_HISTORY.
  rewrite (lastn_snoc 99). exists (Spec.lastn 99 store). split; [reflexivity |].
  rewrite length_app, lastn_length. cbn [List.length]. lia.
Qed.

Lemma stream_ticks_advance_gen (n : nat) :
  forall (r : nat) (pre : list CpuLogEntry) (L : CpuLogEntry) (t : Z),
    Date_getTime host (timestamp L) = Some t ->
    (forall i, (1 <= i <= n)%nat ->
       Date_getTime host (JS.Str (Date_toISOString host (t + Z.of_nat i * 1000)%Z))
       = Some (t + Z.of_nat i * 1000)%Z) ->
    (forall i, (1 <= i <= n)%nat ->
       Dashboard.in_Date_range (t + Z.of_nat i * 1000) = true) ->
    exists data' r' pre' L',
      Dashboard.stream_ticks host n r (pre ++ [L]) = Some (data', r')
      /\ data' = pre' ++ [L']
      /\ Date_getTime host (timestamp L') = Some (t + Z.of_nat n * 1000)%Z
      /\ pid L' = pid L /\ command L' = command L
      /\ ((1 <= n)%nat ->
          List.length data' = Nat.min 100 (List.length (pre ++ [L]) + n)
          /\ timestamp L' = JS.Str (Date_toISOString host (t + Z.of_nat n * 1000)%Z)).
Proof.
  induction n as [| n IH]; intros r pre L t Ht Hread Hrange.
  - exists (pre ++ [L]), r, pre, L. split; [reflexivity |]. split; [reflexivity |].
    split; [rewrite Ht; f_equal; lia |]. repeat split; lia.
  - assert (Hr1 : Dashboard.in_Date_range (t + 1000) = true).
    { pose proof (Hrange 1%nat ltac:(lia)) as H1.
      replace (t + Z.of_nat 1 * 1000)%Z with (t + 1000)%Z in H1 by lia. exact H1. }
    destruct (next_entry_reads r L Ht Hr1) as [e [r1 [He [Hts [Hpid [Hcmd _]]]]]].
    destruct (rolling_window_snoc (pre ++ [L]) e) as [pre1 [Hwin Hlen]].
    assert (Ht1 : Date_getTime host (timestamp e) = Some (t + 1000)%Z).
    { pose proof (Hread 1%nat ltac:(lia)) as H1.
      replace (t + Z.of_nat 1 * 1000)%Z with (t + 1000)%Z in H1 by lia.
      rewrite Hts. exact H1. }
    destruct (IH r1 pre1 e (t + 1000)%Z Ht1) as [data' [r' [pre' [L' [Hrun [Hd [HtL [Hp [Hc Hn]]]]]]]]].
    { intros i Hi. specialize (Hread (S i) ltac:(lia)).
      replace (t + 1000 + Z.of_nat i * 1000)%Z with (t + Z.of_nat (S i) * 1000)%Z by lia.
      exact Hread. }
    { intros i Hi. specialize (Hrange (S i) ltac:(lia)).
      replace (t + 1000 + Z.of_nat i * 1000)%Z with (t + Z.of_nat (S i) * 1000)%Z by lia.
      exact Hrange. }
    exists data', r', pre', L'.
    split.
    { simpl. rewrite (@stream_tick_appends host r pre L e r1 He), Hwin. exact Hrun. }
    split; [exact Hd |].
    split; [rewrite HtL; f_equal; lia |].
    split; [congruence |]. split; [congruence |].
    intros _. destruct n as [| n'].
    + simpl in Hrun. injection Hrun as Hdata Hr.
      assert (HL : L' = e).
      { rewrite Hd in Hdata. apply app_inj_tail in Hdata. destruct Hdata; congruence. }
      subst L'. split; [rewrite <- Hdata, Hlen; reflexivity |].
      rewrite Hts. reflexivity.
    + destruct (Hn ltac:(lia)) as [Hl Hs]. split.
      * rewrite Hl, Hlen. lia.
      * rewrite Hs. do 2 f_equal. lia.
Qed.

(** X8.  From a store whose last sample [L] is stamped with a readable
    instant [t], on a host that reads back the timestamps it prints for the
    next [n] seconds, these seconds lying within the range of [Date], [n]
    ticks in a row all succeed: the store then holds [min 100 (length + n)]
    samples and its newest sample is stamped exactly [n] seconds after [L]
    and carries the pid and the command of [L]. *)
Theorem stream_ticks_advance :
  forall (n r : nat) (pre : list CpuLogEntry) (L : CpuLogEntry) (t : Z),
    Date_getTime host (timestamp L) = Some t ->
    (forall i, (1 <= i <= n)%nat ->
       Date_getTime host (JS.Str (Date_toISOString host (t + Z.of_nat i * 1000)%Z))
       = Some (t + Z.of_nat i * 1000)%Z) ->
    (- 8640000000000000 <= t + 1000)%Z ->
    (t + Z.of_nat n * 1000 <= 8640000000000000)%Z ->
    (1 <= n)%nat ->
    exists data' r',
      Dashboard.stream_ticks host n r (pre ++ [L]) = Some (data', r')
      /\ List.length data' = Nat.min 100 (List.length (pre ++ [L]) + n)
      /\ timestamp (last data' L)
         = JS.Str (Date_toISOString host (t + Z.of_nat n * 1000)%Z)
      /\ pid (last data' L) = pid L
      /\ command (last data' L) = command L.
Proof.
  intros n r pre L t Ht Hread Hlo Hhi Hn.
  assert (Hrange : forall i, (1 <= i <= n)%nat ->
                     Dashboard.in_Date_range (t + Z.of_nat i * 1000) = true).
  { intros i Hi. apply in_Date_range_iff. nia. }
  destruct (stream_ticks_advance_gen r pre L Ht Hread Hrange)
    as [data' [r' [pre' [L' [Hrun [Hd [_ [Hp [Hc Hlen]]]]]]]]].
  destruct (Hlen Hn) as [Hl Hs].
  exists data', r'. split; [exact Hrun |]. split; [exact Hl |].
  subst data'. rewrite last_last. repeat split; assumption.
Qed.

Lemma stream_ticks_memoryless_gen (n : nat) :
  forall (r : nat) (pre : list CpuLogEntry) (L : CpuLogEntry)
         (data' : list CpuLogEntry) (r' : nat),
    Behaviour.memoryless L = true ->
    Dashboard.stream_ticks host (S n) r (pre ++ [L]) = Some (data', r') ->
    exists pre' L', data' = pre' ++ [L']
                    /\ memory_percent L' = None /\ r' = (r + 2 * S n)%nat.
Proof.
  induction n as [| n IH]; intros r pre L data' r' Hm Hrun;
    change (Dashboard.stream_ticks host (S ?k) r (pre ++ [L]))
      with (match Dashboard.stream_tick host r (pre ++ [L]) with
            | None => None
            | Some (d1, r1) => Dashboard.stream_ticks host k r1 d1
            end) in Hrun;
    unfold Dashboard.stream_tick in Hrun; rewrite last_entry_snoc in Hrun;
    destruct (Dashboard.next_entry host r L) as [[e r1] |] eqn:He; try discriminate;
    destruct (@next_entry_inv host r L e r1 He) as [t [Ht [Hrange _]]];
    destruct (next_entry_reads r L Ht Hrange) as [e' [r1' [He' [_ [_ [_ Hmem]]]]]];
    rewrite He in He'; inversion He'; subst e' r1';
    destruct (Hmem Hm) as [Hnone Hr];
    destruct (rolling_window_snoc (pre ++ [L]) e) as [pre1 [Hwin _]];
    rewrite Hwin in Hrun.
  - simpl in Hrun. inversion Hrun; subst data' r'.
    exists pre1, e. split; [reflexivity |]. split; [exact Hnone | lia].
  - assert (Hme : Behaviour.memoryless e = true)
      by (unfold Behaviour.memoryless; rewrite Hnone; reflexivity).
    destruct (IH r1 pre1 e data' r' Hme Hrun) as [pre' [L' [H1 [H2 H3]]]].
    exists pre', L'. split; [exact H1 |]. split; [exact H2 | lia].
Qed.

(** X9.  Once the last sample has no memory, or memory 0, the stream
    never produces memory again: after any number of successful ticks the
    newest sample has no [memory_percent], and each tick has made two random
    draws, none for the memory. *)
Theorem stream_ticks_memory_stays_absent :
  forall (n r : nat) (pre : list CpuLogEntry) (L : CpuLogEntry)
         (data' : list CpuLogEntry) (r' : nat),
    Behaviour.memoryless L = true ->
    Dashboard.stream_ticks host (S n) r (pre ++ [L]) = Some (data', r') ->
    memory_percent (last data' L) = None /\ r' = (r + 2 * S n)%nat.
Proof.
  intros n r pre L data' r' Hm Hrun.
  destruct (stream_ticks_memoryless_gen n r pre L Hm Hrun) as [pre' [L' [H1 [H2 H3]]]].
  subst data'. rewrite last_last. split; assumption.
Qed.

End TickSequences.

(** ** The statistics of a view *)

Section StatisticsOfData.



Lemma maxSeen_fold (l : list CpuLogEntry) :
  forall acc,
    let M := Dashboard.maxSeen (fold_left Dashboard.stats_step l acc) in
    Dashboard.maxSeen acc <= M
    /\ (forall x, In x l -> Spec.total x <= M)
    /\ (M = Dashboard.maxSeen acc \/ exists x, In x l /\ M = Spec.total x).
Proof.
  induction l as [| d l IH]; intros acc M.
  - subst M. simpl. split; [apply Qle_refl |]. split; [intros x [] | left; reflexivity].
  - subst M. simpl fold_left.
    destruct (IH (Dashboard.stats_step acc d)) as [H1 [H2 H3]].
    assert (Hstep : Dashboard.maxSeen acc <= Dashboard.maxSeen (Dashboard.stats_step acc d)
                    /\ Spec.total d <= Dashboard.maxSeen (Dashboard.stats_step acc d)
                    /\ (Dashboard.maxSeen (Dashboard.stats_step acc d) = Dashboard.maxSeen acc
                        \/ Dashboard.maxSeen (Dashboard.stats_step acc d) = Spec.total d)).
    { unfold Dashboard.stats_step, Spec.total. cbn [Dashboard.maxSeen].
      unfold JS.gtb, JS.ltb.
      destruct (Qle_bool (JS.add (cpu_user_percent d) (cpu_sys_percent d))
                  (Dashboard.maxSeen acc)) eqn:E;
        simpl.
      - apply Qle_bool_iff in E. split; [apply Qle_refl |]. split; [exact E | left; reflexivity].
      - split; [| split; [apply Qle_refl | right; reflexivity]].
        apply Qlt_le_weak, Qnot_le_lt. intros H. apply Qle_bool_iff in H. congruence. }
    destruct Hstep as [S1 [S2 S3]].
    split; [eapply Qle_trans; eassumption |]. split.
    + intros x [E | Hin]; [subst x; eapply Qle_trans; eassumption | apply H2; exact Hin].
    + destruct H3 as [H3 | [x [Hin Hx]]].
      * rewrite H3. destruct S3 as [S3 | S3]; [left; exact S3 |].
        right. exists d. split; [left; reflexivity | exact S3].
      * right. exists x. split; [right; exact Hin | exact Hx].
Qed.

(** X11.  On a non-empty view the peak shown is the text, with one decimal,
    of a number [M] that is at least 0 and at least the load of every
    sample, and that is 0 or the load of one of the samples: the greatest
    load, or 0 when no load is positive.  The load of a sample is the sum of
    its two readings as a double. *)
Theorem maxTotal_is_greatest_load :
  forall (d : CpuLogEntry) (data : list CpuLogEntry),
    exists M,
      Dashboard.maxTotal (Dashboard.stats (d :: data)) = JS.Str (JS.toFixed 1 M)
      /\ 0 <= M
      /\ (forall x, In x (d :: data) -> Spec.total x <= M)
      /\ (M = 0 \/ exists x, In x (d :: data) /\ M = Spec.total x).
Proof.
  intros d data.
  set (zero := {| Dashboard.sumUser := 0; Dashboard.sumSys := 0; Dashboard.sumMem := 0;
                  Dashboard.maxSeen := 0; Dashboard.memCount := 0 |}).
  destruct (maxSeen_fold (d :: data) zero) as [H1 [H2 H3]].
  exists (Dashboard.maxSeen (fold_left Dashboard.stats_step (d :: data) zero)).
  split; [reflexivity |]. split; [exact H1 |]. split; [exact H2 | exact H3].
Qed.

End StatisticsOfData.


(** The average is the one of the two values 40 and 50. *)
Example avgMem_of_mixed_samples_value :
  Behaviour.memory_values
    [Examples.last_sample None; Examples.last_sample (Some 40);
     Examples.last_sample (Some 50)] = [40; 50]
  /\ Dashboard.avgMem
       (Dashboard.stats [Examples.last_sample None; Examples.last_sample (Some 40);
                         Examples.last_sample (Some 50)])
     = JS.Str "45.0".
Proof. split; vm_compute; reflexivity. Qed.

(** The sums are those of doubles: for one sample at 0.1 and 0.25 the load
    is the double below 0.35 and the peak shown is 0.3; three memory values
    of 0.1 add up to the double above 0.3. *)
Example stats_of_doubles :
  Dashboard.maxTotal
    (Dashboard.stats
       [{| timestamp := JS.Str "2024-03-01T12:00:00.000Z"; pid := JS.Num 1;
           cpu_user_percent := 1 # 10; cpu_sys_percent := 1 # 4;
           memory_percent := None; command := JS.Undefined |}])
  = JS.Str "0.3"
  /\ Behaviour.js_sum [1 # 10; 1 # 10; 1 # 10]
     = 1351079888211149 # 4503599627370496
  /\ JS.gtb (Behaviour.js_sum [1 # 10; 1 # 10; 1 # 10]) (Float64.round (3 # 10)) = true.
Proof. repeat split; vm_compute; reflexivity. Qed.

(** ** Details of the ingestion, and the setup view *)

Section IngestionDetails.
Context (host : Host).

Lemma round_fixed_2_rounds (x : Q) : Behaviour.rounds x (JS.round_fixed 2 x).
Proof. split; [reflexivity | apply round_fixed_2_close]. Qed.

(** X12.  Every sample the parser returns comes, in order, from an accepted
    line, and each of its readings is the line's reading rounded to
    hundredths: a whole number of hundredths at most 0.005 away from it.  A
    memory value is present only when the line had a numeric one. *)
Theorem parseLogData_rounds_to_hundredths :
  forall (input : string),
    Forall2
      (fun line e =>
         exists (v : JS.value) (u s : Q),
           JSON_parse host (JS.trim line) = Some v
           /\ Spec.field v "cpu_user_percent" = JS.Num u
           /\ Spec.field v "cpu_sys_percent" = JS.Num s
           /\ Behaviour.rounds u (cpu_user_percent e)
           /\ Behaviour.rounds s (cpu_sys_percent e)
           /\ (forall m, memory_percent e = Some m ->
               exists m0, Spec.field v "memory_percent" = JS.Num m0
                          /\ Behaviour.rounds m0 m))
      (filter (Spec.accepted host) (JS.split_lines (JS.trim input)))
      (Parser.parseLogData host input).
Proof.
  intros input. unfold Parser.parseLogData.
  eapply Forall2_impl; [| apply parse_lines_accepted].
  intros line e [v [u [s [k [Hv [Hu [Hs [Eu [Es [Em _]]]]]]]]]].
  exists v, u, s. split; [exact Hv |]. split; [exact Hu |]. split; [exact Hs |].
  split; [rewrite Eu; apply round_fixed_2_rounds |].
  split; [rewrite Es; apply round_fixed_2_rounds |].
  intros m Hm. rewrite Em in Hm.
  destruct (Spec.field v "memory_percent") as [| | | m0 | | |]; try discriminate.
  destruct (JS.nonzero m0); [| discriminate].
  inversion Hm. exists m0. split; [reflexivity | apply round_fixed_2_rounds].
Qed.

Lemma trimStart_white (a s : string) :
  Behaviour.all_white a = true -> JS.trimStart (a ++ s) = JS.trimStart s.
Proof.
  induction a as [| c a IH]; intros H; [reflexivity |].
  unfold Behaviour.all_white in H. simpl in H. apply andb_prop in H. destruct H as [Hc Ha].
  simpl. rewrite Hc. apply IH. exact Ha.
Qed.

Lemma trimEnd_all_white (b : string) :
  Behaviour.all_white b = true -> JS.trimEnd b = EmptyString.
Proof.
  induction b as [| c b IH]; intros H; [reflexivity |].
  unfold Behaviour.all_white in H. simpl in H. apply andb_prop in H. destruct H as [Hc Hb].
  simpl. rewrite (IH Hb), Hc. reflexivity.
Qed.

Lemma trimEnd_white (s b : string) :
  Behaviour.all_white b = true -> JS.trimEnd (s ++ b) = JS.trimEnd s.
Proof.
  intros H. induction s as [| c s IH]; simpl.
  - apply trimEnd_all_white. exact H.
  - rewrite IH. reflexivity.
Qed.

Lemma trimStart_all_white (b : string) :
  Behaviour.all_white b = true -> JS.trimStart b = EmptyString.
Proof.
  induction b as [| c b IH]; intros H; [reflexivity |].
  unfold Behaviour.all_white in H. simpl in H. apply andb_prop in H. destruct H as [Hc Hb].
  simpl. rewrite Hc. apply IH. exact Hb.
Qed.

Lemma trim_white_r (s b : string) :
  Behaviour.all_white b = true -> JS.trim (s ++ b) = JS.trim s.
Proof.
  intros H. unfold JS.trim. induction s as [| c s IH].
  - simpl. rewrite (trimStart_all_white b H). reflexivity.
  - simpl. destruct (JS.is_white c); [exact IH |].
    change (String c (s ++ b)) with (String c s ++ b)%string.
    apply trimEnd_white. exact H.
Qed.

Lemma trim_pad (a s b : string) :
  Behaviour.all_white a = true -> Behaviour.all_white b = true ->
  JS.trim (a ++ s ++ b) = JS.trim s.
Proof.
  intros Ha Hb. unfold JS.trim. rewrite (trimStart_white a (s ++ b) Ha).
  apply (trim_white_r s b Hb).
Qed.

(** X13.  White space around a text does not matter: a line padded with
    blanks, tabs or a carriage return parses to the same sample (so the
    line ends of Windows files are harmless), and a padded input gives the
    same samples and the same outcome of the parse button. *)
Theorem parse_ignores_surrounding_whitespace :
  forall (a b text : string) (k : nat),
    Behaviour.all_white a = true -> Behaviour.all_white b = true ->
    Parser.parse_line host k (a ++ text ++ b) = Parser.parse_line host k text
    /\ Parser.parseLogData host (a ++ text ++ b) = Parser.parseLogData host text
    /\ SetupView.handleParse host (a ++ text ++ b) = SetupView.handleParse host text.
Proof.
  intros a b text k Ha Hb.
  unfold Parser.parse_line, SetupView.handleParse, Parser.parseLogData.
  rewrite (trim_pad a text b Ha Hb). repeat split; reflexivity.
Qed.

Lemma parseLogData_empty_iff (input : string) :
  Parser.parseLogData host input = []
  <-> filter (Spec.accepted host) (JS.split_lines (JS.trim input)) = [].
Proof.
  unfold Parser.parseLogData.
  pose proof (parse_lines_accepted host (JS.split_lines (JS.trim input)) 0) as H.
  split; intros E; rewrite E in H; inversion H; reflexivity.
Qed.

(** X14.  The parse button has three outcomes.  A blank input shows the
    message asking to paste data; an input with text but no accepted line
    shows the other message; otherwise the parsed samples are handed over,
    one for each accepted line.  The two messages differ. *)
Theorem handleParse_outcomes :
  forall (logInput : string),
    let kept := filter (Spec.accepted host) (JS.split_lines (JS.trim logInput)) in
    (JS.trim logInput = EmptyString ->
     SetupView.handleParse host logInput = SetupView.ShowError SetupView.paste_first)
    /\ (JS.trim logInput <> EmptyString -> kept = [] ->
        SetupView.handleParse host logInput
        = SetupView.ShowError SetupView.no_valid_lines)
    /\ (kept <> [] ->
        SetupView.handleParse host logInput
        = SetupView.DataLoaded (Parser.parseLogData host logInput)
        /\ List.length (Parser.parseLogData host logInput) = List.length kept)
    /\ SetupView.paste_first <> SetupView.no_valid_lines.
Proof.
  intros logInput kept. unfold SetupView.handleParse.
  split; [intros E; rewrite E; reflexivity |].
  split; [| split; [| discriminate]].
  - intros Hne Hkept. rewrite (str_empty_false Hne).
    apply parseLogData_empty_iff in Hkept. rewrite Hkept. reflexivity.
  - intros Hkept.
    assert (Hne : JS.trim logInput <> EmptyString).
    { intros E. apply Hkept. subst kept. rewrite E. simpl.
      unfold Spec.accepted, Spec.valid_line. simpl. reflexivity. }
    rewrite (str_empty_false Hne).
    assert (Hlen : List.length (Parser.parseLogData host logInput) = List.length kept).
    { symmetry. eapply Forall2_length. apply parse_lines_accepted. }
    split; [| exact Hlen].
    destruct (Parser.parseLogData host logInput) eqn:E; [| reflexivity].
    destruct kept; [congruence | discriminate].
Qed.




End IngestionDetails.

(** ** The handlers of the dashboard *)

Section SessionHandlers.
Context (host : Host).

Lemma downsample_small (data : list CpuLogEntry) :
  (List.length data <= 100)%nat -> GeminiService.downsample data = data.
Proof.
  intros Hle. destruct data as [| d data]; [reflexivity |].
  apply nth_error_ext. intros j.
  rewrite (@downsample_nth (d :: data) j) by discriminate.
  rewrite step_of_ceiling.
  replace (Z.to_nat ((Z.of_nat (List.length (d :: data)) + 99) / 100)) with 1%nat.
  - f_equal. lia.
  - simpl List.length in *.
    assert (H : ((Z.of_nat (S (List.length data)) + 99) / 100 = 1)%Z).
    { symmetry. apply (Z.div_unique _ 100 1 (Z.of_nat (S (List.length data)) - 1)); lia. }
    rewrite H. reflexivity.
Qed.

(** X16.  Analysing while the stream runs, once confirmed and with a
    credential, sends the whole rolling window as it stands after the last
    tick: the window never exceeds 100 samples, so nothing is sampled out,
    and the time filters play no part.  The stream is then stopped and the
    window is kept. *)
Theorem handleAnalyze_streaming_sends_window :
  forall (r : nat) (store window : list CpuLogEntry) (r' : nat)
         (key : string)
         (generateContent : GeminiService.Request -> GeminiService.GenerateResult)
         (s : Session.State),
    Dashboard.stream_tick host r store = Some (window, r') ->
    Session.localData s = window ->
    Session.isStreaming s = true ->
    key <> EmptyString ->
    let done := Session.handleAnalyze host true (Some key) generateContent s in
    fst done
    = [GeminiService.NewClient key;
       GeminiService.GenerateContent
         {| GeminiService.model := "gemini-2.5-flash";
            GeminiService.sampled := window |}]
    /\ Session.isStreaming (snd done) = false
    /\ Session.localData (snd done) = window.
Proof.
  intros r store window r' key generateContent s Htick Hdata Hlive Hkey done.
  destruct (@stream_tick_window host r store window r' Htick) as [_ Hlen].
  subst done. unfold Session.handleAnalyze. rewrite Hlive. simpl andb. cbv iota.
  unfold Session.view. rewrite Hlive, Hdata.
  change (Dashboard.filteredData host true window (Session.filterStart s)
            (Session.filterEnd s)) with window.
  unfold GeminiService.analyzeCpuData. rewrite (str_empty_false Hkey).
  rewrite (downsample_small window Hlen).
  destruct (generateContent _) as [| [text |]].
  - simpl. auto.
  - destruct (JS.str_empty text); [simpl; auto |].
    destruct (JSON_parse host text); simpl; auto.
  - simpl. auto.
Qed.

(** X17.  The analyse button never touches the samples, the filters or
    the saved flag.  Declining the confirmation asked while streaming
    changes nothing and calls nothing.  Otherwise it ends with the stream
    stopped and the busy flag cleared, having made the calls of
    [analyzeCpuData] on the current view; without a credential the error is
    swallowed, no call is made and the report shown before stays; a result
    replaces the report. *)
Theorem handleAnalyze_state_effects :
  forall (confirmed : bool) (API_KEY : option string)
         (generateContent : GeminiService.Request -> GeminiService.GenerateResult)
         (s : Session.State),
    let done := Session.handleAnalyze host confirmed API_KEY generateContent s in
    let settled :=
      GeminiService.analyzeCpuData host API_KEY generateContent (Session.view host s) in
    Session.localData (snd done) = Session.localData s
    /\ Session.filterStart (snd done) = Session.filterStart s
    /\ Session.filterEnd (snd done) = Session.filterEnd s
    /\ Session.hasSavedAnalysis (snd done) = Session.hasSavedAnalysis s
    /\ (Session.isStreaming s = true -> confirmed = false -> done = ([], s))
    /\ (Session.isStreaming s = false \/ confirmed = true ->
        Session.isStreaming (snd done) = false
        /\ Session.isAnalyzing (snd done) = false
        /\ fst done = fst settled
        /\ (Spec.credential_absent API_KEY ->
            fst done = [] /\ Session.analysis (snd done) = Session.analysis s)
        /\ (forall result, snd settled = GeminiService.Resolved result ->
            Session.analysis (snd done) = result)).
Proof.
  intros confirmed API_KEY generateContent s done settled.
  subst done. unfold Session.handleAnalyze.
  destruct (Session.isStreaming s && negb confirmed) eqn:Hguard.
  - apply andb_prop in Hguard. destruct Hguard as [Hlive Hno].
    destruct confirmed; [discriminate |].
    do 4 (split; [reflexivity |]).
    split; [intros _ _; reflexivity | intros [H | H]; congruence].
  - fold settled.
    assert (Habsent : Spec.credential_absent API_KEY ->
                      settled = ([], GeminiService.Rejected GeminiService.missing_key_message)).
    { intros [H | H]; subst settled API_KEY; reflexivity. }
    destruct settled as [calls outcome].
    simpl fst. simpl snd.
    assert (Hopen : Session.isStreaming s = true -> confirmed = false -> False).
    { intros Hlive Hno. rewrite Hlive, Hno in Hguard. discriminate. }
    destruct outcome as [message | result].
    + do 4 (split; [reflexivity |]).
      split; [intros Hlive Hno; destruct (Hopen Hlive Hno) |].
      intros _. do 3 (split; [reflexivity |]). split.
      * intros H. specialize (Habsent H). inversion Habsent. split; reflexivity.
      * intros result Hres. discriminate.
    + do 4 (split; [reflexivity |]).
      split; [intros Hlive Hno; destruct (Hopen Hlive Hno) |].
      intros _. do 3 (split; [reflexivity |]). split.
      * intros H. specialize (Habsent H). inversion Habsent.
      * intros result' Hres. inversion Hres. reflexivity.
Qed.

(** X18.  Saving and loading round-trip: when the decoder of the host
    reads the text written for the report back as that report, saving sets
    the saved flag and a later load, from any state, shows the saved report
    and changes nothing else of that state. *)
Theorem saved_report_round_trip :
  forall (stringify : JS.value -> string) (slot : option string)
         (s later : Session.State),
    JS.truthy (Session.analysis s) = true ->
    stringify (Session.analysis s) <> EmptyString ->
    JSON_parse host (stringify (Session.analysis s)) = Some (Session.analysis s) ->
    let saved := Session.handleSaveAnalysis stringify slot s in
    Session.hasSavedAnalysis (snd saved) = true
    /\ Session.analysis (snd saved) = Session.analysis s
    /\ Session.analysis (Session.handleLoadAnalysis host (fst saved) later)
       = Session.analysis s
    /\ Session.with_analysis (Session.analysis later)
         (Session.handleLoadAnalysis host (fst saved) later) = later.
Proof.
  intros stringify slot s later Htruthy Htext Hparse saved.
  subst saved. unfold Session.handleSaveAnalysis. rewrite Htruthy. simpl fst. simpl snd.
  unfold Session.handleLoadAnalysis. rewrite (str_empty_false Htext), Hparse.
  repeat split. destruct later. reflexivity.
Qed.

(** X19.  Without a report the save button writes nothing and leaves the
    slot as it was.  Loading from an empty slot, an empty text or a text
    that is no JSON changes nothing; and a load that changes the state has
    read a non-empty text that decodes to the report then shown. *)
Theorem nothing_saved_nothing_loaded :
  forall (stringify : JS.value -> string) (slot : option string) (s : Session.State),
    (JS.truthy (Session.analysis s) = false ->
     Session.handleSaveAnalysis stringify slot s = (slot, s))
    /\ ((slot = None \/ slot = Some EmptyString
         \/ exists text, slot = Some text /\ JSON_parse host text = None) ->
        Session.handleLoadAnalysis host slot s = s)
    /\ (Session.handleLoadAnalysis host slot s <> s ->
        exists text, slot = Some text /\ text <> EmptyString
                     /\ JSON_parse host text
                        = Some (Session.analysis (Session.handleLoadAnalysis host slot s))).
Proof.
  intros stringify slot s. split; [| split].
  - intros H. unfold Session.handleSaveAnalysis. rewrite H. reflexivity.
  - intros [H | [H | [text [H Hnone]]]]; subst slot; try reflexivity.
    unfold Session.handleLoadAnalysis. rewrite Hnone.
    destruct (JS.str_empty text); reflexivity.
  - unfold Session.handleLoadAnalysis. destruct slot as [text |]; [| congruence].
    destruct text as [| c text]; [simpl; congruence |].
    simpl JS.str_empty. cbv iota.
    destruct (JSON_parse host (String c text)) as [result |] eqn:Hparse; [| congruence].
    intros _. exists (String c text). split; [reflexivity |].
    split; [discriminate | exact Hparse].
Qed.

End SessionHandlers.

(** X20.  Starting and stopping the stream (or stopping and starting it)
    gives back the state, except that a report shown before is gone; and
    right after the stream is started no report is shown. *)
Theorem toggleStream_twice_drops_report :
  forall (s : Session.State),
    Session.toggleStream (Session.toggleStream s)
    = (if JS.truthy (Session.analysis s) then Session.with_analysis JS.Null s else s)
    /\ (Session.isStreaming (Session.toggleStream s) = true ->
        JS.truthy (Session.analysis (Session.toggleStream s)) = false).
Proof.
  intros [d a b fs fe h t live]. unfold Session.toggleStream. simpl.
  destruct live; simpl; destruct (JS.truthy a) eqn:Ha; simpl; try rewrite Ha; simpl;
    split; try reflexivity; try discriminate; auto.
Qed.

(** ** Concrete runs of the further properties *)

(** X4 on the reference host, with a start bound only. *)
Lemma filteredData_reference_readable :
  Forall (fun d => exists t, Date_getTime Examples.line_host (timestamp d) = Some t)
    (Dashboard.filteredData Examples.line_host false Examples.unstamped_run
       "2024-03-01T12:00:01" EmptyString).
Proof.
  apply (@filteredData_readable_only Examples.line_host Examples.unstamped_run
           "2024-03-01T12:00:01" EmptyString).
  left. discriminate.
Defined.

(** The sample with the empty timestamp is dropped by a start bound that
    lies before every sample, and kept when both controls are empty. *)
Example filteredData_drops_unreadable :
  Dashboard.filteredData Examples.line_host false Examples.unstamped_run
    "2024-03-01T12:00:00" EmptyString
  = [Examples.sample 1 70 20; Examples.sample 2 70 20]
  /\ Dashboard.filteredData Examples.line_host false Examples.unstamped_run
       EmptyString EmptyString = Examples.unstamped_run.
Proof. split; vm_compute; reflexivity. Qed.

(** X5 on nine samples stamped as the capture script stamps them. *)
Lemma mount_captured_samples :
  (exists b, timestamp (Behaviour.captured 8) = JS.Str b
             /\ Session.filterEnd Behaviour.mounted = Session.formatForInput b)
  /\ Forall (fun d => exists t,
               Date_getTime Behaviour.report_host (timestamp d) = Some t
               /\ (t <= RefHost.epoch)%Z)
       (Session.view Behaviour.report_host Behaviour.mounted)
  /\ (forall t, Date_getTime Behaviour.report_host (timestamp (Behaviour.captured 8)) = Some t ->
      (RefHost.epoch < t)%Z ->
      ~ In (Behaviour.captured 8) (Session.view Behaviour.report_host Behaviour.mounted)).
Proof.
  apply (@mount_view_ends_at_truncated_end Behaviour.report_host
           (map Behaviour.captured (seq 0 8)) (Behaviour.captured 8) None
           Behaviour.mounted RefHost.epoch).
  - reflexivity.
  - reflexivity.
  - reflexivity.
Defined.

(** The first view after mounting on these samples holds the first sample
    only. *)
Example mount_captured_samples_view :
  Session.mount Behaviour.captured_samples None = Some Behaviour.mounted
  /\ Session.view Behaviour.report_host Behaviour.mounted = [Behaviour.captured 0].
Proof. split; vm_compute; reflexivity. Qed.

(** X8 for three ticks from one sample. *)
Lemma stream_ticks_three_seconds :
  exists data' r',
    Dashboard.stream_ticks (Examples.tick_host []) 3 0 ([] ++ [Examples.last_sample None])
    = Some (data', r')
    /\ List.length data' = Nat.min 100 (List.length ([] ++ [Examples.last_sample None]) + 3)
    /\ timestamp (last data' (Examples.last_sample None))
       = JS.Str (Date_toISOString (Examples.tick_host [])
                   (RefHost.epoch + Z.of_nat 3 * 1000)%Z)
    /\ pid (last data' (Examples.last_sample None)) = pid (Examples.last_sample None)
    /\ command (last data' (Examples.last_sample None))
       = command (Examples.last_sample None).
Proof.
  apply (@stream_ticks_advance (Examples.tick_host []) 3 0 [] (Examples.last_sample None)
           RefHost.epoch).
  - reflexivity.
  - intros i Hi.
    destruct i as [| [| [| [| i]]]]; try (exfalso; lia); vm_compute; reflexivity.
  - unfold RefHost.epoch. lia.
  - unfold RefHost.epoch. lia.
  - lia.
Defined.

(** X9 for two ticks from a sample without memory. *)
Lemma stream_ticks_without_memory :
  memory_percent (last (fst (Behaviour.ticked 2 (Examples.last_sample None)))
                    (Examples.last_sample None)) = None
  /\ snd (Behaviour.ticked 2 (Examples.last_sample None)) = (0 + 2 * 2)%nat.
Proof.
  apply (@stream_ticks_memory_stays_absent (Examples.tick_host []) 1 0 []
           (Examples.last_sample None)
           (fst (Behaviour.ticked 2 (Examples.last_sample None)))
           (snd (Behaviour.ticked 2 (Examples.last_sample None)))).
  - reflexivity.
  - vm_compute. reflexivity.
Defined.

(** X13 on a line preceded by two blanks and followed by a carriage
    return. *)
Lemma parse_padded_line :
  Parser.parse_line Examples.line_host 0 ("  " ++ Examples.line_zero_memory ++ Behaviour.padding)
  = Parser.parse_line Examples.line_host 0 Examples.line_zero_memory
  /\ Parser.parseLogData Examples.line_host ("  " ++ Examples.line_zero_memory ++ Behaviour.padding)
     = Parser.parseLogData Examples.line_host Examples.line_zero_memory
  /\ SetupView.handleParse Examples.line_host
       ("  " ++ Examples.line_zero_memory ++ Behaviour.padding)
     = SetupView.handleParse Examples.line_host Examples.line_zero_memory.
Proof.
  apply (@parse_ignores_surrounding_whitespace Examples.line_host "  " Behaviour.padding
           Examples.line_zero_memory 0).
  - reflexivity.
  - reflexivity.
Defined.

(** X16 after the first tick of a stream, with a client that throws. *)
Lemma handleAnalyze_after_first_tick :
  fst (Session.handleAnalyze (Examples.tick_host []) true (Some "key"%string)
         (fun _ => GeminiService.Throws) Behaviour.live)
  = [GeminiService.NewClient "key";
     GeminiService.GenerateContent
       {| GeminiService.model := "gemini-2.5-flash";
          GeminiService.sampled := fst (Behaviour.ticked 1 (Examples.last_sample None)) |}]
  /\ Session.isStreaming
       (snd (Session.handleAnalyze (Examples.tick_host []) true (Some "key"%string)
               (fun _ => GeminiService.Throws) Behaviour.live)) = false
  /\ Session.localData
       (snd (Session.handleAnalyze (Examples.tick_host []) true (Some "key"%string)
               (fun _ => GeminiService.Throws) Behaviour.live))
     = fst (Behaviour.ticked 1 (Examples.last_sample None)).
Proof.
  apply (@handleAnalyze_streaming_sends_window (Examples.tick_host []) 0
           [Examples.last_sample None]
           (fst (Behaviour.ticked 1 (Examples.last_sample None)))
           (snd (Behaviour.ticked 1 (Examples.last_sample None)))
           "key" (fun _ => GeminiService.Throws) Behaviour.live).
  - vm_compute. reflexivity.
  - reflexivity.
  - reflexivity.
  - discriminate.
Defined.

(** X18 on the host that decodes the text of the report. *)
Lemma saved_report_is_loaded :
  Session.hasSavedAnalysis
    (snd (Session.handleSaveAnalysis (fun _ => Behaviour.report_text) None Behaviour.analysed))
  = true
  /\ Session.analysis
       (snd (Session.handleSaveAnalysis (fun _ => Behaviour.report_text) None Behaviour.analysed))
     = Session.analysis Behaviour.analysed
  /\ Session.analysis
       (Session.handleLoadAnalysis Behaviour.report_host
          (fst (Session.handleSaveAnalysis (fun _ => Behaviour.report_text) None
                  Behaviour.analysed))
          Behaviour.mounted)
     = Session.analysis Behaviour.analysed
  /\ Session.with_analysis (Session.analysis Behaviour.mounted)
       (Session.handleLoadAnalysis Behaviour.report_host
          (fst (Session.handleSaveAnalysis (fun _ => Behaviour.report_text) None
                  Behaviour.analysed))
          Behaviour.mounted)
     = Behaviour.mounted.
Proof.
  apply (@saved_report_round_trip Behaviour.report_host (fun _ => Behaviour.report_text)
           None Behaviour.analysed Behaviour.mounted).
  - reflexivity.
  - discriminate.
  - vm_compute. reflexivity.
Defined.

(** ** The view after a pause of the stream *)

Section PausedStream.
Context (host : Host).

Lemma stream_ticks_snoc (n : nat) :
  forall (r : nat) (data : list CpuLogEntry),
    Dashboard.stream_ticks host (S n) r data
    = match Dashboard.stream_ticks host n r data with
      | Some (data', r') => Dashboard.stream_tick host r' data'
      | None => None
      end.
Proof.
  induction n as [| n IH]; intros r data.
  - simpl. destruct (Dashboard.stream_tick host r data) as [[d1 r1] |]; reflexivity.
  - change (Dashboard.stream_ticks host (S (S n)) r data)
      with (match Dashboard.stream_tick host r data with
            | None => None
            | Some (d1, r1) => Dashboard.stream_ticks host (S n) r1 d1
            end).
    destruct (Dashboard.stream_tick host r data) as [[d1 r1] |] eqn:E.
    + rewrite IH. simpl. rewrite E. reflexivity.
    + simpl. rewrite E. reflexivity.
Qed.

Lemma lastn_app {A : Type} (k : nat) (a b : list A) :
  Spec.lastn k (a ++ b) = Spec.lastn (k - List.length b) a ++ Spec.lastn k b.
Proof.
  unfold Spec.lastn. rewrite length_app, skipn_app. f_equal.
  - destruct (Nat.le_gt_cases (List.length b) k) as [H | H].
    + f_equal. lia.
    + rewrite !skipn_all2 by lia. reflexivity.
  - f_equal. lia.
Qed.

Lemma lastn_suffix {A : Type} (k : nat) (l : list A) :
  exists dropped, l = dropped ++ Spec.lastn k l.
Proof.
  unfold Spec.lastn. exists (firstn (List.length l - k) l).
  symmetry. apply firstn_skipn.
Qed.

Lemma Forall_lastn {A : Type} (P : A -> Prop) (k : nat) (l : list A) :
  Forall P l -> Forall P (Spec.lastn k l).
Proof.
  intros H. destruct (lastn_suffix k l) as [dropped E]. rewrite E in H.
  apply Forall_app in H. apply H.
Qed.

Lemma filter_nothing {A : Type} (f : A -> bool) (l : list A) :
  (forall x, In x l -> f x = false) -> filter f l = [].
Proof.
  intros H. induction l as [| x l IH]; simpl; [reflexivity |].
  rewrite (H x (or_introl eq_refl)). apply IH. intros y Hy. apply H. right. exact Hy.
Qed.

(** The store after [n] ticks: what is left of the samples held before,
    followed by the samples the ticks made, each stamped a whole number of
    seconds after [L]. *)
Lemma stream_ticks_shape (r : nat) (pre : list CpuLogEntry) (L : CpuLogEntry) (t : Z) :
  Date_getTime host (timestamp L) = Some t ->
  forall (n : nat),
    (forall i, (1 <= i <= n)%nat ->
       Date_getTime host (JS.Str (Date_toISOString host (t + Z.of_nat i * 1000)%Z))
       = Some (t + Z.of_nat i * 1000)%Z) ->
    forall (data' : list CpuLogEntry) (r' : nat),
      Dashboard.stream_ticks host n r (pre ++ [L]) = Some (data', r') ->
      exists kept made,
        data' = kept ++ made
        /\ (exists dropped, pre ++ [L] = dropped ++ kept)
        /\ Forall (fun d => exists i, (1 <= i <= n)%nat
                     /\ Date_getTime host (timestamp d) = Some (t + Z.of_nat i * 1000)%Z)
             made
        /\ Date_getTime host (timestamp (last (kept ++ made) L))
           = Some (t + Z.of_nat n * 1000)%Z
        /\ kept ++ made <> []
        /\ List.length made = Nat.min n 100
        /\ ((1 <= n)%nat -> (List.length (kept ++ made) <= 100)%nat).
Proof.
  intros Ht. induction n as [| n IH]; intros Hread data' r' Hrun.
  - simpl in Hrun. injection Hrun as Hdata Hr. subst data'.
    exists (pre ++ [L]), []. rewrite app_nil_r, last_last.
    split; [reflexivity |]. split; [exists []; reflexivity |].
    split; [constructor |]. split; [rewrite Ht; f_equal; lia |].
    split; [destruct pre; discriminate |]. split; [reflexivity | lia].
  - rewrite stream_ticks_snoc in Hrun.
    destruct (Dashboard.stream_ticks host n r (pre ++ [L])) as [[dn rn] |] eqn:En;
      [| discriminate].
    destruct (IH ltac:(intros i Hi; apply Hread; lia) dn rn eq_refl)
      as [kept [made [Hdn [Hkept [Hmade [Hlast [Hne [Hlen Hwin]]]]]]]].
    subst dn.
    destruct (exists_last Hne) as [pre' [L' Hd]].
    rewrite Hd in Hlast. rewrite last_last in Hlast.
    rewrite Hd in Hrun. unfold Dashboard.stream_tick in Hrun.
    rewrite last_entry_snoc in Hrun.
    destruct (Dashboard.next_entry host rn L') as [[e r2] |] eqn:He; [| discriminate].
    injection Hrun as Hdata Hr.
    destruct (@next_entry_inv host rn L' e r2 He) as [t' [Ht' [_ [Hts _]]]].
    rewrite Hlast in Ht'. injection Ht' as Ht'. subst t'.
    assert (Hte : Date_getTime host (timestamp e) = Some (t + Z.of_nat (S n) * 1000)%Z).
    { rewrite Hts.
      replace (t + Z.of_nat n * 1000 + 1000)%Z with (t + Z.of_nat (S n) * 1000)%Z by lia.
      apply Hread. lia. }
    rewrite <- Hd in Hdata.
    rewrite rolling_window_lastn in Hdata. unfold Dashboard.MAX_HISTORY in Hdata.
    rewrite <- app_assoc, lastn_app in Hdata.
    exists (Spec.lastn (100 - List.length (made ++ [e])) kept),
           (Spec.lastn 100 (made ++ [e])).
    split; [symmetry; exact Hdata |].
    split.
    { destruct Hkept as [dropped Hk].
      destruct (lastn_suffix (100 - List.length (made ++ [e])) kept) as [dropped' Hk'].
      exists (dropped ++ dropped'). rewrite <- app_assoc, <- Hk'. exact Hk. }
    split.
    { apply Forall_lastn. apply Forall_app. split.
      - eapply Forall_impl; [| exact Hmade]. intros d [i [Hi Hdt]]. exists i. split; [lia | exact Hdt].
      - constructor; [| constructor]. exists (S n). split; [lia | exact Hte]. }
    assert (Hshape : Spec.lastn (100 - List.length (made ++ [e])) kept
                     ++ Spec.lastn 100 (made ++ [e])
                     = Spec.lastn 99 (kept ++ made) ++ [e]).
    { rewrite <- lastn_app, app_assoc. apply (lastn_snoc 99). }
    split; [rewrite Hshape, last_last; exact Hte |].
    split; [rewrite Hshape; destruct (Spec.lastn 99 (kept ++ made)); discriminate |].
    split.
    { rewrite lastn_length, length_app, Hlen. cbn [List.length]. lia. }
    intros _. rewrite <- lastn_app, lastn_length. lia.
Qed.

(** X21.  Pausing the stream brings the time filters back as they were
    set before.  When the end control reads as an instant not after the
    last sample held when the stream started, none of the samples the
    stream made is in the view: the view is the filtered rest of the older
    samples, and it is empty after 100 ticks or more, until the filters are
    reset. *)
Theorem paused_stream_hides_streamed_samples :
  forall (n r : nat) (pre : list CpuLogEntry) (L : CpuLogEntry) (t e : Z)
         (data' : list CpuLogEntry) (r' : nat) (s : Session.State),
    Date_getTime host (timestamp L) = Some t ->
    (forall i, (1 <= i <= n)%nat ->
       Date_getTime host (JS.Str (Date_toISOString host (t + Z.of_nat i * 1000)%Z))
       = Some (t + Z.of_nat i * 1000)%Z) ->
    Dashboard.stream_ticks host n r (pre ++ [L]) = Some (data', r') ->
    Session.localData s = data' ->
    Session.isStreaming s = false ->
    Session.filterEnd s <> EmptyString ->
    Date_getTime host (JS.Str (Session.filterEnd s)) = Some e ->
    (e <= t)%Z ->
    exists dropped kept,
      pre ++ [L] = dropped ++ kept
      /\ Session.view host s
         = Dashboard.filteredData host false kept
             (Session.filterStart s) (Session.filterEnd s)
      /\ ((100 <= n)%nat -> Session.view host s = []).
Proof.
  intros n r pre L t e data' r' s Ht Hread Hrun Hdata Hpaused Hfe Hend Hle.
  destruct (@stream_ticks_shape r pre L t Ht n Hread data' r' Hrun)
    as [kept [made [Hd [[dropped Hkept] [Hmade [_ [_ [Hlen Hwin]]]]]]]].
  rewrite Hd in Hdata.
  assert (Hview : Session.view host s
                  = Dashboard.filteredData host false kept
                      (Session.filterStart s) (Session.filterEnd s)).
  { unfold Session.view. rewrite Hpaused, Hdata. unfold Dashboard.filteredData.
    rewrite (str_empty_false Hfe), andb_false_r. simpl negb. cbv iota.
    rewrite filter_app.
    match goal with |- _ ++ ?x = _ => assert (Hnone : x = []) end.
    { apply filter_nothing. intros d Hin.
      rewrite Forall_forall in Hmade. destruct (Hmade d Hin) as [i [Hi Hdt]].
      unfold Dashboard.entry_time, Dashboard.bound_time. rewrite Hdt, Hend.
      apply andb_false_intro2. simpl. apply Z.leb_gt. lia. }
    rewrite Hnone, app_nil_r. reflexivity. }
  exists dropped, kept. split; [exact Hkept |]. split; [exact Hview |].
  intros Hn. rewrite Hview.
  assert (Hk : kept = []).
  { specialize (Hwin ltac:(lia)). rewrite length_app, Hlen in Hwin.
    destruct kept; [reflexivity | simpl in Hwin; lia]. }
  rewrite Hk. unfold Dashboard.filteredData.
  rewrite (str_empty_false Hfe), andb_false_r. reflexivity.
Qed.

End PausedStream.

(** X21 on the captured samples after two ticks. *)
Lemma paused_captured_stream :
  exists dropped kept,
    map Behaviour.captured (seq 0 8) ++ [Behaviour.captured 8] = dropped ++ kept
    /\ Session.view Behaviour.report_host Behaviour.paused
       = Dashboard.filteredData Behaviour.report_host false kept
           (Session.filterStart Behaviour.paused) (Session.filterEnd Behaviour.paused)
    /\ ((100 <= 2)%nat -> Session.view Behaviour.report_host Behaviour.paused = []).
Proof.
  apply (@paused_stream_hides_streamed_samples Behaviour.report_host 2 0
           (map Behaviour.captured (seq 0 8)) (Behaviour.captured 8)
           (RefHost.epoch + 8000)%Z RefHost.epoch
           (Session.localData Behaviour.paused)
           (match Dashboard.stream_ticks Behaviour.report_host 2 0
                    Behaviour.captured_samples with
            | Some after => snd after
            | None => 0%nat
            end)
           Behaviour.paused).
  - reflexivity.
  - intros i Hi. destruct i as [| [| [| i]]]; try (exfalso; lia); vm_compute; reflexivity.
  - vm_compute. reflexivity.
  - reflexivity.
  - reflexivity.
  - discriminate.
  - reflexivity.
  - vm_compute. discriminate.
Defined.

(** The paused store holds eleven samples, of which the view shows the
    first only. *)
Example paused_captured_stream_view :
  List.length (Session.localData Behaviour.paused) = 11%nat
  /\ Session.view Behaviour.report_host Behaviour.paused = [Behaviour.captured 0].
Proof. split; vm_compute; reflexivity. Qed.
